(** * react-hook-form-persist: the [useFormPersist] hook

    A shallow embedding of [src/useFormPersist.ts].  The hook body is two
    React effects (restore on mount, save on every change of the watched
    values) and the [clear] operation it returns.  The refs of the hook
    are a record, the collaborators (Storage adapter, [setValue], the two
    callbacks) are recorded in a chronological list of calls, and the code
    runs in a small state-and-exception monad over that world. *)

From Stdlib Require Import ZArith Lia List Bool Ascii String Permutation.
From Stdlib Require Import Decimal DecimalN DecimalPos DecimalFacts.
From stdpp Require Import base option strings gmap.
Import ListNotations.

Local Open Scope string_scope.
Local Open Scope list_scope.

(** ** JSON values

    What [JSON.parse] can return and [JSON.stringify] can print.  Numbers
    are the integers: [Date.now()], [timeout] and [_savedAt] are integer
    milliseconds; fractions and the IEEE special values are left out.  An
    object lists its own enumerable properties in the order [Object.keys]
    enumerates them; a JavaScript object has each name once. *)

#[warnings="-register-all"]
Inductive json : Type :=
| JNull
| JBool (b : bool)
| JNum (n : Z)
| JStr (s : string)
| JArr (l : list json)
| JObj (o : list (string * json)).

Abbreviation obj := (list (string * json)).

(** ** Objects as the code uses them *)

(** [Object.keys(o)] *)
Definition Object_keys (o : obj) : list string := map fst o.

(** [Object.entries(o)] *)
Definition Object_entries (o : obj) : list (string * json) := o.

(** [o[key]]: [None] is [undefined]. *)
Fixpoint obj_get (o : obj) (key : string) : option json :=
  match o with
  | [] => None
  | (k, v) :: o' => if String.eqb k key then Some v else obj_get o' key
  end.

(** [o[key] = v]: an existing property keeps its place, a new one is added
    last.  (JavaScript lists array-index keys first; the hook copies the
    fields in the order it received them and adds only [_savedAt] itself,
    so the order here is the one JavaScript keeps.) *)
Fixpoint obj_set (o : obj) (key : string) (v : json) : obj :=
  match o with
  | [] => [(key, v)]
  | (k, v') :: o' =>
      if String.eqb k key then (k, v) :: o' else (k, v') :: obj_set o' key v
  end.

(** [o[key] = v] on an object made by the literal [{}], whose prototype is
    [Object.prototype]: the name [__proto__] is an accessor inherited from
    the prototype, so assigning to it changes the prototype of [o] (or does
    nothing, for a value that is not an object) and adds no own property;
    own properties are all that [Object.keys], [Object.entries],
    [JSON.stringify] and [structuredClone] see.  Every other name is set
    as by [obj_set]. *)
Definition obj_assign (o : obj) (key : string) (v : json) : obj :=
  if String.eqb key "__proto__" then o else obj_set o key v.

(** The rest pattern [{ key: _, ...rest }]: every own property but [key]. *)
Definition obj_rest (o : obj) (key : string) : obj :=
  List.filter (fun kv => negb (String.eqb (fst kv) key)) o.

(** [arr.includes(key)] on an array of strings. *)
Definition includes (arr : list string) (key : string) : bool :=
  existsb (String.eqb key) arr.

(** [arr.sort()] on an array of strings: the default order compares code
    units, the result is the sorted arrangement of the elements. *)
Fixpoint sort_insert (k : string) (l : list string) : list string :=
  match l with
  | [] => [k]
  | h :: t => if String.leb k h then k :: l else h :: sort_insert k t
  end.

Definition Array_sort (l : list string) : list string :=
  fold_right sort_insert [] l.

(** [arr.every((x, i) => p x i)] and [arr.some(x => p x)]. *)
Fixpoint every_from {A} (p : A -> nat -> bool) (i : nat) (l : list A) : bool :=
  match l with
  | [] => true
  | x :: l' => p x i && every_from p (S i) l'
  end.

Definition Array_every {A} (p : A -> nat -> bool) (l : list A) : bool :=
  every_from p 0 l.

Definition Array_some {A} (p : A -> bool) (l : list A) : bool := existsb p l.

(** Decimal spelling of an array index, as property names of arrays and
    strings have it. *)
Fixpoint uint_chars (d : Decimal.uint) : string :=
  match d with
  | Nil => EmptyString
  | D0 d => String "0" (uint_chars d)
  | D1 d => String "1" (uint_chars d)
  | D2 d => String "2" (uint_chars d)
  | D3 d => String "3" (uint_chars d)
  | D4 d => String "4" (uint_chars d)
  | D5 d => String "5" (uint_chars d)
  | D6 d => String "6" (uint_chars d)
  | D7 d => String "7" (uint_chars d)
  | D8 d => String "8" (uint_chars d)
  | D9 d => String "9" (uint_chars d)
  end.

Definition index_key (i : nat) : string := uint_chars (N.to_uint (N.of_nat i)).

Fixpoint indexed_from {A} (f : A -> json) (i : nat) (l : list A) : obj :=
  match l with
  | [] => []
  | x :: l' => (index_key i, f x) :: indexed_from f (S i) l'
  end.

(** ** Exceptions and results *)

Inductive exn : Type :=
| SyntaxError   (* JSON.parse on a malformed text *)
| TypeError     (* destructuring null, or a failed coercion *)
| AdapterError. (* the Storage adapter's setItem raised *)

Inductive result (A : Type) : Type :=
| Returns (a : A)
| Throws (e : exn).
Arguments Returns {A} a.
Arguments Throws {A} e.

(** ** The platform

    The ECMAScript built-ins the hook calls.  They are not code of the
    repository, so the hook is written over any implementation of them.
    - [JSON_parse]: [None] is a raised SyntaxError.
    - [JSON_stringify]: the text of a value.
    - [ToNumber_object]: the numeric coercion of strings, arrays and
      objects (StringToNumber, ToPrimitive); [Returns None] is NaN,
      [Throws] a coercion that raises. *)

Class Platform : Type := {
  JSON_parse : string -> option json;
  JSON_stringify : json -> string;
  ToNumber_object : json -> result (option Z)
}.

(** ** The Storage interface ([getItem], [setItem], [removeItem])

    [getItem] returns [None] for null.  [setItem] returns [None] when the
    adapter raises (quota exceeded, access denied); the store is then as it
    was. *)

Class StorageAdapter (S : Type) : Type := {
  getItem : S -> string -> option string;
  setItem : S -> string -> string -> option S;
  removeItem : S -> string -> S
}.

(** An in-memory store without limit. *)
#[export] Instance MapStorage : StorageAdapter (gmap string string) := {
  getItem s k := s !! k;
  setItem s k v := Some (<[k := v]> s);
  removeItem s k := delete k s
}.

(** A store whose [setItem] raises on values longer than the quota. *)
Record QuotaStore : Type := {
  cells : gmap string string;
  quota : nat
}.

#[export] Instance QuotaStorage : StorageAdapter QuotaStore := {
  getItem s k := cells s !! k;
  setItem s k v :=
    if Nat.leb (String.length v) (quota s)
    then Some {| cells := <[k := v]> (cells s); quota := quota s |}
    else None;
  removeItem s k := {| cells := delete k (cells s); quota := quota s |}
}.

(** ** Configuration ([FormPersistConfig])

    [storage], [control] and [setValue] are the collaborators; the two
    callbacks are external code, the record says whether each is given. *)

Record FormPersistConfig : Type := {
  exclude : list string;
  onDataRestored : bool;
  validate : bool;
  dirty : bool;
  touch : bool;
  onTimeout : bool;
  timeout : option Z;
  debounceDelay : Z
}.

(** The options object handed to [setValue]. *)
Record SetValueConfig : Type := {
  shouldValidate : bool;
  shouldDirty : bool;
  shouldTouch : bool
}.

(** ** Calls on the collaborators, in the order they are made

    [setValue] and the two callbacks are external code: a call is recorded
    and taken to return normally. *)

Inductive call : Type :=
| getItem_call (key : string)
| setItem_call (key value : string)
| removeItem_call (key : string)
| setValue_call (field : string) (value : option json) (opts : SetValueConfig)
| onTimeout_call
| onDataRestored_call (data : obj).

(** ** The refs of one hook instance and the world around it *)

Record Refs : Type := {
  debounceTimeoutRef : option positive;
  isRestoringRef : bool;
  isSavingRef : bool;
  lastValuesRef : obj;
  initializedRef : bool
}.

(** What a [setTimeout] callback of the save effect closes over. *)
Record SaveClosure : Type := {
  cl_name : string;
  cl_config : FormPersistConfig;
  cl_watchedValues : obj
}.

Record World (S : Type) : Type := {
  refs : Refs;
  storage : S;
  timers : list (positive * SaveClosure);
  nextTimer : positive;
  calls : list call
}.
Arguments refs {S} w.
Arguments storage {S} w.
Arguments timers {S} w.
Arguments nextTimer {S} w.
Arguments calls {S} w.

(** The refs as [useRef] initialises them. *)
Definition initialRefs : Refs := {|
  debounceTimeoutRef := None;
  isRestoringRef := false;
  isSavingRef := false;
  lastValuesRef := [];
  initializedRef := false
|}.

(** A freshly established binding over a given store. *)
Definition freshWorld {S} (s : S) : World S := {|
  refs := initialRefs;
  storage := s;
  timers := [];
  nextTimer := 1%positive;
  calls := []
|}.

(** ** The monad of the hook's code: state over the world, with exceptions *)

Definition M (S A : Type) : Type := World S -> result A * World S.

Definition ret {S A} (a : A) : M S A := fun w => (Returns a, w).

Definition bind {S A B} (m : M S A) (k : A -> M S B) : M S B :=
  fun w =>
    match m w with
    | (Returns a, w') => k a w'
    | (Throws e, w') => (Throws e, w')
    end.

Definition throw {S A} (e : exn) : M S A := fun w => (Throws e, w).

Declare Scope hook_scope.
Delimit Scope hook_scope with hook.
Notation "'let*' x ':=' m 'in' k" :=
  (bind m (fun x => k))
  (at level 10, x name, m at level 100, k at level 200) : hook_scope.
Notation "m '>>' k" :=
  (bind m (fun _ => k))
  (at level 90, right associativity) : hook_scope.
Local Open Scope hook_scope.

(** [if (c) body] without an else. *)
Definition when {S} (c : bool) (body : M S unit) : M S unit :=
  if c then body else ret tt.

(** [arr.forEach(f)] *)
Fixpoint forEach {S A} (l : list A) (f : A -> M S unit) : M S unit :=
  match l with
  | [] => ret tt
  | x :: l' => f x >> forEach l' f
  end.

(** Reading and writing the refs. *)
Definition readRefs {S} : M S Refs := fun w => (Returns (refs w), w).

Definition writeRefs {S} (f : Refs -> Refs) : M S unit :=
  fun w =>
    (Returns tt,
     {| refs := f (refs w); storage := storage w; timers := timers w;
        nextTimer := nextTimer w; calls := calls w |}).

Definition set_debounceTimeoutRef (v : option positive) (r : Refs) : Refs :=
  {| debounceTimeoutRef := v; isRestoringRef := isRestoringRef r;
     isSavingRef := isSavingRef r; lastValuesRef := lastValuesRef r;
     initializedRef := initializedRef r |}.

Definition set_isRestoringRef (v : bool) (r : Refs) : Refs :=
  {| debounceTimeoutRef := debounceTimeoutRef r; isRestoringRef := v;
     isSavingRef := isSavingRef r; lastValuesRef := lastValuesRef r;
     initializedRef := initializedRef r |}.

Definition set_isSavingRef (v : bool) (r : Refs) : Refs :=
  {| debounceTimeoutRef := debounceTimeoutRef r;
     isRestoringRef := isRestoringRef r; isSavingRef := v;
     lastValuesRef := lastValuesRef r; initializedRef := initializedRef r |}.

Definition set_lastValuesRef (v : obj) (r : Refs) : Refs :=
  {| debounceTimeoutRef := debounceTimeoutRef r;
     isRestoringRef := isRestoringRef r; isSavingRef := isSavingRef r;
     lastValuesRef := v; initializedRef := initializedRef r |}.

Definition set_initializedRef (v : bool) (r : Refs) : Refs :=
  {| debounceTimeoutRef := debounceTimeoutRef r;
     isRestoringRef := isRestoringRef r; isSavingRef := isSavingRef r;
     lastValuesRef := lastValuesRef r; initializedRef := v |}.

(** A call on a collaborator that returns nothing of interest. *)
Definition invoke {S} (c : call) : M S unit :=
  fun w =>
    (Returns tt,
     {| refs := refs w; storage := storage w; timers := timers w;
        nextTimer := nextTimer w; calls := calls w ++ [c] |}).

(** The host's timer queue. *)
Definition setTimeout {S} (cl : SaveClosure) : M S positive :=
  fun w =>
    (Returns (nextTimer w),
     {| refs := refs w; storage := storage w;
        timers := timers w ++ [(nextTimer w, cl)];
        nextTimer := Pos.succ (nextTimer w); calls := calls w |}).

Definition clearTimeout {S} (id : positive) : M S unit :=
  fun w =>
    (Returns tt,
     {| refs := refs w; storage := storage w;
        timers := List.filter (fun t => negb (Pos.eqb (fst t) id)) (timers w);
        nextTimer := nextTimer w; calls := calls w |}).

(** [structuredClone]: a deep copy; values here are immutable, the copy is
    the value. *)
Definition structuredClone (values : obj) : obj := values.

(** JavaScript truthiness of what [getItem] returned: null and the empty
    string are falsy. *)
Definition truthy_string (raw : option string) : bool :=
  match raw with
  | None => false
  | Some s => negb (String.eqb s "")
  end.

Section Hook.
Context {platform : Platform}.
Context {S : Type} {adapter : StorageAdapter S}.

(** The three operations of the adapter, as calls of the hook. *)
Definition storage_getItem (key : string) : M S (option string) :=
  invoke (getItem_call key) >>
  fun w => (Returns (getItem (storage w) key), w).

Definition storage_setItem (key value : string) : M S unit :=
  invoke (setItem_call key value) >>
  fun w =>
    match setItem (storage w) key value with
    | Some s' =>
        (Returns tt,
         {| refs := refs w; storage := s'; timers := timers w;
            nextTimer := nextTimer w; calls := calls w |})
    | None => (Throws AdapterError, w)
    end.

Definition storage_removeItem (key : string) : M S unit :=
  invoke (removeItem_call key) >>
  fun w =>
    (Returns tt,
     {| refs := refs w; storage := removeItem (storage w) key;
        timers := timers w; nextTimer := nextTimer w; calls := calls w |}).

(** [getStorageKey], line 31. *)
Definition getStorageKey (name : string) : string :=
  "react-hook-form-persist:" ++ name.

(** [clearStorage], line 41: what the hook returns as [clear]. *)
Definition clearStorage (name : string) : M S unit :=
  storage_removeItem (getStorageKey name).

(** [JSON.stringify(o[key])]: undefined prints as undefined. *)
Definition stringify_property (o : obj) (key : string) : option string :=
  match obj_get o key with
  | Some v => Some (JSON_stringify v)
  | None => None
  end.

Definition same_text (a b : option string) : bool :=
  match a, b with
  | Some x, Some y => String.eqb x y
  | None, None => true
  | _, _ => false
  end.

(** [valuesHaveChanged], line 46; [lastValues] is
    [lastValuesRef.current]. *)
Definition valuesHaveChanged (lastValues newValues : obj) : bool :=
  let newKeys := Array_sort (Object_keys newValues) in
  let lastKeys := Array_sort (Object_keys lastValues) in
  if negb (Nat.eqb (List.length newKeys) (List.length lastKeys))
     || negb (Array_every
                (fun key i =>
                   match nth_error lastKeys i with
                   | Some k => String.eqb key k
                   | None => false
                   end)
                newKeys)
  then true
  else
    Array_some
      (fun key =>
         negb (same_text (stringify_property newValues key)
                         (stringify_property lastValues key)))
      newKeys.

(** [const { _savedAt = null, ...values } = parsed], line 75.
    Destructuring null raises; a number or boolean has no own property;
    a string or array has its indices. *)
Definition destructure_savedAt (parsed : json) : result (json * obj) :=
  match parsed with
  | JNull => Throws TypeError
  | JBool _ | JNum _ => Returns (JNull, [])
  | JStr s =>
      Returns (JNull,
               indexed_from (fun c => JStr (String c EmptyString)) 0
                            (list_ascii_of_string s))
  | JArr l => Returns (JNull, indexed_from (fun v => v) 0 l)
  | JObj o =>
      Returns (match obj_get o "_savedAt" with
               | Some v => v
               | None => JNull
               end,
               obj_rest o "_savedAt")
  end.

(** The numeric coercion applied by [currTimestamp - _savedAt]. *)
Definition ToNumber (v : json) : result (option Z) :=
  match v with
  | JNull => Returns (Some 0%Z)
  | JBool b => Returns (Some (if b then 1%Z else 0%Z))
  | JNum n => Returns (Some n)
  | _ => ToNumber_object v
  end.

(** [timeout && currTimestamp - _savedAt > timeout], line 78.  An
    undefined or zero [timeout] is falsy and nothing else is evaluated; a
    comparison with NaN is false. *)
Definition isExpired (timeout : option Z) (currTimestamp : Z)
    (savedAt : json) : result bool :=
  match timeout with
  | None => Returns false
  | Some t =>
      if Z.eqb t 0 then Returns false
      else
        match ToNumber savedAt with
        | Throws e => Throws e
        | Returns None => Returns false
        | Returns (Some sa) => Returns (Z.gtb (currTimestamp - sa) t)
        end
  end.

Definition lift {A} (r : result A) : M S A :=
  match r with
  | Returns a => ret a
  | Throws e => throw e
  end.

(** The restore effect, lines 68-102.  [now] is what [Date.now()]
    returns during the effect. *)
Definition restoreEffect (name : string) (cfg : FormPersistConfig)
    (now : Z) : M S unit :=
  let* r := readRefs in
  if initializedRef r || isRestoringRef r then ret tt
  else
    writeRefs (set_isRestoringRef true) >>
    let* storageRawValues := storage_getItem (getStorageKey name) in
    (if truthy_string storageRawValues then
       let* parsed :=
         match JSON_parse (default "" storageRawValues) with
         | Some v => ret v
         | None => throw SyntaxError
         end in
       let* d := lift (destructure_savedAt parsed) in
       let savedAt := fst d in
       let values := snd d in
       let currTimestamp := now in
       let* expired := lift (isExpired (timeout cfg) currTimestamp savedAt) in
       if expired then
         when (onTimeout cfg) (invoke onTimeout_call) >>
         clearStorage name
       else
         writeRefs (set_lastValuesRef (structuredClone values)) >>
         forEach (Object_keys values)
           (fun key =>
              let shouldSet := negb (includes (exclude cfg) key) in
              when shouldSet
                (invoke
                   (setValue_call key (obj_get values key)
                      {| shouldValidate := validate cfg;
                         shouldDirty := dirty cfg;
                         shouldTouch := touch cfg |}))) >>
         when (onDataRestored cfg) (invoke (onDataRestored_call values))
     else ret tt) >>
    writeRefs (set_isRestoringRef false) >>
    writeRefs (set_initializedRef true).

(** The values to persist, lines 123-133: with a non-empty [exclude] the
    fields are assigned one by one to a new [{}] (lines 125-130), otherwise
    the watched values are copied by a spread (line 132), which defines
    own properties whatever their names. *)
Definition candidateValues (cfg : FormPersistConfig) (watchedValues : obj)
    : obj :=
  if Nat.ltb 0 (List.length (exclude cfg)) then
    fold_left
      (fun values kv =>
         if negb (includes (exclude cfg) (fst kv))
         then obj_assign values (fst kv) (snd kv)
         else values)
      (Object_entries watchedValues) []
  else watchedValues.

(** [saveToStorage], lines 118-144.  [now] is what [Date.now()] returns
    if it is called. *)
Definition saveToStorage (name : string) (cfg : FormPersistConfig)
    (watchedValues : obj) (now : Z) : M S unit :=
  let* r := readRefs in
  if isSavingRef r then ret tt
  else
    writeRefs (set_isSavingRef true) >>
    let values := candidateValues cfg watchedValues in
    let* r := readRefs in
    when (negb (Nat.eqb (List.length (Object_entries values)) 0)
          && valuesHaveChanged (lastValuesRef r) values)
      (let values :=
         match timeout cfg with
         | Some _ => obj_set values "_savedAt" (JNum now)
         | None => values
         end in
       storage_setItem (getStorageKey name) (JSON_stringify (JObj values)) >>
       writeRefs (set_lastValuesRef (structuredClone values))) >>
    writeRefs (set_isSavingRef false).

(** The filter of lines 152-155 and 162-166. *)
Definition shouldSkipSave (r : Refs) : bool :=
  isRestoringRef r || negb (initializedRef r) || isSavingRef r.

(** The body of a scheduled callback, lines 151-158. *)
Definition timerCallback (cl : SaveClosure) (now : Z) : M S unit :=
  let* r := readRefs in
  when (negb (shouldSkipSave r))
    (saveToStorage (cl_name cl) (cl_config cl) (cl_watchedValues cl) now).

(** The save effect, lines 117-170: it runs whenever the watched values
    (or another dependency) changed. *)
Definition saveEffect (name : string) (cfg : FormPersistConfig)
    (watchedValues : obj) (now : Z) : M S unit :=
  let* r := readRefs in
  match debounceTimeoutRef r with
  | Some id => clearTimeout id
  | None => ret tt
  end >>
  if Z.ltb 0 (debounceDelay cfg) then
    let* id := setTimeout {| cl_name := name; cl_config := cfg;
                             cl_watchedValues := watchedValues |} in
    writeRefs (set_debounceTimeoutRef (Some id))
  else
    let* r := readRefs in
    when (negb (shouldSkipSave r))
      (saveToStorage name cfg watchedValues now).

(** The cleanup the save effect returns, lines 172-176. *)
Definition saveEffectCleanup : M S unit :=
  let* r := readRefs in
  match debounceTimeoutRef r with
  | Some id => clearTimeout id
  | None => ret tt
  end.

(** The host fires a timer: a cleared or already fired handle does
    nothing. *)
Definition fireTimer (id : positive) (now : Z) : M S unit :=
  fun w =>
    match List.find (fun t => Pos.eqb (fst t) id) (timers w) with
    | Some (_, cl) => (clearTimeout id >> timerCallback cl now) w
    | None => (Returns tt, w)
    end.

(** The first render: both effects, in the order they are declared. *)
Definition mount (name : string) (cfg : FormPersistConfig)
    (watchedValues : obj) (now : Z) : M S unit :=
  restoreEffect name cfg now >> saveEffect name cfg watchedValues now.

(** A change notification: [useWatch] returned new values, React runs
    the cleanup of the previous save effect and the effect again. *)
Definition changeNotification (name : string) (cfg : FormPersistConfig)
    (watchedValues : obj) (now : Z) : M S unit :=
  saveEffectCleanup >> saveEffect name cfg watchedValues now.

(** The quiet period ends: the timer the hook holds, if still pending,
    fires. *)
Definition quietPeriodEnds (now : Z) : M S unit :=
  let* r := readRefs in
  match debounceTimeoutRef r with
  | Some id => fireTimer id now
  | None => ret tt
  end.

End Hook.

(** ** A platform to run the hook on

    An executable printer and reader of JSON texts for the values above,
    to run the hook on concrete records.  It covers a fragment of
    ECMAScript's [JSON]: compact texts, integer numbers, strings of
    single-byte characters.  Texts with fractions, exponents or [\u]
    escapes above [00FF] are outside it and rejected where [JSON.parse]
    reads them; a repeated member name is kept twice and members stay in
    the order of the text; an integer of 22 digits or more is printed in
    digits where [JSON.stringify] uses an exponent.  No property of the
    hook below is stated on this platform: each holds for every
    [Platform], and this one supplies the concrete runs. *)

Module RefJSON.

(** The double quote character, code 34. *)
Abbreviation DQ := (Ascii false true false false false true false false).

Definition print_Z (n : Z) (tail : string) : string :=
  match n with
  | Z0 => String "0" tail
  | Zpos p => uint_chars (Pos.to_uint p) ++ tail
  | Zneg p => String "-" (uint_chars (Pos.to_uint p) ++ tail)
  end.

Definition hex_digit (n : N) : ascii :=
  match n with
  | 0 => "0" | 1 => "1" | 2 => "2" | 3 => "3" | 4 => "4" | 5 => "5"
  | 6 => "6" | 7 => "7" | 8 => "8" | 9 => "9" | 10 => "a" | 11 => "b"
  | 12 => "c" | 13 => "d" | 14 => "e" | _ => "f"
  end%N%char.

(** The escape of one character inside a string literal: the quote and
    the backslash are escaped by a backslash, backspace, tab, line feed,
    form feed and carriage return by their letter, every other control
    character by its code. *)
Definition escape_char (c : ascii) (tail : string) : string :=
  let n := N_of_ascii c in
  if Ascii.eqb c DQ then String "\" (String DQ tail)
  else if Ascii.eqb c "\" then String "\" (String "\" tail)
  else if Ascii.eqb c "008" then String "\" (String "b" tail)
  else if Ascii.eqb c "009" then String "\" (String "t" tail)
  else if Ascii.eqb c "010" then String "\" (String "n" tail)
  else if Ascii.eqb c "012" then String "\" (String "f" tail)
  else if Ascii.eqb c "013" then String "\" (String "r" tail)
  else if N.ltb n 32 then
    String "\" (String "u" (String "0" (String "0"
      (String (hex_digit (N.div n 16)) (String (hex_digit (N.modulo n 16)) tail)))))
  else String c tail.

Fixpoint escape (s : string) (tail : string) : string :=
  match s with
  | EmptyString => tail
  | String c s' => escape_char c (escape s' tail)
  end.

Definition quote (s : string) (tail : string) : string :=
  String DQ (escape s (String DQ tail)).

(** The elements of an array and the members of an object, after the
    opening bracket, given the printer of a value. *)
Definition print_elements (print : json -> string -> string)
    : list json -> string -> string :=
  fix elements (l : list json) (tail : string) : string :=
    match l with
    | [] => String "]" tail
    | [x] => print x (String "]" tail)
    | x :: l' => print x (String "," (elements l' tail))
    end.

Definition print_members (print : json -> string -> string)
    : list (string * json) -> string -> string :=
  fix members (o : list (string * json)) (tail : string) : string :=
    match o with
    | [] => String "}" tail
    | [(k, x)] => quote k (String ":" (print x (String "}" tail)))
    | (k, x) :: o' =>
        quote k (String ":" (print x (String "," (members o' tail))))
    end.

(** [stringify_to v tail]: the compact text of [v] followed by [tail]. *)
Fixpoint stringify_to (v : json) (tail : string) : string :=
  match v with
  | JNull => String "n" (String "u" (String "l" (String "l" tail)))
  | JBool true => String "t" (String "r" (String "u" (String "e" tail)))
  | JBool false =>
      String "f" (String "a" (String "l" (String "s" (String "e" tail))))
  | JNum n => print_Z n tail
  | JStr s => quote s tail
  | JArr l => String "[" (print_elements stringify_to l tail)
  | JObj o => String "{" (print_members stringify_to o tail)
  end.

Definition stringify (v : json) : string := stringify_to v EmptyString.

Definition is_ws (c : ascii) : bool :=
  Ascii.eqb c " " || Ascii.eqb c "009" || Ascii.eqb c "010" || Ascii.eqb c "013".

Fixpoint skip_ws (s : string) : string :=
  match s with
  | String c s' => if is_ws c then skip_ws s' else s
  | EmptyString => s
  end.

(** Is [c] the next character of [s]?  And [s] without it. *)
Definition next_is (c : ascii) (s : string) : bool :=
  match s with
  | String c' _ => Ascii.eqb c' c
  | EmptyString => false
  end.

Definition drop1 (s : string) : string :=
  match s with
  | String _ s' => s'
  | EmptyString => s
  end.

Definition digit_of (c : ascii) : option (Decimal.uint -> Decimal.uint) :=
  match c with
  | "0" => Some D0 | "1" => Some D1 | "2" => Some D2 | "3" => Some D3
  | "4" => Some D4 | "5" => Some D5 | "6" => Some D6 | "7" => Some D7
  | "8" => Some D8 | "9" => Some D9 | _ => None
  end%char.

(** The longest run of digits at the head of [s]. *)
Fixpoint read_digits (s : string) : Decimal.uint * string :=
  match s with
  | String c s' =>
      match digit_of c with
      | Some d => let (u, rest) := read_digits s' in (d u, rest)
      | None => (Nil, s)
      end
  | EmptyString => (Nil, s)
  end.

Definition starts_fraction (s : string) : bool :=
  next_is "." s || next_is "e" s || next_is "E" s.

(** An integer literal without sign: no leading zero, no fraction. *)
Definition read_natural (s : string) : option (N * string) :=
  match read_digits s with
  | (Nil, _) => None
  | (D0 Nil, rest) => if starts_fraction rest then None else Some (0%N, rest)
  | (D0 _, _) => None
  | (u, rest) => if starts_fraction rest then None else Some (N.of_uint u, rest)
  end.

Definition hex_value (c : ascii) : option N :=
  let n := N_of_ascii c in
  if N.leb 48 n && N.leb n 57 then Some (n - 48)%N
  else if N.leb 97 n && N.leb n 102 then Some (n - 87)%N
  else if N.leb 65 n && N.leb n 70 then Some (n - 55)%N
  else None.

(** The character an escape stands for, and the text after the escape;
    [s] is what follows the backslash. *)
Definition read_escape (s : string) : option (ascii * string) :=
  match s with
  | String e s' =>
      if Ascii.eqb e DQ then Some (DQ, s')
      else if Ascii.eqb e "\" then Some ("\"%char, s')
      else if Ascii.eqb e "/" then Some ("/"%char, s')
      else if Ascii.eqb e "b" then Some ("008"%char, s')
      else if Ascii.eqb e "f" then Some ("012"%char, s')
      else if Ascii.eqb e "n" then Some ("010"%char, s')
      else if Ascii.eqb e "r" then Some ("013"%char, s')
      else if Ascii.eqb e "t" then Some ("009"%char, s')
      else if Ascii.eqb e "u" then
        match s' with
        | String "0" (String "0" (String h (String l rest))) =>
            match hex_value h, hex_value l with
            | Some a, Some b => Some (ascii_of_N (16 * a + b), rest)
            | _, _ => None
            end
        | _ => None
        end
      else None
  | EmptyString => None
  end.

(** The body of a string literal, after the opening quote.  The fuel
    bounds the characters read. *)
Fixpoint read_string (fuel : nat) (s : string) : option (string * string) :=
  match fuel with
  | O => None
  | Datatypes.S fuel =>
      match s with
      | EmptyString => None
      | String c s' =>
          if Ascii.eqb c DQ then Some (EmptyString, s')
          else if Ascii.eqb c "\" then
            match read_escape s' with
            | Some (ch, rest) =>
                match read_string fuel rest with
                | Some (str, rest') => Some (String ch str, rest')
                | None => None
                end
            | None => None
            end
          else if N.ltb (N_of_ascii c) 32 then None
          else
            match read_string fuel s' with
            | Some (str, rest) => Some (String c str, rest)
            | None => None
            end
      end
  end.

(** [s] without the prefix [word], if it starts with it. *)
Fixpoint strip_prefix (word s : string) : option string :=
  match word, s with
  | EmptyString, _ => Some s
  | String a word', String b s' =>
      if Ascii.eqb a b then strip_prefix word' s' else None
  | _, _ => None
  end.

Definition expect (word : string) (s : string) (v : json)
    : option (json * string) :=
  match strip_prefix word s with
  | Some rest => Some (v, rest)
  | None => None
  end.

(** Recursive descent; every call spends one unit of fuel. *)
Fixpoint parse_value (fuel : nat) (s : string) : option (json * string) :=
  match fuel with
  | O => None
  | Datatypes.S fuel =>
      match skip_ws s with
      | EmptyString => None
      | String c rest =>
          if Ascii.eqb c "n" then expect "ull" rest JNull
          else if Ascii.eqb c "t" then expect "rue" rest (JBool true)
          else if Ascii.eqb c "f" then expect "alse" rest (JBool false)
          else if Ascii.eqb c DQ then
            match read_string (String.length rest) rest with
            | Some (str, rest') => Some (JStr str, rest')
            | None => None
            end
          else if Ascii.eqb c "-" then
            match read_natural rest with
            | Some (n, rest') => Some (JNum (- Z.of_N n), rest')
            | None => None
            end
          else if Ascii.eqb c "[" then
            if next_is "]" (skip_ws rest)
            then Some (JArr [], drop1 (skip_ws rest))
            else
              match parse_elements fuel rest with
              | Some (l, rest') => Some (JArr l, rest')
              | None => None
              end
          else if Ascii.eqb c "{" then
            if next_is "}" (skip_ws rest)
            then Some (JObj [], drop1 (skip_ws rest))
            else
              match parse_members fuel rest with
              | Some (o, rest') => Some (JObj o, rest')
              | None => None
              end
          else
            match read_natural (String c rest) with
            | Some (n, rest') => Some (JNum (Z.of_N n), rest')
            | None => None
            end
      end
  end
with parse_elements (fuel : nat) (s : string)
    : option (list json * string) :=
  match fuel with
  | O => None
  | Datatypes.S fuel =>
      match parse_value fuel s with
      | Some (x, rest) =>
          let rest := skip_ws rest in
          if next_is "]" rest then Some ([x], drop1 rest)
          else if next_is "," rest then
            match parse_elements fuel (drop1 rest) with
            | Some (l, rest') => Some (x :: l, rest')
            | None => None
            end
          else None
      | None => None
      end
  end
with parse_members (fuel : nat) (s : string)
    : option (list (string * json) * string) :=
  match fuel with
  | O => None
  | Datatypes.S fuel =>
      let s := skip_ws s in
      if next_is DQ s then
        match read_string (String.length s) (drop1 s) with
        | Some (k, rest) =>
            let rest := skip_ws rest in
            if next_is ":" rest then
              match parse_value fuel (drop1 rest) with
              | Some (x, rest) =>
                  let rest := skip_ws rest in
                  if next_is "}" rest then Some ([(k, x)], drop1 rest)
                  else if next_is "," rest then
                    match parse_members fuel (drop1 rest) with
                    | Some (o, rest') => Some ((k, x) :: o, rest')
                    | None => None
                    end
                  else None
              | None => None
              end
            else None
        | None => None
        end
      else None
  end.

(** The whole text must be one value, up to white space. *)
Definition parse (s : string) : option json :=
  match parse_value (Datatypes.S (String.length s)) s with
  | Some (v, rest) =>
      match skip_ws rest with
      | EmptyString => Some v
      | _ => None
      end
  | None => None
  end.

(** The fuel a value needs: its nodes, and one more per element. *)
Fixpoint size (v : json) : nat :=
  match v with
  | JArr l => Datatypes.S (fold_right (fun x n => Datatypes.S (size x + n)) 0 l)
  | JObj o =>
      Datatypes.S (fold_right (fun kv n => Datatypes.S (size (snd kv) + n)) 0 o)
  | _ => 1
  end.

(** What may follow a number: no digit, no fraction, no exponent. *)
Definition number_end (s : string) : bool :=
  match s with
  | String c _ =>
      match digit_of c with
      | Some _ => false
      | None => negb (starts_fraction s)
      end
  | EmptyString => true
  end.

(** The first character of a printed value: not white space, not a
    closing bracket. *)
Definition starts_value (s : string) : bool :=
  match s with
  | String c _ =>
      negb (is_ws c) && negb (Ascii.eqb c "]") && negb (Ascii.eqb c "}")
  | EmptyString => false
  end.

(** The fuel the elements of an array and the members of an object need. *)
Definition elements_size (l : list json) : nat :=
  fold_right (fun x n => Datatypes.S (size x + n)) 0 l.

Definition members_size (o : list (string * json)) : nat :=
  fold_right (fun kv n => Datatypes.S (size (snd kv) + n)) 0 o.

(** [v] is read back from its text, whatever follows, given fuel for its
    size. *)
Definition parses_back (v : json) : Prop :=
  forall tail fuel,
    number_end tail = true -> size v <= fuel ->
    parse_value fuel (stringify_to v tail) = Some (v, tail).

(** The text of [v] has at least [size v] characters. *)
Definition long_enough (v : json) : Prop :=
  forall tail, size v + String.length tail <= String.length (stringify_to v tail).

End RefJSON.

(** The reference platform: the coercion of a string, array or object to
    a number is taken to give NaN. *)
Definition RefPlatform : Platform := {|
  JSON_parse := RefJSON.parse;
  JSON_stringify := RefJSON.stringify;
  ToNumber_object := fun _ => Returns None
|}.

(** ** Observations on a run *)

Definition is_setItem (c : call) : bool :=
  match c with setItem_call _ _ => true | _ => false end.

Definition is_setValue (c : call) : bool :=
  match c with setValue_call _ _ _ => true | _ => false end.

(** The writes made on the adapter, and the field-set calls made on the
    form, in order. *)
Definition writes (tr : list call) : list call := List.filter is_setItem tr.

Definition fieldSets (tr : list call) : list call := List.filter is_setValue tr.

(** The options [setValue] receives under a configuration. *)
Definition restoreFlags (cfg : FormPersistConfig) : SetValueConfig :=
  {| shouldValidate := validate cfg;
     shouldDirty := dirty cfg;
     shouldTouch := touch cfg |}.

(** One field-set call per key of [values] that is not excluded. *)
Definition setValueCalls (cfg : FormPersistConfig) (values : obj) : list call :=
  map (fun key => setValue_call key (obj_get values key) (restoreFlags cfg))
      (List.filter (fun key => negb (includes (exclude cfg) key))
                   (Object_keys values)).

(** Handles in the host's queue were all given out by [setTimeout]. *)
Definition timers_issued {S} (w : World S) : Prop :=
  Forall (fun t => (fst t < nextTimer w)%positive) (timers w).

(** A binding that has not run its restore effect. *)
Definition unrestored (r : Refs) : Prop :=
  initializedRef r = false /\ isRestoringRef r = false.

(** Worlds after an effect, spelled by what changed. *)
Definition with_refs {S} (f : Refs -> Refs) (w : World S) : World S :=
  {| refs := f (refs w); storage := storage w; timers := timers w;
     nextTimer := nextTimer w; calls := calls w |}.

Definition with_calls {S} (cs : list call) (w : World S) : World S :=
  {| refs := refs w; storage := storage w; timers := timers w;
     nextTimer := nextTimer w; calls := calls w ++ cs |}.

Definition with_storage {S} (s : S) (w : World S) : World S :=
  {| refs := refs w; storage := s; timers := timers w;
     nextTimer := nextTimer w; calls := calls w |}.

(** The refs once the restore effect has run to its end. *)
Definition restore_done (r : Refs) : Refs :=
  set_initializedRef true (set_isRestoringRef false (set_isRestoringRef true r)).

(** The refs once the restore effect has applied [values]. *)
Definition restore_applied (values : obj) (r : Refs) : Refs :=
  set_initializedRef true
    (set_isRestoringRef false
       (set_lastValuesRef values (set_isRestoringRef true r))).

(** The world after the expiry branch of the restore effect. *)
Definition expired_world {S} `{StorageAdapter S} (name : string)
    (cfg : FormPersistConfig) (w : World S) : World S :=
  with_refs restore_done
    (with_storage (removeItem (storage w) (getStorageKey name))
       (with_calls
          ([getItem_call (getStorageKey name)]
           ++ (if onTimeout cfg then [onTimeout_call] else [])
           ++ [removeItem_call (getStorageKey name)]) w)).

(** The world after the restoring branch of the restore effect. *)
Definition restored_world {S} (name : string) (cfg : FormPersistConfig)
    (values : obj) (w : World S) : World S :=
  with_refs (restore_applied values)
    (with_calls
       ([getItem_call (getStorageKey name)]
        ++ setValueCalls cfg values
        ++ (if onDataRestored cfg then [onDataRestored_call values] else []))
       w).

(** The condition of line 135 on the values to persist. *)
Definition saveWarranted `{Platform} (lastValues values : obj) : bool :=
  negb (Nat.eqb (List.length (Object_entries values)) 0)
  && valuesHaveChanged lastValues values.

(** The object handed to [JSON.stringify] at line 139. *)
Definition recordToPersist (cfg : FormPersistConfig) (values : obj) (now : Z)
    : obj :=
  match timeout cfg with
  | Some _ => obj_set values "_savedAt" (JNum now)
  | None => values
  end.

(** The refs after a save that wrote [record], and after one that did not
    write. *)
Definition save_written (record : obj) (r : Refs) : Refs :=
  set_isSavingRef false (set_lastValuesRef record (set_isSavingRef true r)).

Definition save_skipped (r : Refs) : Refs :=
  set_isSavingRef false (set_isSavingRef true r).

(** What a save can read or change: the three flags, the last saved
    values, the store and the calls made.  The timer bookkeeping is left
    out. *)
Definition session {S} (w : World S)
    : bool * bool * obj * bool * S * list call :=
  (isRestoringRef (refs w), isSavingRef (refs w), lastValuesRef (refs w),
   initializedRef (refs w), storage w, calls w).

(** The closure the save effect schedules for a render. *)
Definition closureOf (name : string) (cfg : FormPersistConfig)
    (watchedValues : obj) : SaveClosure :=
  {| cl_name := name; cl_config := cfg; cl_watchedValues := watchedValues |}.

(** The world once the timer the hook holds is cleared (lines 146-148 and
    173-175), and once a callback is scheduled (lines 151-159). *)
Definition cancelPending {S} (w : World S) : World S :=
  match debounceTimeoutRef (refs w) with
  | Some id =>
      {| refs := refs w; storage := storage w;
         timers := List.filter (fun t => negb (Pos.eqb (fst t) id)) (timers w);
         nextTimer := nextTimer w; calls := calls w |}
  | None => w
  end.

Definition schedule {S} (cl : SaveClosure) (w : World S) : World S :=
  {| refs := set_debounceTimeoutRef (Some (nextTimer w)) (refs w);
     storage := storage w;
     timers := timers w ++ [(nextTimer w, cl)];
     nextTimer := Pos.succ (nextTimer w);
     calls := calls w |}.

(** ** The life of a binding *)

(** At most one save is pending, and the hook holds its handle: what the
    clear-then-schedule discipline of lines 146-159 and the cleanup of
    lines 172-176 maintain. *)
Definition at_most_one_pending {S} (w : World S) : Prop :=
  match timers w with
  | [] => True
  | [(id, _)] => debounceTimeoutRef (refs w) = Some id
  | _ => False
  end.

(** A binding that is initialized and neither restoring nor saving: the
    filter of lines 152-155 and 162-166 lets its saves through. *)
Definition idle (r : Refs) : Prop :=
  isRestoringRef r = false /\ initializedRef r = true /\ isSavingRef r = false.

Definition timers_in_order {S} (w : World S) : Prop :=
  timers_issued w /\ at_most_one_pending w.

(** What can happen to a binding: React runs the restore effect (lines
    68-102), the save effect (lines 146-170) or its cleanup (lines
    172-176), the host fires a timer, the application calls [clear()]
    (lines 41-44).  Each carries the arguments of the render it belongs
    to. *)
Inductive event : Type :=
| RestoreEffectRuns (name : string) (cfg : FormPersistConfig) (now : Z)
| SaveEffectRuns (name : string) (cfg : FormPersistConfig) (watchedValues : obj)
    (now : Z)
| CleanupRuns
| TimerFires (id : positive) (now : Z)
| ClearCalled (name : string).

Section Runs.
Context {platform : Platform}.
Context {S : Type} {adapter : StorageAdapter S}.

Definition perform (ev : event) : M S unit :=
  match ev with
  | RestoreEffectRuns name cfg now => restoreEffect name cfg now
  | SaveEffectRuns name cfg watchedValues now =>
      saveEffect name cfg watchedValues now
  | CleanupRuns => saveEffectCleanup
  | TimerFires id now => fireTimer id now
  | ClearCalled name => clearStorage name
  end.

(** The world after a sequence of events; an event that raises leaves the
    world it raised in, and the next event starts from there. *)
Definition after (evs : list event) (w : World S) : World S :=
  fold_left (fun w ev => snd (perform ev w)) evs w.

End Runs.

(** ** The options as the caller gives them, and the component *)

(** The configuration object before the parameter defaults of lines 7-19
    apply: an option left out is [None] (a callback left out is [false]). *)
Record FormPersistOptions : Type := {
  opt_exclude : option (list string);
  opt_onDataRestored : bool;
  opt_validate : option bool;
  opt_dirty : option bool;
  opt_touch : option bool;
  opt_onTimeout : bool;
  opt_timeout : option Z;
  opt_debounceDelay : option Z
}.

(** The destructuring defaults of [useFormPersist] (lines 11-18):
    [exclude = []], [validate = false], [dirty = false], [touch = false],
    [debounceDelay = 0]; [timeout] has none. *)
Definition useFormPersist_config (o : FormPersistOptions) : FormPersistConfig := {|
  exclude := default [] (opt_exclude o);
  onDataRestored := opt_onDataRestored o;
  validate := default false (opt_validate o);
  dirty := default false (opt_dirty o);
  touch := default false (opt_touch o);
  onTimeout := opt_onTimeout o;
  timeout := opt_timeout o;
  debounceDelay := default 0%Z (opt_debounceDelay o)
|}.

(** The component [FormPersist]: it takes [form], [formKey] and [children]
    out of its props, passes the rest on as the hook's configuration
    (together with [form.control] and [form.setValue], which are the
    collaborators of the world here) and binds the hook to [formKey].  The
    result is the name and the configuration the hook runs with. *)
Module Component.

Record FormPersistProps : Type := {
  formKey : string;
  restProps : FormPersistOptions
}.

Definition FormPersist (props : FormPersistProps) : string * FormPersistConfig :=
  (formKey props, useFormPersist_config (restProps props)).

End Component.

(** ** Concrete bindings, for running the hook *)

(** The configuration with every option at its default. *)
Definition defaultConfig : FormPersistConfig := {|
  exclude := [];
  onDataRestored := false;
  validate := false;
  dirty := false;
  touch := false;
  onTimeout := false;
  timeout := None;
  debounceDelay := 0
|}.

(** A [timeout] and both callbacks given. *)
Definition timeoutConfig (t : Z) : FormPersistConfig := {|
  exclude := [];
  onDataRestored := true;
  validate := false;
  dirty := false;
  touch := false;
  onTimeout := true;
  timeout := Some t;
  debounceDelay := 0
|}.

(** One field excluded, the restore flags set, a debounce delay. *)
Definition excludingConfig : FormPersistConfig := {|
  exclude := ["b"];
  onDataRestored := true;
  validate := true;
  dirty := false;
  touch := true;
  onTimeout := false;
  timeout := None;
  debounceDelay := 500
|}.

Definition formName : string := "test-form-v1".

Definition formKey : string := "react-hook-form-persist:test-form-v1".

(** The text the reference platform prints for a record. *)
Definition text_of (record : obj) : string := RefJSON.stringify (JObj record).

(** An in-memory store holding [raw] under the form's key. *)
Definition storeWith (raw : string) : gmap string string :=
  {[ formKey := raw ]}.

(** A store that accepts no write. *)
Definition fullStore : QuotaStore := {| cells := ∅; quota := 0 |}.

(** A binding whose restore effect has run and found nothing. *)
Definition idleWorld {S} (s : S) : World S :=
  with_refs restore_done (freshWorld s).

(** ** Lists, keys and the change detector *)

Lemma length_sort_insert k l :
  List.length (sort_insert k l) = Datatypes.S (List.length l).
Proof.
  induction l as [|h t IH]; simpl; [reflexivity|].
  destruct (String.leb k h); simpl; [reflexivity|]. now rewrite IH.
Qed.

Lemma length_Array_sort l : List.length (Array_sort l) = List.length l.
Proof.
  induction l as [|h t IH]; simpl; [reflexivity|].
  now rewrite length_sort_insert, IH.
Qed.

Lemma every_from_self (pre l : list string) :
  every_from
    (fun key i =>
       match nth_error (pre ++ l) i with
       | Some k => String.eqb key k
       | None => false
       end)
    (List.length pre) l = true.
Proof.
  revert pre. induction l as [|x l IH]; intros pre; simpl; [reflexivity|].
  rewrite nth_error_app2 by lia. rewrite Nat.sub_diag. simpl.
  rewrite String.eqb_refl. simpl.
  specialize (IH (pre ++ [x])).
  rewrite <- app_assoc in IH. simpl in IH.
  rewrite length_app in IH. simpl in IH.
  replace (List.length pre + 1) with (Datatypes.S (List.length pre)) in IH by lia.
  exact IH.
Qed.

Lemma Object_keys_obj_set_fresh (o : obj) key v :
  obj_get o key = None ->
  Object_keys (obj_set o key v) = Object_keys o ++ [key].
Proof.
  induction o as [|[k x] o IH]; simpl; intros Hget; [reflexivity|].
  destruct (String.eqb k key); [discriminate|]. simpl. now rewrite IH.
Qed.

Lemma obj_get_obj_set (o : obj) key v : obj_get (obj_set o key v) key = Some v.
Proof.
  induction o as [|[k x] o IH]; simpl.
  - now rewrite String.eqb_refl.
  - destruct (String.eqb k key) eqn:E; simpl; rewrite E; [reflexivity|exact IH].
Qed.

Lemma obj_rest_absent (o : obj) key :
  obj_get o key = None -> obj_rest o key = o.
Proof.
  induction o as [|[k x] o IH]; simpl; intros Hget; [reflexivity|].
  destruct (String.eqb k key); [discriminate|]. simpl. now rewrite IH.
Qed.

(** Reading a property other than the one the rest pattern leaves out. *)
Lemma obj_get_obj_rest (o : obj) k key :
  key <> k -> obj_get (obj_rest o k) key = obj_get o key.
Proof.
  intros Hne. unfold obj_rest.
  induction o as [|[k' x] o IH]; simpl; [reflexivity|].
  destruct (String.eqb k' k) eqn:Ek; simpl.
  - apply String.eqb_eq in Ek. subst k'.
    destruct (String.eqb k key) eqn:E; [|exact IH].
    apply String.eqb_eq in E. congruence.
  - destruct (String.eqb k' key); [reflexivity|exact IH].
Qed.

Lemma filter_Object_keys (p : string -> bool) (o : obj) :
  List.filter p (Object_keys o)
  = Object_keys (List.filter (fun kv => p (fst kv)) o).
Proof.
  unfold Object_keys.
  induction o as [|[k x] o IH]; simpl; [reflexivity|].
  destruct (p k); simpl; now rewrite IH.
Qed.

(** With unique keys, an entry is what reading its key gives. *)
Lemma obj_get_entry (o : obj) key value :
  List.NoDup (Object_keys o) -> In (key, value) o -> obj_get o key = Some value.
Proof.
  induction o as [|[k x] o IH]; simpl; intros Hnd Hin; [contradiction|].
  inversion Hnd as [|? ? Hnotin Hnd']; subst.
  destruct Hin as [Heq | Hin].
  - inversion Heq; subst. now rewrite String.eqb_refl.
  - destruct (String.eqb k key) eqn:E; [|now apply IH].
    apply String.eqb_eq in E. subst k. exfalso. apply Hnotin.
    unfold Object_keys. apply in_map_iff. now exists (key, value).
Qed.

(** The field-set calls of a restore, spelled on the parsed record. *)
Lemma setValueCalls_of_record cfg (o : obj) :
  setValueCalls cfg (obj_rest o "_savedAt")
  = map (fun kv =>
           setValue_call (fst kv) (obj_get o (fst kv))
             {| shouldValidate := validate cfg;
                shouldDirty := dirty cfg;
                shouldTouch := touch cfg |})
        (List.filter (fun kv => negb (includes (exclude cfg) (fst kv)))
           (List.filter (fun kv => negb (String.eqb (fst kv) "_savedAt")) o)).
Proof.
  unfold setValueCalls, restoreFlags. rewrite filter_Object_keys.
  unfold Object_keys. rewrite map_map. apply map_ext_in.
  intros [k x] Hin. simpl. f_equal.
  apply List.filter_In in Hin. destruct Hin as [Hin _].
  apply List.filter_In in Hin. destruct Hin as [_ Hk]. simpl in Hk.
  apply negb_true_iff, String.eqb_neq in Hk.
  now apply obj_get_obj_rest.
Qed.

(** With unique keys, reading each key gives the entry's value. *)
Lemma obj_get_each_key (o : obj) (f : string -> option json -> call) :
  List.NoDup (Object_keys o) ->
  map (fun key => f key (obj_get o key)) (Object_keys o)
  = map (fun kv => f (fst kv) (Some (snd kv))) o.
Proof.
  induction o as [|[k x] o IH]; simpl; intros Hnd; [reflexivity|].
  inversion Hnd as [|? ? Hnotin Hnd']; subst.
  rewrite String.eqb_refl. f_equal.
  rewrite <- IH by exact Hnd'. apply map_ext_in. intros key Hin.
  destruct (String.eqb k key) eqn:E; [|reflexivity].
  apply String.eqb_eq in E. subst. contradiction.
Qed.

Lemma fieldSets_setValue (l : list (string * json)) opts :
  fieldSets (map (fun kv => setValue_call (fst kv) (Some (snd kv)) opts) l)
  = map (fun kv => setValue_call (fst kv) (Some (snd kv)) opts) l.
Proof.
  unfold fieldSets. induction l as [|kv l IH]; simpl; [reflexivity|].
  now rewrite IH.
Qed.

(** ** The reference platform reads back what it prints

    Every value of the fragment is JSON-serializable on the reference
    platform: the premise of the round trip below is met there by every
    snapshot. *)

Module RefJSONFacts.
Import RefJSON.

Lemma json_nested_ind (P : json -> Prop) :
  P JNull -> (forall b, P (JBool b)) -> (forall n, P (JNum n)) ->
  (forall s, P (JStr s)) ->
  (forall l, Forall P l -> P (JArr l)) ->
  (forall o, Forall (fun kv => P (snd kv)) o -> P (JObj o)) ->
  forall v, P v.
Proof.
  intros Hnull Hbool Hnum Hstr Harr Hobj. fix IH 1.
  intros [ | b | n | s | l | o];
    [exact Hnull | apply Hbool | apply Hnum | apply Hstr | | ].
  - apply Harr. revert l. fix IHl 1.
    intros [|x l]; constructor; [apply IH|apply IHl].
  - apply Hobj. revert o. fix IHo 1.
    intros [|[k x] o]; constructor; [apply IH|apply IHo].
Qed.

(** *** Strings *)

Lemma read_escape_char c rest :
  match escape_char c rest with
  | String b s =>
      if Ascii.eqb b DQ then False
      else if Ascii.eqb b "\" then read_escape s = Some (c, rest)
      else N.ltb (N_of_ascii b) 32 = false /\ b = c /\ s = rest
  | EmptyString => False
  end.
Proof.
  destruct c as [[] [] [] [] [] [] [] []]; vm_compute; auto.
Qed.

Lemma length_escape_char c rest :
  String.length rest < String.length (escape_char c rest).
Proof.
  unfold escape_char.
  destruct (Ascii.eqb c DQ); [simpl; lia|].
  destruct (Ascii.eqb c "\"); [simpl; lia|].
  destruct (Ascii.eqb c "008"); [simpl; lia|].
  destruct (Ascii.eqb c "009"); [simpl; lia|].
  destruct (Ascii.eqb c "010"); [simpl; lia|].
  destruct (Ascii.eqb c "012"); [simpl; lia|].
  destruct (Ascii.eqb c "013"); [simpl; lia|].
  destruct (N.ltb (N_of_ascii c) 32); simpl; lia.
Qed.

Lemma read_string_escape s tail fuel :
  String.length (escape s (String DQ tail)) <= fuel ->
  read_string fuel (escape s (String DQ tail)) = Some (s, tail).
Proof.
  revert fuel. induction s as [|c s IH]; intros fuel Hfuel; simpl in *.
  - destruct fuel; [lia|]. reflexivity.
  - pose proof (read_escape_char c (escape s (String DQ tail))) as Hc.
    pose proof (length_escape_char c (escape s (String DQ tail))) as Hl.
    destruct (escape_char c (escape s (String DQ tail))) as [|b r] eqn:E;
      [contradiction|].
    destruct fuel; [simpl in Hfuel; lia|]. simpl.
    destruct (Ascii.eqb b DQ); [contradiction|].
    destruct (Ascii.eqb b "\").
    + rewrite Hc. rewrite IH; [reflexivity|]. simpl in *. lia.
    + destruct Hc as (Hlt & -> & ->). rewrite Hlt.
      rewrite IH; [reflexivity|]. simpl in *. lia.
Qed.

(** *** Numbers *)

Lemma read_digits_end tail :
  number_end tail = true -> read_digits tail = (Nil, tail).
Proof.
  destruct tail as [|c t]; [reflexivity|]. simpl.
  destruct (digit_of c); [discriminate|reflexivity].
Qed.

Lemma read_digits_uint_chars d tail :
  number_end tail = true ->
  read_digits (uint_chars d ++ tail)%string = (d, tail).
Proof.
  intros Hend. induction d; simpl; try (rewrite IHd; reflexivity).
  now apply read_digits_end.
Qed.

Lemma number_end_fraction tail :
  number_end tail = true -> starts_fraction tail = false.
Proof.
  destruct tail as [|c t]; [reflexivity|]. unfold number_end.
  destruct (digit_of c); [discriminate|]. now intros ->%negb_true_iff.
Qed.

Lemma nzhead_not_D0 u v : nzhead u <> D0 v.
Proof. induction u; simpl; try discriminate. exact IHu. Qed.

Lemma to_uint_no_leading_zero p u : Pos.to_uint p <> D0 u.
Proof.
  intros E.
  pose proof (DecimalPos.Unsigned.to_of (Pos.to_uint p)) as Hn.
  rewrite DecimalPos.Unsigned.of_to in Hn. simpl in Hn.
  rewrite E in Hn. unfold unorm in Hn. simpl in Hn.
  destruct (nzhead u) eqn:Hz;
    try (symmetry in Hn; rewrite <- Hz in Hn; now apply nzhead_not_D0 in Hn).
  inversion Hn; subst.
  now apply (DecimalPos.Unsigned.to_uint_nonzero p).
Qed.

Lemma read_natural_pos p tail :
  number_end tail = true ->
  read_natural (uint_chars (Pos.to_uint p) ++ tail)%string = Some (Npos p, tail).
Proof.
  intros Hend. unfold read_natural.
  rewrite read_digits_uint_chars by exact Hend.
  rewrite (number_end_fraction tail Hend).
  pose proof (DecimalPos.Unsigned.of_to p) as Hof.
  destruct (Pos.to_uint p) eqn:E;
    try (change N.of_uint with Pos.of_uint; rewrite Hof; reflexivity).
  - now apply DecimalPos.Unsigned.to_uint_nonnil in E.
  - now apply to_uint_no_leading_zero in E.
Qed.

(** The first character of a printed number. *)
Lemma uint_chars_head p tail :
  exists c rest,
    (uint_chars (Pos.to_uint p) ++ tail)%string = String c rest /\
    is_ws c = false /\ Ascii.eqb c "n" = false /\ Ascii.eqb c "t" = false /\
    Ascii.eqb c "f" = false /\ Ascii.eqb c DQ = false /\
    Ascii.eqb c "-" = false /\ Ascii.eqb c "[" = false /\
    Ascii.eqb c "{" = false /\ Ascii.eqb c "]" = false /\
    Ascii.eqb c "}" = false.
Proof.
  destruct (Pos.to_uint p) eqn:E; simpl;
    try (eexists; eexists; split; [reflexivity|]; repeat split; reflexivity).
  now apply DecimalPos.Unsigned.to_uint_nonnil in E.
Qed.

(** *** Values *)

Lemma starts_value_quote s tail : starts_value (quote s tail) = true.
Proof. reflexivity. Qed.

Lemma stringify_to_starts v tail : starts_value (stringify_to v tail) = true.
Proof.
  destruct v as [ | [] | [|p|p] | s | l | o]; try reflexivity.
  simpl. destruct (uint_chars_head p tail)
    as (c & rest & -> & Hws & _ & _ & _ & _ & _ & _ & _ & Hb & Hc).
  simpl. now rewrite Hws, Hb, Hc.
Qed.

Lemma skip_ws_starts s :
  starts_value s = true ->
  skip_ws s = s /\ next_is "]" s = false /\ next_is "}" s = false.
Proof.
  destruct s as [|c r]; [discriminate|]. simpl.
  intros [[Hws%negb_true_iff Hb%negb_true_iff]%andb_prop Hc%negb_true_iff]%andb_prop.
  now rewrite Hws.
Qed.

Lemma parse_elements_print l :
  Forall parses_back l -> l <> [] ->
  forall tail fuel,
    elements_size l <= fuel ->
    parse_elements fuel (print_elements stringify_to l tail) = Some (l, tail).
Proof.
  induction 1 as [|x l Hx Hl IH]; [congruence|]. intros _ tail fuel Hfuel.
  destruct fuel as [|fuel]; [simpl in Hfuel; lia|].
  destruct l as [|y l].
  - simpl in *. rewrite Hx by (auto; lia). reflexivity.
  - change (print_elements stringify_to (x :: y :: l) tail)
      with (stringify_to x
              (String "," (print_elements stringify_to (y :: l) tail))).
    cbn [parse_elements].
    rewrite Hx by (auto; unfold elements_size in *; simpl in *; lia).
    cbn [skip_ws is_ws Ascii.eqb Bool.eqb orb next_is drop1].
    rewrite IH; [reflexivity|discriminate|].
    unfold elements_size in *. simpl in *. lia.
Qed.

Lemma parse_members_print o :
  Forall (fun kv => parses_back (snd kv)) o -> o <> [] ->
  forall tail fuel,
    members_size o <= fuel ->
    parse_members fuel (print_members stringify_to o tail) = Some (o, tail).
Proof.
  induction 1 as [|[k x] o Hx Ho IH]; [congruence|]. intros _ tail fuel Hfuel.
  destruct fuel as [|fuel]; [simpl in Hfuel; lia|].
  simpl in Hx.
  destruct o as [|[k' y] o].
  - change (print_members stringify_to [(k, x)] tail)
      with (quote k (String ":" (stringify_to x (String "}" tail)))).
    cbn [parse_members]. unfold quote.
    cbn [skip_ws is_ws Ascii.eqb Bool.eqb orb next_is drop1].
    rewrite read_string_escape by (simpl; lia).
    cbn [skip_ws is_ws Ascii.eqb Bool.eqb orb next_is drop1].
    rewrite Hx by (auto; simpl in *; lia). reflexivity.
  - change (print_members stringify_to ((k, x) :: (k', y) :: o) tail)
      with (quote k (String ":" (stringify_to x
              (String "," (print_members stringify_to ((k', y) :: o) tail))))).
    cbn [parse_members]. unfold quote.
    cbn [skip_ws is_ws Ascii.eqb Bool.eqb orb next_is drop1].
    rewrite read_string_escape by (simpl; lia).
    cbn [skip_ws is_ws Ascii.eqb Bool.eqb orb next_is drop1].
    rewrite Hx by (auto; unfold members_size in *; simpl in *; lia).
    cbn [skip_ws is_ws Ascii.eqb Bool.eqb orb next_is drop1].
    rewrite IH; [reflexivity|discriminate|].
    unfold members_size in *. simpl in *. lia.
Qed.

Lemma parse_value_stringify_to v : parses_back v.
Proof.
  induction v as [ | b | n | s | l Hl | o Ho] using json_nested_ind;
    intros tail fuel Hend Hfuel;
    (destruct fuel as [|fuel]; [simpl in Hfuel; lia|]).
  - reflexivity.
  - destruct b; reflexivity.
  - destruct n as [|p|p].
    + simpl. unfold read_natural. simpl.
      rewrite (read_digits_end tail Hend).
      now rewrite (number_end_fraction tail Hend).
    + simpl stringify_to. unfold print_Z.
      destruct (uint_chars_head p tail)
        as (c & rest & E & Hws & Hn & Ht & Hf & Hq & Hm & Hb & Hc & _).
      pose proof (read_natural_pos p tail Hend) as Hnat. rewrite E in *.
      cbn [parse_value skip_ws]. rewrite Hws, Hn, Ht, Hf, Hq, Hm, Hb, Hc.
      now rewrite Hnat.
    + simpl. now rewrite (read_natural_pos p tail Hend).
  - simpl. unfold quote. rewrite read_string_escape by lia. reflexivity.
  - destruct l as [|x l]; [reflexivity|].
    cbn [stringify_to parse_value skip_ws is_ws Ascii.eqb Bool.eqb orb].
    assert (Hs : starts_value (print_elements stringify_to (x :: l) tail) = true).
    { destruct l; apply stringify_to_starts. }
    destruct (skip_ws_starts _ Hs) as (-> & -> & _).
    rewrite (parse_elements_print (x :: l) Hl); [reflexivity|discriminate|].
    simpl in Hfuel. unfold elements_size. simpl. lia.
  - destruct o as [|[k x] o]; [reflexivity|].
    cbn [stringify_to parse_value skip_ws is_ws Ascii.eqb Bool.eqb orb].
    assert (Hs : starts_value (print_members stringify_to ((k, x) :: o) tail) = true).
    { destruct o as [|[k' y] o]; reflexivity. }
    destruct (skip_ws_starts _ Hs) as (-> & _ & ->).
    rewrite (parse_members_print ((k, x) :: o) Ho); [reflexivity|discriminate|].
    simpl in Hfuel. unfold members_size. simpl. lia.
Qed.

(** *** Fuel: a text is at least as long as its value is big *)

Lemma length_escape s tail : String.length tail <= String.length (escape s tail).
Proof.
  induction s as [|c s IH]; simpl; [lia|].
  pose proof (length_escape_char c (escape s tail)). lia.
Qed.

Lemma length_quote s tail :
  2 + String.length tail <= String.length (quote s tail).
Proof.
  unfold quote. simpl.
  pose proof (length_escape s (String DQ tail)). simpl in *. lia.
Qed.

Lemma length_string_append (s t : string) :
  String.length (s ++ t)%string = String.length s + String.length t.
Proof. induction s as [|c s IH]; simpl; [reflexivity|now rewrite IH]. Qed.

Lemma length_uint_chars p tail :
  1 + String.length tail
  <= String.length (uint_chars (Pos.to_uint p) ++ tail)%string.
Proof.
  rewrite length_string_append.
  destruct (Pos.to_uint p) eqn:E; simpl; try lia.
  now apply DecimalPos.Unsigned.to_uint_nonnil in E.
Qed.

Lemma length_print_elements l :
  Forall long_enough l ->
  forall tail,
    elements_size l + String.length tail
    <= String.length (print_elements stringify_to l tail).
Proof.
  induction 1 as [|x l Hx Hl IH]; intros tail; [simpl; lia|].
  destruct l as [|y l].
  - simpl. specialize (Hx (String "]" tail)). simpl in Hx. lia.
  - change (print_elements stringify_to (x :: y :: l) tail)
      with (stringify_to x
              (String "," (print_elements stringify_to (y :: l) tail))).
    specialize (Hx (String "," (print_elements stringify_to (y :: l) tail))).
    specialize (IH tail). unfold elements_size in *. simpl in *. lia.
Qed.

Lemma length_print_members o :
  Forall (fun kv => long_enough (snd kv)) o ->
  forall tail,
    members_size o + String.length tail
    <= String.length (print_members stringify_to o tail).
Proof.
  induction 1 as [|[k x] o Hx Ho IH]; intros tail; [simpl; lia|].
  simpl in Hx. destruct o as [|[k' y] o].
  - change (print_members stringify_to [(k, x)] tail)
      with (quote k (String ":" (stringify_to x (String "}" tail)))).
    pose proof (length_quote k (String ":" (stringify_to x (String "}" tail)))).
    specialize (Hx (String "}" tail)).
    unfold members_size. simpl in *. lia.
  - change (print_members stringify_to ((k, x) :: (k', y) :: o) tail)
      with (quote k (String ":" (stringify_to x
              (String "," (print_members stringify_to ((k', y) :: o) tail))))).
    pose proof (length_quote k (String ":" (stringify_to x
              (String "," (print_members stringify_to ((k', y) :: o) tail))))).
    specialize (Hx (String "," (print_members stringify_to ((k', y) :: o) tail))).
    specialize (IH tail). unfold members_size in *. simpl in *. lia.
Qed.

Lemma length_stringify_to v : long_enough v.
Proof.
  induction v as [ | b | n | s | l Hl | o Ho] using json_nested_ind;
    intros tail.
  - simpl. lia.
  - destruct b; simpl; lia.
  - destruct n as [|p|p]; simpl.
    + lia.
    + pose proof (length_uint_chars p tail). lia.
    + pose proof (length_uint_chars p tail). lia.
  - pose proof (length_quote s tail). simpl in *. lia.
  - pose proof (length_print_elements l Hl tail).
    unfold elements_size in *. simpl in *. lia.
  - pose proof (length_print_members o Ho tail).
    unfold members_size in *. simpl in *. lia.
Qed.

(** The reference [JSON.parse] reads back what the reference
    [JSON.stringify] printed. *)
Lemma parse_stringify v : parse (stringify v) = Some v.
Proof.
  unfold parse, stringify.
  rewrite parse_value_stringify_to; [reflexivity|reflexivity|].
  pose proof (length_stringify_to v EmptyString). simpl in *. lia.
Qed.

End RefJSONFacts.

Section Properties.
Context {platform : Platform}.
Context {S : Type} {adapter : StorageAdapter S}.

Lemma same_text_refl a : same_text a a = true.
Proof. destruct a; simpl; [apply String.eqb_refl|reflexivity]. Qed.

(** The change detector reports no change between a snapshot and itself. *)
Lemma valuesHaveChanged_same (values : obj) :
  valuesHaveChanged values values = false.
Proof.
  unfold valuesHaveChanged, Array_every, Array_some.
  rewrite Nat.eqb_refl. simpl.
  pose proof (every_from_self [] (Array_sort (Object_keys values))) as E.
  simpl in E. rewrite E. simpl.
  clear E.
  induction (Array_sort (Object_keys values)) as [|k l IH]; simpl; [reflexivity|].
  rewrite same_text_refl. simpl. exact IH.
Qed.

(** It reports a change whenever the numbers of fields differ. *)
Lemma valuesHaveChanged_length (lastValues newValues : obj) :
  List.length newValues <> List.length lastValues ->
  valuesHaveChanged lastValues newValues = true.
Proof.
  intros Hlen. unfold valuesHaveChanged.
  rewrite !length_Array_sort. unfold Object_keys. rewrite !length_map.
  apply Nat.eqb_neq in Hlen. now rewrite Hlen.
Qed.

Lemma with_calls_nil (w : World S) : with_calls [] w = w.
Proof. destruct w. unfold with_calls. simpl. now rewrite app_nil_r. Qed.

Lemma with_calls_app cs1 cs2 (w : World S) :
  with_calls cs2 (with_calls cs1 w) = with_calls (cs1 ++ cs2) w.
Proof. unfold with_calls. simpl. now rewrite app_assoc. Qed.

(** The loop of lines 84-93 makes the field-set calls and nothing else. *)
Lemma forEach_setValue cfg (values : obj) keys (w : World S) :
  forEach keys
    (fun key =>
       when (negb (includes (exclude cfg) key))
         (invoke (setValue_call key (obj_get values key) (restoreFlags cfg)))) w
  = (Returns tt,
     with_calls
       (map (fun key => setValue_call key (obj_get values key) (restoreFlags cfg))
            (List.filter (fun key => negb (includes (exclude cfg) key)) keys))
       w).
Proof.
  revert w. induction keys as [|k keys IH]; intros w; simpl.
  - unfold ret. now rewrite with_calls_nil.
  - unfold bind at 1. unfold when at 1.
    destruct (negb (includes (exclude cfg) k)); simpl.
    + rewrite IH. f_equal.
      unfold with_calls. simpl. now rewrite <- app_assoc.
    + apply IH.
Qed.

(** *** The restore effect, branch by branch *)

Ltac unfold_hook :=
  unfold restoreEffect, saveToStorage, saveEffect, saveEffectCleanup,
    timerCallback, clearStorage, storage_getItem, storage_setItem,
    storage_removeItem, lift, bind, ret, throw, readRefs, writeRefs, invoke,
    when, setTimeout, clearTimeout.

(** Nothing stored, or the empty string: the effect only reads. *)
Lemma restoreEffect_nothing name cfg now (w : World S) :
  unrestored (refs w) ->
  truthy_string (getItem (storage w) (getStorageKey name)) = false ->
  restoreEffect name cfg now w
  = (Returns tt,
     with_refs restore_done (with_calls [getItem_call (getStorageKey name)] w)).
Proof.
  intros [Hi Hr] Hraw. unfold_hook. rewrite Hi, Hr. simpl.
  rewrite Hraw. reflexivity.
Qed.

(** [JSON.parse] raises: the effect stops there. *)
Lemma restoreEffect_syntax_error name cfg now (w : World S) raw :
  unrestored (refs w) ->
  getItem (storage w) (getStorageKey name) = Some raw ->
  raw <> "" ->
  JSON_parse raw = None ->
  restoreEffect name cfg now w
  = (Throws SyntaxError,
     with_refs (set_isRestoringRef true)
       (with_calls [getItem_call (getStorageKey name)] w)).
Proof.
  intros [Hi Hr] Hget Hne Hparse. unfold_hook. rewrite Hi, Hr. simpl.
  rewrite Hget. simpl. apply String.eqb_neq in Hne. rewrite Hne. simpl.
  rewrite Hparse. reflexivity.
Qed.

(** The record parses: expiry decides between the two branches. *)
Lemma restoreEffect_parsed name cfg now (w : World S) raw parsed savedAt
    values expired :
  unrestored (refs w) ->
  getItem (storage w) (getStorageKey name) = Some raw ->
  raw <> "" ->
  JSON_parse raw = Some parsed ->
  destructure_savedAt parsed = Returns (savedAt, values) ->
  isExpired (timeout cfg) now savedAt = Returns expired ->
  restoreEffect name cfg now w
  = (Returns tt,
     if expired then expired_world name cfg w
     else restored_world name cfg values w).
Proof.
  intros [Hi Hr] Hget Hne Hparse Hd He.
  unfold restoreEffect. unfold bind at 1. unfold readRefs at 1.
  rewrite Hi, Hr. simpl.
  unfold bind at 1. unfold writeRefs at 1.
  unfold bind at 1. unfold bind at 1. unfold storage_getItem at 1.
  unfold bind at 1. unfold invoke at 1. simpl.
  rewrite Hget. simpl. apply String.eqb_neq in Hne. rewrite Hne. simpl.
  rewrite Hparse. unfold bind at 1. unfold ret at 1.
  rewrite Hd. unfold bind at 1. unfold lift at 1. unfold ret at 1. simpl.
  rewrite He. unfold bind at 1. unfold lift at 1. unfold ret at 1.
  destruct expired.
  - unfold_hook.
    unfold expired_world, with_refs, with_storage, with_calls, restore_done.
    destruct (onTimeout cfg); simpl; rewrite <- ?app_assoc; reflexivity.
  - unfold bind at 1. unfold writeRefs at 1.
    unfold bind at 1.
    change (fun key : string => _) with
      (fun key : string =>
         when (negb (includes (exclude cfg) key))
           (@invoke S (setValue_call key (obj_get values key) (restoreFlags cfg)))).
    rewrite forEach_setValue.
    unfold_hook.
    unfold restored_world, setValueCalls, with_refs, with_calls,
      restore_applied, structuredClone.
    destruct (onDataRestored cfg); simpl;
      rewrite <- ?app_assoc; simpl; rewrite ?app_nil_r; reflexivity.
Qed.

(** *** [saveToStorage], branch by branch *)

Lemma save_skipped_idle r : isSavingRef r = false -> save_skipped r = r.
Proof. destruct r. simpl. intros ->. reflexivity. Qed.

Lemma with_refs_save_skipped (w : World S) :
  isSavingRef (refs w) = false -> with_refs save_skipped w = w.
Proof.
  intros Hs. destruct w as [r s t n c]. unfold with_refs. simpl in *.
  now rewrite save_skipped_idle.
Qed.

(** A save is in progress: the call returns at line 119. *)
Lemma saveToStorage_busy name cfg watched now (w : World S) :
  isSavingRef (refs w) = true ->
  saveToStorage name cfg watched now w = (Returns tt, w).
Proof. intros Hs. unfold_hook. now rewrite Hs. Qed.

(** Nothing to write: the world is as before. *)
Lemma saveToStorage_skipped name cfg watched now (w : World S) :
  isSavingRef (refs w) = false ->
  saveWarranted (lastValuesRef (refs w)) (candidateValues cfg watched) = false ->
  saveToStorage name cfg watched now w = (Returns tt, w).
Proof.
  intros Hs Hw. unfold saveWarranted in Hw.
  destruct w as [r s t n c]. destruct r. simpl in Hs, Hw. subst.
  unfold_hook. simpl. rewrite Hw. reflexivity.
Qed.

(** The adapter accepts the write. *)
Lemma saveToStorage_written name cfg watched now (w : World S) s' :
  let values := candidateValues cfg watched in
  let text := JSON_stringify (JObj (recordToPersist cfg values now)) in
  isSavingRef (refs w) = false ->
  saveWarranted (lastValuesRef (refs w)) values = true ->
  setItem (storage w) (getStorageKey name) text = Some s' ->
  saveToStorage name cfg watched now w
  = (Returns tt,
     with_refs (save_written (recordToPersist cfg values now))
       (with_storage s'
          (with_calls [setItem_call (getStorageKey name) text] w))).
Proof.
  intros values text Hs Hw Hset. unfold_hook. rewrite Hs. simpl.
  unfold saveWarranted in Hw. fold values. rewrite Hw.
  unfold recordToPersist in text, Hset |- *. fold values.
  subst text. simpl. rewrite Hset. reflexivity.
Qed.

(** The adapter raises: the call ends at line 139. *)
Lemma saveToStorage_raised name cfg watched now (w : World S) :
  let values := candidateValues cfg watched in
  let text := JSON_stringify (JObj (recordToPersist cfg values now)) in
  isSavingRef (refs w) = false ->
  saveWarranted (lastValuesRef (refs w)) values = true ->
  setItem (storage w) (getStorageKey name) text = None ->
  saveToStorage name cfg watched now w
  = (Throws AdapterError,
     with_refs (set_isSavingRef true)
       (with_calls [setItem_call (getStorageKey name) text] w)).
Proof.
  intros values text Hs Hw Hset. unfold_hook. rewrite Hs. simpl.
  unfold saveWarranted in Hw. fold values. rewrite Hw.
  unfold recordToPersist in text, Hset |- *. fold values.
  subst text. simpl. rewrite Hset. reflexivity.
Qed.

(** *** The scheduler *)

Lemma find_cleared (id : positive) (l : list (positive * SaveClosure)) :
  List.find (fun t => Pos.eqb (fst t) id)
            (List.filter (fun t => negb (Pos.eqb (fst t) id)) l) = None.
Proof.
  induction l as [|[i cl] l IH]; simpl; [reflexivity|].
  destruct (Pos.eqb i id) eqn:E; simpl; [exact IH|]. now rewrite E.
Qed.

Lemma find_issued (next : positive) (l : list (positive * SaveClosure)) cl :
  Forall (fun t => (fst t < next)%positive) l ->
  List.find (fun t => Pos.eqb (fst t) next) (l ++ [(next, cl)])
  = Some (next, cl).
Proof.
  induction 1 as [|[i c] l Hlt _ IH]; simpl.
  - now rewrite Pos.eqb_refl.
  - simpl in Hlt. destruct (Pos.eqb i next) eqn:E; [|exact IH].
    apply Pos.eqb_eq in E. lia.
Qed.

Lemma filter_idem {A} (f : A -> bool) (l : list A) :
  List.filter f (List.filter f l) = List.filter f l.
Proof.
  induction l as [|x l IH]; simpl; [reflexivity|].
  destruct (f x) eqn:E; simpl; [rewrite E; now f_equal|exact IH].
Qed.

Lemma Forall_cleared (P : positive * SaveClosure -> Prop) f l :
  Forall P l -> Forall P (List.filter f l).
Proof.
  induction 1; simpl; [constructor|]. destruct (f x); auto.
Qed.

(** A scheduled callback reads and changes the session only. *)
Lemma timerCallback_session cl now (w1 w2 : World S) :
  session w1 = session w2 ->
  let r1 := timerCallback cl now w1 in
  let r2 := timerCallback cl now w2 in
  fst r1 = fst r2 /\ session (snd r1) = session (snd r2) /\
  timers (snd r1) = timers w1 /\ nextTimer (snd r1) = nextTimer w1 /\
  debounceTimeoutRef (refs (snd r1)) = debounceTimeoutRef (refs w1).
Proof.
  destruct w1 as [[d1 a1 b1 l1 i1] s1 t1 n1 c1].
  destruct w2 as [[d2 a2 b2 l2 i2] s2 t2 n2 c2].
  unfold session. simpl. intros E. inversion E; subst; clear E.
  unfold timerCallback, shouldSkipSave. unfold_hook. simpl.
  destruct a2, i2, b2; simpl; try (repeat split; reflexivity).
  destruct (negb _ && _); simpl; try (repeat split; reflexivity).
  destruct (setItem _ _ _); simpl; repeat split; reflexivity.
Qed.

Lemma bind_run {A B} (m : M S A) (k : A -> M S B) (w : World S) :
  bind m k w
  = match m w with
    | (Returns a, w') => k a w'
    | (Throws e, w') => (Throws e, w')
    end.
Proof. reflexivity. Qed.

Lemma saveEffectCleanup_run (w : World S) :
  saveEffectCleanup w = (Returns tt, cancelPending w).
Proof.
  unfold saveEffectCleanup, cancelPending. unfold_hook.
  destruct (debounceTimeoutRef (refs w)); [reflexivity|].
  destruct w; reflexivity.
Qed.

Lemma saveEffect_run name cfg watched now (w : World S) :
  saveEffect name cfg watched now w
  = if Z.ltb 0 (debounceDelay cfg)
    then (Returns tt, schedule (closureOf name cfg watched) (cancelPending w))
    else timerCallback (closureOf name cfg watched) now (cancelPending w).
Proof.
  unfold saveEffect. rewrite bind_run. unfold readRefs at 1.
  rewrite bind_run.
  assert (E : match debounceTimeoutRef (refs w) with
              | Some id => clearTimeout id
              | None => ret tt
              end w = (Returns tt, cancelPending w)).
  { unfold cancelPending, clearTimeout, ret.
    destruct (debounceTimeoutRef (refs w)); [reflexivity|].
    destruct w; reflexivity. }
  rewrite E. destruct (Z.ltb 0 (debounceDelay cfg)); reflexivity.
Qed.

Lemma session_cancelPending (w : World S) : session (cancelPending w) = session w.
Proof.
  unfold cancelPending. destruct (debounceTimeoutRef (refs w)); reflexivity.
Qed.

Lemma refs_cancelPending (w : World S) : refs (cancelPending w) = refs w.
Proof.
  unfold cancelPending. destruct (debounceTimeoutRef (refs w)); reflexivity.
Qed.

Lemma cancelPending_cleared (w : World S) id :
  debounceTimeoutRef (refs w) = Some id ->
  List.find (fun t => Pos.eqb (fst t) id) (timers (cancelPending w)) = None.
Proof.
  intros E. unfold cancelPending. rewrite E. simpl. apply find_cleared.
Qed.

Lemma cancelPending_issued (w : World S) :
  timers_issued w -> timers_issued (cancelPending w).
Proof.
  unfold timers_issued, cancelPending.
  destruct (debounceTimeoutRef (refs w)); simpl; [|tauto].
  apply Forall_cleared.
Qed.

(** The timer just scheduled is the one the quiet period fires. *)
Lemma quietPeriodEnds_scheduled cl now (w : World S) :
  timers_issued w ->
  exists w1, session w1 = session w /\
    quietPeriodEnds now (schedule cl w) = timerCallback cl now w1.
Proof.
  intros Hissued. unfold quietPeriodEnds. rewrite bind_run.
  unfold readRefs at 1. simpl. unfold fireTimer. simpl.
  rewrite find_issued by exact Hissued.
  rewrite bind_run. unfold clearTimeout at 1. simpl.
  eexists. split; [|reflexivity]. reflexivity.
Qed.

(** With no timer pending on the handle, the end of the quiet period does
    nothing. *)
Lemma quietPeriodEnds_idle now (w : World S) :
  match debounceTimeoutRef (refs w) with
  | Some id => List.find (fun t => Pos.eqb (fst t) id) (timers w) = None
  | None => True
  end ->
  quietPeriodEnds now w = (Returns tt, w).
Proof.
  intros Hnone. unfold quietPeriodEnds. rewrite bind_run.
  unfold readRefs at 1. simpl.
  destruct (debounceTimeoutRef (refs w)); [|reflexivity].
  unfold fireTimer. now rewrite Hnone.
Qed.

(** The save effect followed by the end of the quiet period does to the
    session what the filtered save does, whatever the delay. *)
Lemma saveEffect_settles name cfg watched now now' (w : World S) :
  timers_issued w ->
  let r := (saveEffect name cfg watched now >> quietPeriodEnds now') w in
  let r1 :=
    timerCallback (closureOf name cfg watched)
      (if Z.ltb 0 (debounceDelay cfg) then now' else now) w in
  fst r = fst r1 /\ session (snd r) = session (snd r1).
Proof.
  intros Hissued. cbv zeta. rewrite bind_run. rewrite saveEffect_run.
  destruct (Z.ltb 0 (debounceDelay cfg)) eqn:Hd.
  - destruct (quietPeriodEnds_scheduled (closureOf name cfg watched) now'
                (cancelPending w) (cancelPending_issued w Hissued))
      as (w1 & Hs1 & Hq).
    rewrite Hq. rewrite session_cancelPending in Hs1.
    destruct (timerCallback_session (closureOf name cfg watched) now' w1 w Hs1)
      as (Hf & Hs & _).
    split; assumption.
  - pose proof (timerCallback_session (closureOf name cfg watched) now
                  (cancelPending w) w (session_cancelPending w))
      as (Hf & Hs & Ht & _ & Hr).
    destruct (timerCallback (closureOf name cfg watched) now (cancelPending w))
      as [[u|e] w2] eqn:E; simpl in *.
    + destruct u. rewrite quietPeriodEnds_idle.
      * split; assumption.
      * rewrite Hr, Ht, refs_cancelPending.
        destruct (debounceTimeoutRef (refs w)) eqn:E2; [|exact I].
        now apply cancelPending_cleared.
    + split; assumption.
Qed.

(** So does a change notification, which runs the cleanup first. *)
Lemma notification_settles name cfg watched now now' (w : World S) :
  timers_issued w ->
  let r := (changeNotification name cfg watched now >> quietPeriodEnds now') w in
  let r1 :=
    timerCallback (closureOf name cfg watched)
      (if Z.ltb 0 (debounceDelay cfg) then now' else now) w in
  fst r = fst r1 /\ session (snd r) = session (snd r1).
Proof.
  intros Hissued. cbv zeta.
  assert (E : (changeNotification name cfg watched now >> quietPeriodEnds now') w
              = (saveEffect name cfg watched now >> quietPeriodEnds now')
                  (cancelPending w)).
  { unfold changeNotification. rewrite bind_run. rewrite bind_run.
    rewrite saveEffectCleanup_run.
    rewrite (bind_run (saveEffect name cfg watched now)). reflexivity. }
  rewrite E.
  destruct (saveEffect_settles name cfg watched now now' (cancelPending w)
              (cancelPending_issued w Hissued)) as [Hf Hs].
  rewrite Hf, Hs.
  destruct (timerCallback_session (closureOf name cfg watched)
              (if Z.ltb 0 (debounceDelay cfg) then now' else now)
              (cancelPending w) w (session_cancelPending w))
    as (Hf' & Hs' & _).
  split; assumption.
Qed.

(** *** Restore *)

(** C9.  When the adapter's [getItem] returns the empty string for the
    storage key, the restore effect behaves as for an absent record: it
    returns normally, makes no call besides the read (no field-set, no
    callback, no remove), leaves the store and the last saved values as
    they were, and marks the binding initialized with the restoring flag
    cleared.  [JSON.parse] is not attempted: the run is the same on every
    platform, whatever its [JSON.parse] does with the empty text. *)
Theorem restore_empty_string_as_absent name cfg now (w : World S) :
  unrestored (refs w) ->
  getItem (storage w) (getStorageKey name) = Some "" ->
  let r := restoreEffect name cfg now w in
  fst r = Returns tt /\
  calls (snd r) = calls w ++ [getItem_call (getStorageKey name)] /\
  storage (snd r) = storage w /\
  lastValuesRef (refs (snd r)) = lastValuesRef (refs w) /\
  initializedRef (refs (snd r)) = true /\
  isRestoringRef (refs (snd r)) = false /\
  (forall w0 : World S,
      refs w0 = refs w -> calls w0 = calls w ->
      getItem (storage w0) (getStorageKey name) = None ->
      let r0 := restoreEffect name cfg now w0 in
      fst r0 = fst r /\ refs (snd r0) = refs (snd r) /\
      calls (snd r0) = calls (snd r) /\ storage (snd r0) = storage w0) /\
  (forall P' : Platform,
      @restoreEffect P' S _ name cfg now w = restoreEffect name cfg now w).
Proof.
  intros Hu Hget. cbv zeta.
  rewrite restoreEffect_nothing by (try rewrite Hget; auto).
  simpl. repeat (split; [reflexivity|]). split.
  - intros w0 Hr Hc Hget0.
    rewrite restoreEffect_nothing by (try rewrite Hget0; try rewrite Hr; auto).
    simpl. rewrite Hr, Hc. auto.
  - intros P'. destruct Hu as [Hi Hr]. unfold_hook.
    rewrite Hi, Hr. simpl. rewrite Hget. reflexivity.
Qed.

(** C1 (as amended).  When the stored text is not empty and [JSON.parse]
    raises on it, the restore effect makes no call besides the read (no
    field-set call, no callback, no write or remove), leaves the store as
    it was, and the SyntaxError is not caught: it surfaces to the
    caller. *)
Theorem restore_corrupt_record_raises name cfg now (w : World S) raw :
  unrestored (refs w) ->
  getItem (storage w) (getStorageKey name) = Some raw ->
  raw <> "" ->
  JSON_parse raw = None ->
  let r := restoreEffect name cfg now w in
  fst r = Throws SyntaxError /\
  calls (snd r) = calls w ++ [getItem_call (getStorageKey name)] /\
  fieldSets (calls (snd r)) = fieldSets (calls w) /\
  storage (snd r) = storage w.
Proof.
  intros Hu Hget Hne Hparse. cbv zeta.
  rewrite (restoreEffect_syntax_error name cfg now w raw) by assumption.
  simpl. repeat split.
  unfold fieldSets. rewrite List.filter_app. simpl. apply app_nil_r.
Qed.

(** C4 (as amended).  For a stored object whose [_savedAt] is a number, or
    that has none, the restore effect takes the expiry branch (call
    [onTimeout] if given, remove the record, restore nothing) exactly when
    [timeout] is configured and not zero and [now - savedAt > timeout],
    where a record without [_savedAt] counts as saved at time 0; otherwise
    the record is restored. *)
Theorem restore_expiry_decision name cfg now (w : World S) raw o savedAt :
  unrestored (refs w) ->
  getItem (storage w) (getStorageKey name) = Some raw ->
  raw <> "" ->
  JSON_parse raw = Some (JObj o) ->
  obj_get o "_savedAt" = Some (JNum savedAt)
  \/ (obj_get o "_savedAt" = None /\ savedAt = 0%Z) ->
  restoreEffect name cfg now w
  = (Returns tt,
     if match timeout cfg with
        | Some t => negb (Z.eqb t 0) && Z.gtb (now - savedAt) t
        | None => false
        end
     then expired_world name cfg w
     else restored_world name cfg (obj_rest o "_savedAt") w).
Proof.
  intros Hu Hget Hne Hparse Hsa.
  apply (restoreEffect_parsed name cfg now w raw (JObj o)
           (match obj_get o "_savedAt" with Some v => v | None => JNull end));
    try assumption; [reflexivity|].
  unfold isExpired. destruct (timeout cfg) as [t|]; [|reflexivity].
  destruct (Z.eqb t 0); [reflexivity|]. simpl.
  destruct Hsa as [-> | [-> ->]]; reflexivity.
Qed.

(** C6.  On a restore that is not expired, the parsed snapshot is the
    parsed record without its [_savedAt].  The field-set calls are, in
    order, one per field of the snapshot whose name is not in [exclude],
    each with the value the record holds under the name and the three
    restore flags: no call is made for [_savedAt] or for an excluded
    name, and with unique names every other field of the record is set to
    its value.  Then [onDataRestored], when given, is called once with
    the whole snapshot, excluded fields included and [_savedAt] left
    out. *)
Theorem restore_field_sets name cfg now (w : World S) raw o :
  let snapshot :=
    List.filter (fun kv => negb (String.eqb (fst kv) "_savedAt")) o in
  let flags :=
    {| shouldValidate := validate cfg;
       shouldDirty := dirty cfg;
       shouldTouch := touch cfg |} in
  let issued :=
    map (fun kv => setValue_call (fst kv) (obj_get o (fst kv)) flags)
        (List.filter (fun kv => negb (includes (exclude cfg) (fst kv)))
                     snapshot) in
  let savedAt :=
    match obj_get o "_savedAt" with Some v => v | None => JNull end in
  unrestored (refs w) ->
  getItem (storage w) (getStorageKey name) = Some raw ->
  raw <> "" ->
  JSON_parse raw = Some (JObj o) ->
  isExpired (timeout cfg) now savedAt = Returns false ->
  let r := restoreEffect name cfg now w in
  fst r = Returns tt /\
  calls (snd r)
  = calls w ++ [getItem_call (getStorageKey name)] ++ issued
    ++ (if onDataRestored cfg then [onDataRestored_call snapshot] else []) /\
  (forall key v opts,
      In (setValue_call key v opts) issued <->
      In key (Object_keys o) /\ key <> "_savedAt" /\
      includes (exclude cfg) key = false /\
      v = obj_get o key /\ opts = flags) /\
  (List.NoDup (Object_keys o) ->
   forall key value,
     In (key, value) o -> key <> "_savedAt" ->
     includes (exclude cfg) key = false ->
     In (setValue_call key (Some value) flags) issued) /\
  lastValuesRef (refs (snd r)) = snapshot /\
  initializedRef (refs (snd r)) = true /\
  isRestoringRef (refs (snd r)) = false.
Proof.
  intros snapshot flags issued savedAt Hu Hget Hne Hparse Hexp. cbv zeta.
  rewrite (restoreEffect_parsed name cfg now w raw (JObj o) savedAt
             (obj_rest o "_savedAt") false)
    by (try assumption; reflexivity).
  assert (Hin : forall key v opts,
             In (setValue_call key v opts) issued <->
             In key (Object_keys o) /\ key <> "_savedAt" /\
             includes (exclude cfg) key = false /\
             v = obj_get o key /\ opts = flags).
  { intros key v opts. unfold issued. rewrite in_map_iff. split.
    - intros ([k x] & Heq & Hk). simpl in Heq. inversion Heq; subst.
      apply List.filter_In in Hk. destruct Hk as [Hk Hex]. simpl in Hex.
      apply List.filter_In in Hk. destruct Hk as [Hk Hsa]. simpl in Hsa.
      apply negb_true_iff in Hex. apply negb_true_iff, String.eqb_neq in Hsa.
      repeat split; try assumption.
      unfold Object_keys. apply in_map_iff. now exists (key, x).
    - intros (Hk & Hsa & Hex & -> & ->).
      unfold Object_keys in Hk. apply in_map_iff in Hk.
      destruct Hk as ([k x] & Hfst & Hk). simpl in Hfst. subst k.
      exists (key, x). split; [reflexivity|].
      apply List.filter_In. simpl. split; [|now rewrite Hex].
      apply List.filter_In. simpl. split; [exact Hk|].
      now apply negb_true_iff, String.eqb_neq. }
  simpl. split; [reflexivity|].
  split; [now rewrite setValueCalls_of_record|].
  split; [exact Hin|].
  split; [|repeat split].
  intros Hnd key value Hkv Hsa Hex. apply Hin.
  repeat split; try assumption.
  - unfold Object_keys. apply in_map_iff. now exists (key, value).
  - symmetry. now apply obj_get_entry.
Qed.

(** C10.  With [timeout = 0] a save that writes stamps the record with
    [_savedAt] (the guard is [timeout != null]), while the restore effect
    never takes the expiry branch (the guard is the truthiness of
    [timeout]): whatever the record's [_savedAt], the values are restored,
    [onTimeout] is not called and nothing is removed. *)
Theorem zero_timeout_stamps_but_never_expires name cfg watched now
    (w : World S) :
  timeout cfg = Some 0%Z ->
  (let values := candidateValues cfg watched in
   let record := obj_set values "_savedAt" (JNum now) in
   isSavingRef (refs w) = false ->
   saveWarranted (lastValuesRef (refs w)) values = true ->
   calls (snd (saveToStorage name cfg watched now w))
   = calls w ++ [setItem_call (getStorageKey name) (JSON_stringify (JObj record))]
   /\ obj_get record "_savedAt" = Some (JNum now)) /\
  (forall raw parsed savedAt values,
      unrestored (refs w) ->
      getItem (storage w) (getStorageKey name) = Some raw ->
      raw <> "" ->
      JSON_parse raw = Some parsed ->
      destructure_savedAt parsed = Returns (savedAt, values) ->
      restoreEffect name cfg now w
      = (Returns tt, restored_world name cfg values w)).
Proof.
  intros Ht. split.
  - intros values record Hs Hw. split; [|apply obj_get_obj_set].
    destruct (setItem (storage w) (getStorageKey name)
                (JSON_stringify (JObj (recordToPersist cfg values now))))
      as [s'|] eqn:Hset.
    + rewrite (saveToStorage_written name cfg watched now w s') by assumption.
      simpl. unfold recordToPersist. rewrite Ht. reflexivity.
    + rewrite (saveToStorage_raised name cfg watched now w) by assumption.
      simpl. unfold recordToPersist. rewrite Ht. reflexivity.
  - intros raw parsed savedAt values Hu Hget Hne Hparse Hd.
    apply (restoreEffect_parsed name cfg now w raw parsed savedAt values false);
      try assumption.
    rewrite Ht. reflexivity.
Qed.

(** *** Save *)

Lemma session_fields (w1 w2 : World S) :
  session w1 = session w2 ->
  calls w1 = calls w2 /\ storage w1 = storage w2 /\
  lastValuesRef (refs w1) = lastValuesRef (refs w2) /\
  isSavingRef (refs w1) = isSavingRef (refs w2) /\
  isRestoringRef (refs w1) = isRestoringRef (refs w2) /\
  initializedRef (refs w1) = initializedRef (refs w2).
Proof. unfold session. intros E. inversion E. repeat split; assumption. Qed.

(** A save that is not warranted changes nothing, whoever calls it. *)
Lemma saveToStorage_unwarranted name cfg watched now (w : World S) :
  saveWarranted (lastValuesRef (refs w)) (candidateValues cfg watched) = false ->
  saveToStorage name cfg watched now w = (Returns tt, w).
Proof.
  intros Hw. destruct (isSavingRef (refs w)) eqn:Hs.
  - now apply saveToStorage_busy.
  - now apply saveToStorage_skipped.
Qed.

Lemma timerCallback_unwarranted cl now (w : World S) :
  saveWarranted (lastValuesRef (refs w))
    (candidateValues (cl_config cl) (cl_watchedValues cl)) = false ->
  timerCallback cl now w = (Returns tt, w).
Proof.
  intros Hw. unfold timerCallback. rewrite bind_run. unfold readRefs at 1.
  unfold when. destruct (negb (shouldSkipSave (refs w))); [|reflexivity].
  now apply saveToStorage_unwarranted.
Qed.

(** While a flag filters the notification out, the callback does nothing. *)
Lemma timerCallback_filtered cl now (w : World S) :
  shouldSkipSave (refs w) = true ->
  timerCallback cl now w = (Returns tt, w).
Proof.
  intros Hskip. unfold timerCallback. rewrite bind_run. unfold readRefs at 1.
  now rewrite Hskip.
Qed.

(** C5.  When the candidate snapshot (the watched values without the
    excluded fields) has no field, a save makes no call on the adapter and
    leaves the store and the last saved values as they were; so does a
    change notification followed by the end of its quiet period, for every
    debounce delay and every timeout. *)
Theorem empty_snapshot_never_written name cfg watched now now' (w : World S) :
  candidateValues cfg watched = [] ->
  timers_issued w ->
  saveToStorage name cfg watched now w = (Returns tt, w) /\
  let r := (changeNotification name cfg watched now >> quietPeriodEnds now') w in
  fst r = Returns tt /\
  calls (snd r) = calls w /\
  storage (snd r) = storage w /\
  lastValuesRef (refs (snd r)) = lastValuesRef (refs w).
Proof.
  intros Hempty Hissued.
  assert (Hw : saveWarranted (lastValuesRef (refs w))
                 (candidateValues cfg watched) = false).
  { unfold saveWarranted. now rewrite Hempty. }
  split; [now apply saveToStorage_unwarranted|].
  destruct (notification_settles name cfg watched now now' w Hissued)
    as [Hf Hs].
  rewrite timerCallback_unwarranted in Hf, Hs by exact Hw.
  cbv zeta. rewrite Hf. apply session_fields in Hs. simpl in *. tauto.
Qed.

(** C7.  [clear()] makes exactly one call, [removeItem] at the key
    [react-hook-form-persist:<name>], and leaves the refs (last saved
    values, initialized, restoring, saving) and the timers as they were;
    hence a change notification whose candidate snapshot equals the last
    saved values makes no write after it. *)
Theorem clear_removes_and_keeps_session name cfg watched now now'
    (w : World S) :
  let key := ("react-hook-form-persist:" ++ name)%string in
  let r := clearStorage name w in
  fst r = Returns tt /\
  calls (snd r) = calls w ++ [removeItem_call key] /\
  storage (snd r) = removeItem (storage w) key /\
  refs (snd r) = refs w /\
  timers (snd r) = timers w /\
  (timers_issued w ->
   candidateValues cfg watched = lastValuesRef (refs w) ->
   let r' := (clearStorage name >> changeNotification name cfg watched now
              >> quietPeriodEnds now') w in
   fst r' = Returns tt /\
   calls (snd r') = calls w ++ [removeItem_call key] /\
   storage (snd r') = removeItem (storage w) key /\
   lastValuesRef (refs (snd r')) = lastValuesRef (refs w)).
Proof.
  cbv zeta. repeat (split; [reflexivity|]).
  intros Hissued Hsame. rewrite bind_run.
  change (clearStorage name w) with
    (Returns tt,
     with_storage (removeItem (storage w) (getStorageKey name))
       (with_calls [removeItem_call (getStorageKey name)] w)).
  cbv iota beta.
  set (w1 := with_storage _ _).
  assert (Hissued1 : timers_issued w1) by exact Hissued.
  assert (Hw : saveWarranted (lastValuesRef (refs w1))
                 (candidateValues cfg watched) = false).
  { unfold saveWarranted. subst w1. simpl. rewrite Hsame.
    rewrite valuesHaveChanged_same. apply andb_false_r. }
  destruct (notification_settles name cfg watched now now' w1 Hissued1)
    as [Hf Hs].
  rewrite timerCallback_unwarranted in Hf, Hs by exact Hw.
  rewrite Hf. apply session_fields in Hs. subst w1. simpl in *.
  unfold getStorageKey in *. tauto.
Qed.

(** C2 (the code at the failing input).  With a [timeout] configured, two
    consecutive save attempts of the same snapshot make two writes: the
    first records the stamped object as the last saved values, so the
    second finds one field more there than in the candidate and writes
    again. *)
Theorem same_snapshot_written_twice_under_timeout name cfg watched now1 now2
    (w : World S) t s1 :
  let key := getStorageKey name in
  let values := candidateValues cfg watched in
  let text1 := JSON_stringify (JObj (obj_set values "_savedAt" (JNum now1))) in
  let text2 := JSON_stringify (JObj (obj_set values "_savedAt" (JNum now2))) in
  timeout cfg = Some t ->
  isSavingRef (refs w) = false ->
  values <> [] ->
  obj_get values "_savedAt" = None ->
  valuesHaveChanged (lastValuesRef (refs w)) values = true ->
  setItem (storage w) key text1 = Some s1 ->
  let r := (saveToStorage name cfg watched now1
            >> saveToStorage name cfg watched now2) w in
  calls (snd r) = calls w ++ [setItem_call key text1; setItem_call key text2] /\
  List.length (writes (calls (snd r))) = 2 + List.length (writes (calls w)).
Proof.
  intros key values text1 text2 Ht Hs Hne Hfresh Hch Hset.
  assert (Hrec : forall n, recordToPersist cfg values n
                           = obj_set values "_savedAt" (JNum n)).
  { intros n. unfold recordToPersist. now rewrite Ht. }
  assert (Hnz : negb (Nat.eqb (List.length (Object_entries values)) 0) = true).
  { unfold Object_entries. destruct values; [congruence|reflexivity]. }
  assert (Hcalls :
    calls (snd ((saveToStorage name cfg watched now1
                 >> saveToStorage name cfg watched now2) w))
    = calls w ++ [setItem_call key text1; setItem_call key text2]).
  { rewrite bind_run.
    rewrite (saveToStorage_written name cfg watched now1 w s1);
      try assumption.
    2:{ unfold saveWarranted. fold values. now rewrite Hnz, Hch. }
    2:{ fold values. rewrite Hrec. exact Hset. }
    fold values. rewrite Hrec.
    set (w1 := with_refs _ _).
    assert (Hs1 : isSavingRef (refs w1) = false) by reflexivity.
    assert (Hw1 : saveWarranted (lastValuesRef (refs w1))
                    (candidateValues cfg watched) = true).
    { unfold saveWarranted. fold values. rewrite Hnz. simpl.
      apply valuesHaveChanged_length. subst w1. simpl.
      pose proof (f_equal (@List.length string)
                    (Object_keys_obj_set_fresh values "_savedAt" (JNum now1)
                       Hfresh)) as Hlen.
      unfold Object_keys in Hlen. rewrite length_app, !length_map in Hlen.
      simpl in Hlen. lia. }
    destruct (setItem (storage w1) (getStorageKey name)
                (JSON_stringify (JObj (recordToPersist cfg values now2))))
      as [s2|] eqn:Hset2.
    - rewrite (saveToStorage_written name cfg watched now2 w1 s2)
        by assumption.
      fold values. rewrite Hrec. subst w1. simpl.
      now rewrite <- app_assoc.
    - rewrite (saveToStorage_raised name cfg watched now2 w1) by assumption.
      fold values. rewrite Hrec. subst w1. simpl.
      now rewrite <- app_assoc. }
  cbv zeta. split; [exact Hcalls|].
  rewrite Hcalls. unfold writes. rewrite List.filter_app, length_app.
  simpl. lia.
Qed.

(** The sibling path: without a [timeout] the second attempt finds the
    last saved values equal to the candidate and does not write. *)
Lemma same_snapshot_written_once_without_timeout name cfg watched now1 now2
    (w : World S) s1 :
  let key := getStorageKey name in
  let values := candidateValues cfg watched in
  timeout cfg = None ->
  isSavingRef (refs w) = false ->
  saveWarranted (lastValuesRef (refs w)) values = true ->
  setItem (storage w) key (JSON_stringify (JObj values)) = Some s1 ->
  let r := (saveToStorage name cfg watched now1
            >> saveToStorage name cfg watched now2) w in
  fst r = Returns tt /\
  calls (snd r) = calls w ++ [setItem_call key (JSON_stringify (JObj values))].
Proof.
  intros key values Ht Hs Hw Hset.
  assert (Hrec : forall n, recordToPersist cfg values n = values).
  { intros n. unfold recordToPersist. now rewrite Ht. }
  cbv zeta. rewrite bind_run.
  rewrite (saveToStorage_written name cfg watched now1 w s1); try assumption.
  2:{ fold values. rewrite Hrec. exact Hset. }
  fold values. rewrite Hrec.
  rewrite saveToStorage_unwarranted.
  - split; reflexivity.
  - unfold saveWarranted. simpl. fold values.
    rewrite valuesHaveChanged_same. apply andb_false_r.
Qed.

(** C3 (the code at the failing input).  When the adapter's [setItem]
    raises, the exception leaves [saveToStorage] at line 139: the last
    saved values are unchanged, and the saving flag stays set, so every
    later change notification is filtered out and makes no call. *)
Theorem failed_write_leaves_saving_set name cfg watched now (w : World S) :
  let values := candidateValues cfg watched in
  let text := JSON_stringify (JObj (recordToPersist cfg values now)) in
  isSavingRef (refs w) = false ->
  saveWarranted (lastValuesRef (refs w)) values = true ->
  setItem (storage w) (getStorageKey name) text = None ->
  timers_issued w ->
  let r := saveToStorage name cfg watched now w in
  fst r = Throws AdapterError /\
  isSavingRef (refs (snd r)) = true /\
  lastValuesRef (refs (snd r)) = lastValuesRef (refs w) /\
  (forall name' cfg' watched' n n',
      let r' := (changeNotification name' cfg' watched' n
                 >> quietPeriodEnds n') (snd r) in
      fst r' = Returns tt /\
      calls (snd r') = calls (snd r) /\
      isSavingRef (refs (snd r')) = true).
Proof.
  intros values text Hs Hw Hset Hissued. cbv zeta.
  rewrite (saveToStorage_raised name cfg watched now w) by assumption.
  simpl. repeat (split; [reflexivity|]).
  intros name' cfg' watched' n n'.
  set (w1 := with_refs _ _).
  assert (Hissued1 : timers_issued w1) by exact Hissued.
  destruct (notification_settles name' cfg' watched' n n' w1 Hissued1)
    as [Hf Hsess].
  rewrite timerCallback_filtered in Hf, Hsess
    by (unfold shouldSkipSave; subst w1; simpl; apply orb_true_r).
  rewrite Hf. apply session_fields in Hsess. simpl in Hsess.
  destruct Hsess as (Hc & _ & _ & Hsv & _). rewrite Hc, Hsv.
  repeat split.
Qed.

(** *** Round trip *)

(** Without exclusion the loop of the restore effect sets every field. *)
Lemma setValueCalls_all cfg (values : obj) :
  exclude cfg = [] ->
  List.NoDup (Object_keys values) ->
  setValueCalls cfg values
  = map (fun kv => setValue_call (fst kv) (Some (snd kv)) (restoreFlags cfg))
        values.
Proof.
  intros Hex Hnd. unfold setValueCalls. rewrite Hex. simpl.
  replace (List.filter (fun _ : string => true) (Object_keys values))
    with (Object_keys values).
  - apply (obj_get_each_key values
             (fun key v => setValue_call key v (restoreFlags cfg)) Hnd).
  - clear Hnd. induction (Object_keys values) as [|k l IH]; simpl;
      [reflexivity|]. f_equal. exact IH.
Qed.

(** C8 (as amended).  On any platform and any storage adapter, let
    [snapshot] be a non-empty snapshot with unique field names, none of
    them the reserved [_savedAt], that is JSON-serializable: the platform
    prints it to a non-empty text and parses that text back to the same
    snapshot.  A fresh binding without exclusion and timeout, mounted with
    [snapshot] over a store that holds no record under the key and keeps
    what is written, writes the text of [snapshot] once under the storage
    key; a second fresh binding with the same name over that store,
    without exclusion and timeout, then issues exactly one field-set call
    per field of [snapshot], in order, with the field's value: the
    snapshot is reproduced value for value. *)
Theorem save_then_restore_roundtrip name cfg1 cfg2 (snapshot : obj)
    now1 now1' now2 (s0 s1 : S) :
  let key := getStorageKey name in
  let text := JSON_stringify (JObj snapshot) in
  snapshot <> [] ->
  List.NoDup (Object_keys snapshot) ->
  obj_get snapshot "_savedAt" = None ->
  exclude cfg1 = [] -> timeout cfg1 = None ->
  exclude cfg2 = [] -> timeout cfg2 = None ->
  text <> "" ->
  JSON_parse text = Some (JObj snapshot) ->
  truthy_string (getItem s0 key) = false ->
  setItem s0 key text = Some s1 ->
  getItem s1 key = Some text ->
  let saved :=
    (mount name cfg1 snapshot now1 >> quietPeriodEnds now1') (freshWorld s0) in
  let restored :=
    restoreEffect name cfg2 now2 (freshWorld (storage (snd saved))) in
  fst saved = Returns tt /\
  writes (calls (snd saved)) = [setItem_call key text] /\
  storage (snd saved) = s1 /\
  fst restored = Returns tt /\
  fieldSets (calls (snd restored))
  = map (fun kv => setValue_call (fst kv) (Some (snd kv)) (restoreFlags cfg2))
        snapshot.
Proof.
  intros key text Hne Hnd Hfresh Hex1 Ht1 Hex2 Ht2 Htext Hparse Hnone Hset Hget.
  (* the first binding *)
  assert (Hsaved :
    let saved := (mount name cfg1 snapshot now1 >> quietPeriodEnds now1')
                   (freshWorld s0) in
    fst saved = Returns tt /\
    writes (calls (snd saved)) = [setItem_call key text] /\
    storage (snd saved) = s1).
  { cbv zeta.
    set (w1 := with_refs restore_done
                 (with_calls [getItem_call key] (freshWorld s0))).
    assert (E : (mount name cfg1 snapshot now1 >> quietPeriodEnds now1')
                  (freshWorld s0)
                = (saveEffect name cfg1 snapshot now1 >> quietPeriodEnds now1')
                    w1).
    { unfold mount. rewrite bind_run. rewrite bind_run.
      rewrite restoreEffect_nothing by (try split; auto).
      rewrite (bind_run (saveEffect name cfg1 snapshot now1)). reflexivity. }
    rewrite E.
    assert (Hissued : timers_issued w1) by constructor.
    destruct (saveEffect_settles name cfg1 snapshot now1 now1' w1 Hissued)
      as [Hf Hs].
    assert (Hcb : forall n,
      timerCallback (closureOf name cfg1 snapshot) n w1
      = (Returns tt,
         with_refs (save_written snapshot)
           (with_storage s1 (with_calls [setItem_call key text] w1)))).
    { intros n. unfold timerCallback. rewrite bind_run. unfold readRefs at 1.
      change (shouldSkipSave (refs w1)) with false. simpl negb. unfold when.
      assert (Hcand : candidateValues cfg1 snapshot = snapshot).
      { unfold candidateValues. now rewrite Hex1. }
      assert (Hrec : recordToPersist cfg1 snapshot n = snapshot).
      { unfold recordToPersist. now rewrite Ht1. }
      simpl cl_name. simpl cl_config. simpl cl_watchedValues.
      rewrite (saveToStorage_written name cfg1 snapshot n w1 s1).
      - now rewrite Hcand, Hrec.
      - reflexivity.
      - rewrite Hcand. unfold saveWarranted.
        rewrite valuesHaveChanged_length.
        + destruct snapshot; [congruence|reflexivity].
        + destruct snapshot; [congruence|discriminate].
      - rewrite Hcand, Hrec. exact Hset. }
    rewrite Hcb in Hf, Hs. rewrite Hf. apply session_fields in Hs.
    destruct Hs as (Hc & Hst & _). rewrite Hc, Hst. simpl.
    repeat split. }
  cbv zeta in Hsaved |- *. destruct Hsaved as (Hf & Hw & Hst).
  rewrite Hst. repeat (split; [assumption|]).
  (* the second binding *)
  rewrite (restoreEffect_parsed name cfg2 now2 (freshWorld s1) text
             (JObj snapshot) JNull snapshot false).
  - split; [reflexivity|]. simpl. unfold fieldSets.
    rewrite List.filter_app.
    rewrite setValueCalls_all by assumption.
    pose proof (fieldSets_setValue snapshot (restoreFlags cfg2)) as E.
    unfold fieldSets in E. rewrite E.
    destruct (onDataRestored cfg2); simpl; now rewrite app_nil_r.
  - split; reflexivity.
  - exact Hget.
  - exact Htext.
  - exact Hparse.
  - simpl. now rewrite Hfresh, obj_rest_absent.
  - now rewrite Ht2.
Qed.

End Properties.

(** ** The hook on concrete bindings *)

Lemma restore_empty_string_as_absent_witness :
  let w := freshWorld (storeWith "") in
  unrestored (refs w) /\
  getItem (storage w) (getStorageKey formName) = Some "" /\
  @JSON_parse RefPlatform "" = None /\
  fst (@restoreEffect RefPlatform _ _ formName (timeoutConfig 1000) 5000 w)
  = Returns tt.
Proof.
  assert (Hu : unrestored (refs (freshWorld (storeWith "")))) by (split; reflexivity).
  assert (Hg : getItem (storage (freshWorld (storeWith ""))) (getStorageKey formName)
               = Some "") by (vm_compute; reflexivity).
  split; [exact Hu|]. split; [exact Hg|]. split; [vm_compute; reflexivity|].
  exact (proj1 (@restore_empty_string_as_absent RefPlatform _ _ formName
                  (timeoutConfig 1000) 5000 _ Hu Hg)).
Defined.

Lemma restore_corrupt_record_raises_witness :
  let w := freshWorld (storeWith "{bad") in
  unrestored (refs w) /\
  getItem (storage w) (getStorageKey formName) = Some "{bad" /\
  "{bad" <> "" /\
  @JSON_parse RefPlatform "{bad" = None /\
  fst (@restoreEffect RefPlatform _ _ formName defaultConfig 0 w)
  = Throws SyntaxError.
Proof.
  assert (Hu : unrestored (refs (freshWorld (storeWith "{bad"))))
    by (split; reflexivity).
  assert (Hg : getItem (storage (freshWorld (storeWith "{bad")))
                 (getStorageKey formName) = Some "{bad")
    by (vm_compute; reflexivity).
  assert (Hne : "{bad" <> "") by discriminate.
  assert (Hp : @JSON_parse RefPlatform "{bad" = None) by (vm_compute; reflexivity).
  split; [exact Hu|]. split; [exact Hg|]. split; [exact Hne|]. split; [exact Hp|].
  exact (proj1 (@restore_corrupt_record_raises RefPlatform _ _ formName
                  defaultConfig 0 _ "{bad" Hu Hg Hne Hp)).
Defined.

(** Tolerance of a corrupt record fails at a concrete one: the stored text
    [{bad] is not JSON; the restore effect does not complete, the
    SyntaxError surfaces. *)
Lemma restore_corrupt_record_counterexample :
  let w := freshWorld (storeWith "{bad") in
  let r := @restoreEffect RefPlatform _ _ formName defaultConfig 0 w in
  @JSON_parse RefPlatform "{bad" = None /\
  fst r = Throws SyntaxError /\
  ~ (fieldSets (calls (snd r)) = [] /\
     initializedRef (refs (snd r)) = true /\
     isRestoringRef (refs (snd r)) = false /\
     fst r = Returns tt).
Proof.
  cbv zeta. split; [vm_compute; reflexivity|].
  split; [vm_compute; reflexivity|].
  intros (_ & _ & _ & Hr). vm_compute in Hr. discriminate.
Qed.

Lemma restore_expiry_decision_witness :
  let raw := (text_of [("a", JNum 1); ("_savedAt", JNum 1000)]) in
  let o := [("a", JNum 1); ("_savedAt", JNum 1000)] in
  let w := freshWorld (storeWith raw) in
  unrestored (refs w) /\
  getItem (storage w) (getStorageKey formName) = Some raw /\
  raw <> "" /\
  @JSON_parse RefPlatform raw = Some (JObj o) /\
  (obj_get o "_savedAt" = Some (JNum 1000)
   \/ (obj_get o "_savedAt" = None /\ 1000%Z = 0%Z)) /\
  @restoreEffect RefPlatform _ _ formName (timeoutConfig 1000) 5000 w
  = (Returns tt, expired_world formName (timeoutConfig 1000) w).
Proof.
  cbv zeta.
  assert (Hu : unrestored
                 (refs (freshWorld (storeWith (text_of [("a", JNum 1); ("_savedAt", JNum 1000)])))))
    by (split; reflexivity).
  assert (Hg : getItem
                 (storage (freshWorld (storeWith (text_of [("a", JNum 1); ("_savedAt", JNum 1000)]))))
                 (getStorageKey formName)
               = Some (text_of [("a", JNum 1); ("_savedAt", JNum 1000)]))
    by (vm_compute; reflexivity).
  assert (Hne : (text_of [("a", JNum 1); ("_savedAt", JNum 1000)]) <> "") by discriminate.
  assert (Hp : @JSON_parse RefPlatform (text_of [("a", JNum 1); ("_savedAt", JNum 1000)])
               = Some (JObj [("a", JNum 1); ("_savedAt", JNum 1000)]))
    by (vm_compute; reflexivity).
  assert (Hs : obj_get [("a", JNum 1); ("_savedAt", JNum 1000)] "_savedAt"
               = Some (JNum 1000)
               \/ (obj_get [("a", JNum 1); ("_savedAt", JNum 1000)] "_savedAt"
                   = None /\ 1000%Z = 0%Z))
    by (left; reflexivity).
  repeat (split; [assumption|]).
  exact (@restore_expiry_decision RefPlatform _ _ formName (timeoutConfig 1000)
           5000 _ _ _ 1000%Z Hu Hg Hne Hp Hs).
Defined.

(** Expiry without a timestamp, at a concrete record: [{"a":1}] has no
    [_savedAt], yet with [timeout = 1000] at time 5000 the restore effect
    takes the expiry branch: [onTimeout] is called, the record removed, no
    field set. *)
Lemma restore_unstamped_record_counterexample :
  let raw := (text_of [("a", JNum 1)]) in
  let w := freshWorld (storeWith raw) in
  let cfg := timeoutConfig 1000 in
  let r := @restoreEffect RefPlatform _ _ formName cfg 5000 w in
  @JSON_parse RefPlatform raw = Some (JObj [("a", JNum 1)]) /\
  obj_get [("a", JNum 1)] "_savedAt" = None /\
  calls (snd r)
  = [getItem_call formKey; onTimeout_call; removeItem_call formKey] /\
  getItem (storage (snd r)) formKey = None /\
  ~ (fieldSets (calls (snd r)) = setValueCalls cfg [("a", JNum 1)]).
Proof.
  cbv zeta. repeat (split; [vm_compute; reflexivity|]).
  intros Hr. vm_compute in Hr. discriminate.
Qed.

Lemma restore_field_sets_witness :
  let o := [("a", JNum 1); ("b", JNum 2); ("_savedAt", JNum 5)] in
  let raw := text_of o in
  let w := freshWorld (storeWith raw) in
  unrestored (refs w) /\
  getItem (storage w) (getStorageKey formName) = Some raw /\
  raw <> "" /\
  @JSON_parse RefPlatform raw = Some (JObj o) /\
  @isExpired RefPlatform (timeout excludingConfig) 10 (JNum 5) = Returns false /\
  calls (snd (@restoreEffect RefPlatform _ _ formName excludingConfig 10 w))
  = [getItem_call formKey;
     setValue_call "a" (Some (JNum 1))
       {| shouldValidate := true; shouldDirty := false; shouldTouch := true |};
     onDataRestored_call [("a", JNum 1); ("b", JNum 2)]].
Proof.
  cbv zeta.
  assert (Hu : unrestored
                 (refs (freshWorld (storeWith (text_of [("a", JNum 1); ("b", JNum 2); ("_savedAt", JNum 5)])))))
    by (split; reflexivity).
  assert (Hg : getItem
                 (storage (freshWorld (storeWith (text_of [("a", JNum 1); ("b", JNum 2); ("_savedAt", JNum 5)]))))
                 (getStorageKey formName)
               = Some (text_of [("a", JNum 1); ("b", JNum 2); ("_savedAt", JNum 5)]))
    by (vm_compute; reflexivity).
  assert (Hne : (text_of [("a", JNum 1); ("b", JNum 2); ("_savedAt", JNum 5)]) <> "")
    by discriminate.
  assert (Hp : @JSON_parse RefPlatform
                 (text_of [("a", JNum 1); ("b", JNum 2); ("_savedAt", JNum 5)])
               = Some (JObj [("a", JNum 1); ("b", JNum 2); ("_savedAt", JNum 5)]))
    by (vm_compute; reflexivity).
  assert (He : @isExpired RefPlatform (timeout excludingConfig) 10 (JNum 5)
               = Returns false) by reflexivity.
  repeat (split; [assumption|]).
  exact (proj1 (proj2 (@restore_field_sets RefPlatform _ _ formName
                         excludingConfig 10 _ _ _ Hu Hg Hne Hp He))).
Defined.

Lemma zero_timeout_stamps_but_never_expires_witness :
  let w := idleWorld (storeWith (text_of [("a", JNum 1); ("_savedAt", JNum 1)])) in
  timeout (timeoutConfig 0) = Some 0%Z /\
  calls (snd (@saveToStorage RefPlatform _ _ formName (timeoutConfig 0)
                [("a", JNum 2)] 5000 w))
  = [setItem_call formKey (text_of [("a", JNum 2); ("_savedAt", JNum 5000)])].
Proof.
  cbv zeta.
  assert (Ht : timeout (timeoutConfig 0) = Some 0%Z) by reflexivity.
  split; [exact Ht|].
  exact (proj1 (proj1 (@zero_timeout_stamps_but_never_expires RefPlatform _ _
                         formName (timeoutConfig 0) [("a", JNum 2)] 5000
                         (idleWorld (storeWith (text_of [("a", JNum 1); ("_savedAt", JNum 1)]))) Ht)
                  eq_refl eq_refl)).
Defined.

Lemma empty_snapshot_never_written_witness :
  let w := idleWorld (storeWith (text_of [("a", JNum 1)])) in
  candidateValues excludingConfig [("b", JNum 2)] = [] /\
  timers_issued w /\
  calls (snd ((@changeNotification RefPlatform _ _ formName excludingConfig
                 [("b", JNum 2)] 0
               >> @quietPeriodEnds RefPlatform _ _ 500) w)) = [].
Proof.
  cbv zeta.
  assert (Hc : candidateValues excludingConfig [("b", JNum 2)] = [])
    by reflexivity.
  assert (Hi : timers_issued (idleWorld (storeWith (text_of [("a", JNum 1)]))))
    by constructor.
  split; [exact Hc|]. split; [exact Hi|].
  exact (proj1 (proj2 (proj2 (@empty_snapshot_never_written RefPlatform _ _
                                formName excludingConfig [("b", JNum 2)] 0 500
                                _ Hc Hi)))).
Defined.

Lemma same_snapshot_written_twice_under_timeout_witness :
  let w := idleWorld (∅ : gmap string string) in
  let cfg := timeoutConfig 1000 in
  let watched := [("a", JNum 1)] in
  timeout cfg = Some 1000%Z /\
  isSavingRef (refs w) = false /\
  candidateValues cfg watched <> [] /\
  obj_get (candidateValues cfg watched) "_savedAt" = None /\
  @valuesHaveChanged RefPlatform (lastValuesRef (refs w))
    (candidateValues cfg watched) = true /\
  setItem (storage w) formKey (text_of [("a", JNum 1); ("_savedAt", JNum 10)])
  = Some (storeWith (text_of [("a", JNum 1); ("_savedAt", JNum 10)])) /\
  calls (snd ((@saveToStorage RefPlatform _ _ formName cfg watched 10
               >> @saveToStorage RefPlatform _ _ formName cfg watched 20) w))
  = [setItem_call formKey (text_of [("a", JNum 1); ("_savedAt", JNum 10)]);
     setItem_call formKey (text_of [("a", JNum 1); ("_savedAt", JNum 20)])].
Proof.
  cbv zeta.
  assert (Ht : timeout (timeoutConfig 1000) = Some 1000%Z) by reflexivity.
  assert (Hs : isSavingRef (refs (idleWorld (∅ : gmap string string))) = false)
    by reflexivity.
  assert (Hne : candidateValues (timeoutConfig 1000) [("a", JNum 1)] <> [])
    by discriminate.
  assert (Hf : obj_get (candidateValues (timeoutConfig 1000) [("a", JNum 1)])
                 "_savedAt" = None) by reflexivity.
  assert (Hc : @valuesHaveChanged RefPlatform
                 (lastValuesRef (refs (idleWorld (∅ : gmap string string))))
                 (candidateValues (timeoutConfig 1000) [("a", JNum 1)]) = true)
    by reflexivity.
  assert (Hw : setItem (storage (idleWorld (∅ : gmap string string))) formKey
                 (text_of [("a", JNum 1); ("_savedAt", JNum 10)])
               = Some (storeWith (text_of [("a", JNum 1); ("_savedAt", JNum 10)])))
    by (vm_compute; reflexivity).
  repeat (split; [assumption|]).
  exact (proj1 (@same_snapshot_written_twice_under_timeout RefPlatform _ _
                  formName (timeoutConfig 1000) [("a", JNum 1)] 10 20
                  (idleWorld (∅ : gmap string string)) 1000%Z _
                  Ht Hs Hne Hf Hc Hw)).
Defined.

Lemma failed_write_leaves_saving_set_witness :
  let w := idleWorld fullStore in
  let watched := [("a", JNum 1)] in
  isSavingRef (refs w) = false /\
  @saveWarranted RefPlatform (lastValuesRef (refs w))
    (candidateValues defaultConfig watched) = true /\
  setItem (storage w) (getStorageKey formName) (text_of [("a", JNum 1)]) = None /\
  timers_issued w /\
  (let r := @saveToStorage RefPlatform _ _ formName defaultConfig watched 0 w in
   fst r = Throws AdapterError /\
   isSavingRef (refs (snd r)) = true /\
   calls (snd ((@changeNotification RefPlatform _ _ formName defaultConfig
                  [("a", JNum 2)] 1
                >> @quietPeriodEnds RefPlatform _ _ 2) (snd r)))
   = calls (snd r)).
Proof.
  cbv zeta.
  assert (Hs : isSavingRef (refs (idleWorld fullStore)) = false) by reflexivity.
  assert (Hw : @saveWarranted RefPlatform
                 (lastValuesRef (refs (idleWorld fullStore)))
                 (candidateValues defaultConfig [("a", JNum 1)]) = true)
    by reflexivity.
  assert (Hf : setItem (storage (idleWorld fullStore)) (getStorageKey formName)
                 (text_of [("a", JNum 1)]) = None) by reflexivity.
  assert (Hi : timers_issued (idleWorld fullStore)) by constructor.
  repeat (split; [assumption|]).
  pose proof (@failed_write_leaves_saving_set RefPlatform _ _ formName
                defaultConfig [("a", JNum 1)] 0 (idleWorld fullStore)
                Hs Hw Hf Hi) as (H1 & H2 & _ & H4).
  split; [exact H1|]. split; [exact H2|].
  exact (proj1 (proj2 (H4 formName defaultConfig [("a", JNum 2)] 1%Z 2%Z))).
Defined.

Lemma save_then_restore_roundtrip_witness :
  let snapshot := [("name", JStr "John"); ("email", JStr "john@example.com")] in
  let key := getStorageKey formName in
  let text := @JSON_stringify RefPlatform (JObj snapshot) in
  let s0 := (∅ : gmap string string) in
  let s1 := <[key := text]> s0 in
  let saved :=
    (@mount RefPlatform _ _ formName defaultConfig snapshot 0
     >> @quietPeriodEnds RefPlatform _ _ 0)
      (freshWorld s0) in
  snapshot <> [] /\
  List.NoDup (Object_keys snapshot) /\
  obj_get snapshot "_savedAt" = None /\
  exclude defaultConfig = [] /\ timeout defaultConfig = None /\
  text <> "" /\
  @JSON_parse RefPlatform text = Some (JObj snapshot) /\
  truthy_string (getItem s0 key) = false /\
  setItem s0 key text = Some s1 /\
  getItem s1 key = Some text /\
  writes (calls (snd saved)) = [setItem_call formKey (text_of snapshot)] /\
  fieldSets
    (calls (snd (@restoreEffect RefPlatform _ _ formName defaultConfig 0
                   (freshWorld (storage (snd saved))))))
  = [setValue_call "name" (Some (JStr "John")) (restoreFlags defaultConfig);
     setValue_call "email" (Some (JStr "john@example.com"))
       (restoreFlags defaultConfig)].
Proof.
  cbv zeta.
  assert (Hne : [("name", JStr "John"); ("email", JStr "john@example.com")]
                <> []) by discriminate.
  assert (Hnd : List.NoDup
                  (Object_keys
                     [("name", JStr "John"); ("email", JStr "john@example.com")])).
  { repeat constructor; simpl; intuition discriminate. }
  assert (Hf : obj_get [("name", JStr "John"); ("email", JStr "john@example.com")]
                 "_savedAt" = None) by reflexivity.
  assert (He : exclude defaultConfig = []) by reflexivity.
  assert (Ht : timeout defaultConfig = None) by reflexivity.
  assert (Htext : @JSON_stringify RefPlatform
                    (JObj [("name", JStr "John"); ("email", JStr "john@example.com")])
                  <> "") by (vm_compute; discriminate).
  assert (Hp : @JSON_parse RefPlatform
                 (@JSON_stringify RefPlatform
                    (JObj [("name", JStr "John"); ("email", JStr "john@example.com")]))
               = Some (JObj [("name", JStr "John"); ("email", JStr "john@example.com")]))
    by (vm_compute; reflexivity).
  assert (Hnone : truthy_string
                    (getItem (∅ : gmap string string) (getStorageKey formName))
                  = false) by (vm_compute; reflexivity).
  assert (Hset : setItem (∅ : gmap string string) (getStorageKey formName)
                   (@JSON_stringify RefPlatform
                      (JObj [("name", JStr "John"); ("email", JStr "john@example.com")]))
                 = Some (<[getStorageKey formName :=
                             @JSON_stringify RefPlatform
                               (JObj [("name", JStr "John"); ("email", JStr "john@example.com")])]>
                           (∅ : gmap string string))) by reflexivity.
  assert (Hget : getItem
                   (<[getStorageKey formName :=
                        @JSON_stringify RefPlatform
                          (JObj [("name", JStr "John"); ("email", JStr "john@example.com")])]>
                      (∅ : gmap string string))
                   (getStorageKey formName)
                 = Some (@JSON_stringify RefPlatform
                           (JObj [("name", JStr "John"); ("email", JStr "john@example.com")])))
    by (vm_compute; reflexivity).
  repeat (split; [assumption|]).
  destruct (@save_then_restore_roundtrip RefPlatform _ _ formName
              defaultConfig defaultConfig
              [("name", JStr "John"); ("email", JStr "john@example.com")]
              0 0 0 _ _ Hne Hnd Hf He Ht He Ht Htext Hp Hnone Hset Hget)
    as (_ & Hw & _ & _ & Hr).
  split; [exact Hw | exact Hr].
Defined.

(** The round trip fails at a concrete snapshot: the form has one field,
    named [_savedAt].  It is saved as it is, but the second binding takes
    the field for the record's timestamp and issues no field-set call. *)
Lemma roundtrip_reserved_key_counterexample :
  let snapshot := [("_savedAt", JNum 5)] in
  let saved :=
    (@mount RefPlatform _ _ formName defaultConfig snapshot 0
     >> @quietPeriodEnds RefPlatform _ _ 0)
      (freshWorld (∅ : gmap string string)) in
  let restored :=
    @restoreEffect RefPlatform _ _ formName defaultConfig 0
      (freshWorld (storage (snd saved))) in
  writes (calls (snd saved)) = [setItem_call formKey (text_of [("_savedAt", JNum 5)])] /\
  @JSON_parse RefPlatform (text_of [("_savedAt", JNum 5)]) = Some (JObj snapshot) /\
  fst restored = Returns tt /\
  fieldSets (calls (snd restored)) = [] /\
  ~ (fieldSets (calls (snd restored))
     = map (fun kv =>
              setValue_call (fst kv) (Some (snd kv)) (restoreFlags defaultConfig))
           snapshot).
Proof.
  cbv zeta. repeat (split; [vm_compute; reflexivity|]).
  intros Hr. vm_compute in Hr. discriminate.
Qed.

(** * Further properties of the hook *)

(** *** The order of field names *)

Lemma ascii_compare_trans_le a b c :
  Ascii.compare a b <> Gt -> Ascii.compare b c <> Gt -> Ascii.compare a c <> Gt.
Proof.
  unfold Ascii.compare. rewrite !N.compare_le_iff. lia.
Qed.

Lemma string_leb_trans s1 s2 s3 :
  String.leb s1 s2 = true -> String.leb s2 s3 = true -> String.leb s1 s3 = true.
Proof.
  unfold String.leb. revert s2 s3.
  induction s1 as [|a s1 IH]; intros [|b s2] [|c s3]; simpl; try congruence.
  intros H12 H23.
  unfold Ascii.compare in *.
  destruct (N.compare_spec (N_of_ascii a) (N_of_ascii b)) as [Eab|Lab|Gab];
    try discriminate;
    destruct (N.compare_spec (N_of_ascii b) (N_of_ascii c)) as [Ebc|Lbc|Gbc];
    try discriminate.
  - rewrite Eab, Ebc, N.compare_refl. now apply (IH s2 s3).
  - rewrite Eab. apply N.compare_lt_iff in Lbc. now rewrite Lbc.
  - rewrite <- Ebc. apply N.compare_lt_iff in Lab. now rewrite Lab.
  - assert (L : (N_of_ascii a < N_of_ascii c)%N) by lia.
    apply N.compare_lt_iff in L. now rewrite L.
Qed.

Lemma sort_insert_comm a b l :
  sort_insert a (sort_insert b l) = sort_insert b (sort_insert a l).
Proof.
  induction l as [|h t IH]; simpl.
  - destruct (String.leb a b) eqn:Eab, (String.leb b a) eqn:Eba; try reflexivity.
    + now rewrite (String.leb_antisym a b Eab Eba).
    + destruct (String.leb_total a b); congruence.
  - destruct (String.leb b h) eqn:Ebh, (String.leb a h) eqn:Eah; simpl.
    + destruct (String.leb a b) eqn:Eab, (String.leb b a) eqn:Eba;
        rewrite ?Eah, ?Ebh; try reflexivity.
      * now rewrite (String.leb_antisym a b Eab Eba).
      * destruct (String.leb_total a b); congruence.
    + destruct (String.leb a b) eqn:Eab.
      * rewrite (string_leb_trans a b h Eab Ebh) in Eah. discriminate.
      * now rewrite Eah, Ebh.
    + destruct (String.leb b a) eqn:Eba.
      * rewrite (string_leb_trans b a h Eba Eah) in Ebh. discriminate.
      * now rewrite Eah, Ebh.
    + rewrite Eah, Ebh. now rewrite IH.
Qed.

Lemma sort_insert_perm k l : Permutation (sort_insert k l) (k :: l).
Proof.
  induction l as [|h t IH]; simpl; [reflexivity|].
  destruct (String.leb k h); [reflexivity|].
  rewrite IH. apply perm_swap.
Qed.

Lemma Array_sort_perm l : Permutation (Array_sort l) l.
Proof.
  induction l as [|h t IH]; simpl; [reflexivity|].
  rewrite sort_insert_perm. now constructor.
Qed.

Lemma Array_sort_of_perm l1 l2 :
  Permutation l1 l2 -> Array_sort l1 = Array_sort l2.
Proof.
  induction 1 as [|x l l' _ IH|x y l|l l' l'' _ IH1 _ IH2]; simpl.
  - reflexivity.
  - now rewrite IH.
  - apply sort_insert_comm.
  - congruence.
Qed.

Lemma Array_sort_eq_iff l1 l2 :
  Array_sort l1 = Array_sort l2 <-> Permutation l1 l2.
Proof.
  split; [|apply Array_sort_of_perm].
  intros E. rewrite <- (Array_sort_perm l1), E. apply Array_sort_perm.
Qed.

Lemma every_from_eq (pre l1 l2 : list string) :
  List.length l1 = List.length l2 ->
  every_from
    (fun key i =>
       match nth_error (pre ++ l2) i with
       | Some k => String.eqb key k
       | None => false
       end)
    (List.length pre) l1 = true ->
  l1 = l2.
Proof.
  revert pre l2. induction l1 as [|x l1 IH]; intros pre [|y l2] Hlen;
    simpl in *; try lia; [reflexivity|].
  rewrite nth_error_app2 by lia. rewrite Nat.sub_diag. simpl.
  intros [Hxy Hrest]%andb_prop. apply String.eqb_eq in Hxy. subst y.
  f_equal. apply (IH (pre ++ [x]) l2); [lia|].
  rewrite <- app_assoc, length_app. simpl.
  replace (List.length pre + 1) with (Datatypes.S (List.length pre)) by lia.
  exact Hrest.
Qed.

(** *** Exclusion *)

Lemma obj_set_fresh (o : obj) key v :
  obj_get o key = None -> obj_set o key v = o ++ [(key, v)].
Proof.
  induction o as [|[k x] o IH]; simpl; intros Hget; [reflexivity|].
  destruct (String.eqb k key); [discriminate|]. now rewrite IH.
Qed.

Lemma obj_get_app (o1 o2 : obj) key :
  obj_get (o1 ++ o2) key
  = match obj_get o1 key with Some v => Some v | None => obj_get o2 key end.
Proof.
  induction o1 as [|[k x] o1 IH]; simpl; [reflexivity|].
  destruct (String.eqb k key); [reflexivity|exact IH].
Qed.

Lemma obj_get_absent (o : obj) key :
  ~ In key (Object_keys o) -> obj_get o key = None.
Proof.
  induction o as [|[k x] o IH]; simpl; intros Hnot; [reflexivity|].
  destruct (String.eqb k key) eqn:E.
  - apply String.eqb_eq in E. tauto.
  - apply IH. tauto.
Qed.

Lemma obj_get_present (o : obj) key :
  obj_get o key = None -> ~ In key (Object_keys o).
Proof.
  induction o as [|[k x] o IH]; simpl; intros Hget; [tauto|].
  destruct (String.eqb k key) eqn:E; [discriminate|].
  apply String.eqb_neq in E. intros [?|?]; [congruence|]. now apply IH.
Qed.

Lemma exclusion_loop (excluded : list string) (l acc : obj) :
  List.NoDup (Object_keys l) ->
  (forall key, In key (Object_keys l) -> obj_get acc key = None) ->
  fold_left
    (fun values kv =>
       if negb (includes excluded (fst kv))
       then obj_assign values (fst kv) (snd kv)
       else values)
    l acc
  = acc ++ List.filter
             (fun kv => negb (includes excluded (fst kv))
                        && negb (String.eqb (fst kv) "__proto__")) l.
Proof.
  revert acc. induction l as [|[k x] l IH]; intros acc Hnd Hfresh; simpl.
  - now rewrite app_nil_r.
  - inversion Hnd as [|? ? Hnotin Hnd']; subst.
    assert (Hrest : forall key, In key (Object_keys l) -> obj_get acc key = None)
      by (intros key Hin; apply Hfresh; now right).
    destruct (negb (includes excluded k)) eqn:E; simpl;
      [|now apply IH].
    unfold obj_assign. destruct (String.eqb k "__proto__"); simpl;
      [now apply IH|].
    rewrite obj_set_fresh by (apply Hfresh; now left).
    rewrite IH; [now rewrite <- app_assoc|exact Hnd'|].
    intros key Hin. rewrite obj_get_app.
    rewrite Hrest by exact Hin. simpl.
    destruct (String.eqb k key) eqn:Ek; [|reflexivity].
    apply String.eqb_eq in Ek. subst. contradiction.
Qed.

Lemma filter_all {A} (f : A -> bool) (l : list A) :
  (forall x, In x l -> f x = true) -> List.filter f l = l.
Proof.
  induction l as [|x l IH]; simpl; intros Hall; [reflexivity|].
  rewrite Hall by (now left). f_equal. apply IH. intros y Hy. apply Hall. now right.
Qed.

Lemma obj_get_filter (f : string -> bool) (o : obj) key :
  obj_get (List.filter (fun kv => f (fst kv)) o) key
  = if f key then obj_get o key else None.
Proof.
  induction o as [|[k x] o IH]; simpl; [now destruct (f key)|].
  destruct (String.eqb k key) eqn:Ek.
  - apply String.eqb_eq in Ek. subst k.
    destruct (f key) eqn:Ef; simpl; [now rewrite String.eqb_refl|exact IH].
  - destruct (f k); simpl; [now rewrite Ek|exact IH].
Qed.

(** X2.  For watched values with unique field names, the values to persist
    are the watched fields that are kept, in their order and with their
    values.  Without exclusions every field is kept (the values are copied
    by a spread); with exclusions a field is kept when its name is neither
    excluded nor [__proto__], the one name whose assignment to the new
    object of line 125 adds no property. *)
Theorem candidateValues_is_filter cfg (watchedValues : obj) :
  let kept (key : string) : bool :=
    match exclude cfg with
    | [] => true
    | _ => negb (includes (exclude cfg) key)
           && negb (String.eqb key "__proto__")
    end in
  List.NoDup (Object_keys watchedValues) ->
  candidateValues cfg watchedValues
  = List.filter (fun kv => kept (fst kv)) watchedValues
  /\ (forall key, includes (exclude cfg) key = true ->
        obj_get (candidateValues cfg watchedValues) key = None)
  /\ (exclude cfg <> [] ->
        obj_get (candidateValues cfg watchedValues) "__proto__" = None)
  /\ (forall key, kept key = true ->
        obj_get (candidateValues cfg watchedValues) key
        = obj_get watchedValues key).
Proof.
  intros kept Hnd.
  assert (E : candidateValues cfg watchedValues
              = List.filter (fun kv => kept (fst kv)) watchedValues).
  { unfold candidateValues, kept.
    destruct (exclude cfg) as [|e excluded] eqn:Eex; simpl Nat.ltb; cbv iota.
    - now rewrite filter_all.
    - unfold Object_entries. now rewrite exclusion_loop. }
  split; [exact E|]. rewrite E.
  split; [|split].
  - intros key. rewrite obj_get_filter. unfold kept.
    destruct (exclude cfg); intros Hk; [discriminate Hk|]. now rewrite Hk.
  - rewrite obj_get_filter. unfold kept.
    destruct (exclude cfg); intros Hex; [congruence|].
    simpl. now rewrite andb_false_r.
  - intros key Hk. rewrite obj_get_filter. now rewrite Hk.
Qed.

Section MoreProperties.
Context {platform : Platform}.
Context {S : Type} {adapter : StorageAdapter S}.

Ltac unfold_hook :=
  unfold restoreEffect, saveToStorage, saveEffect, saveEffectCleanup,
    timerCallback, clearStorage, storage_getItem, storage_setItem,
    storage_removeItem, lift, bind, ret, throw, readRefs, writeRefs, invoke,
    when, setTimeout, clearTimeout.

(** *** The change detector *)

Lemma same_text_eq a b : same_text a b = true <-> a = b.
Proof.
  destruct a, b; simpl; try (split; congruence).
  rewrite String.eqb_eq. split; congruence.
Qed.

(** X1.  The change detector reports no change exactly when the two
    objects have the same field names, in whatever order, and every field
    prints to the same JSON text in both. *)
Theorem valuesHaveChanged_false_iff (lastValues newValues : obj) :
  valuesHaveChanged lastValues newValues = false <->
  Permutation (Object_keys newValues) (Object_keys lastValues) /\
  (forall key, In key (Object_keys newValues) ->
     stringify_property newValues key = stringify_property lastValues key).
Proof.
  unfold valuesHaveChanged, Array_every, Array_some.
  set (newKeys := Array_sort (Object_keys newValues)).
  set (lastKeys := Array_sort (Object_keys lastValues)).
  assert (Hsome : forall l : list string,
    existsb (fun key => negb (same_text (stringify_property newValues key)
                                        (stringify_property lastValues key))) l
    = false <->
    (forall key, In key l ->
       stringify_property newValues key = stringify_property lastValues key)).
  { intros l. induction l as [|k l IH]; simpl.
    - split; [intros _ key []|reflexivity].
    - rewrite orb_false_iff, IH, negb_false_iff, same_text_eq.
      split.
      + intros [Hk Hl] key [<-|Hin]; auto.
      + intros Hall. split; [apply Hall; now left|].
        intros key Hin. apply Hall. now right. }
  split.
  - intros Hfalse.
    destruct (negb (Nat.eqb (List.length newKeys) (List.length lastKeys))) eqn:Elen;
      [discriminate|].
    apply negb_false_iff, Nat.eqb_eq in Elen.
    destruct (every_from _ 0 newKeys) eqn:Eev; [|discriminate].
    simpl in Hfalse.
    pose proof (every_from_eq [] newKeys lastKeys Elen Eev) as Heq.
    split.
    + now apply Array_sort_eq_iff.
    + intros key Hin. apply (proj1 (Hsome newKeys) Hfalse).
      subst newKeys. apply (Permutation_in key (Permutation_sym (Array_sort_perm _))).
      exact Hin.
  - intros [Hperm Hall].
    apply Array_sort_eq_iff in Hperm. fold newKeys lastKeys in Hperm.
    rewrite <- Hperm. rewrite Nat.eqb_refl. simpl.
    pose proof (every_from_self [] newKeys) as E. simpl in E. rewrite E. simpl.
    apply Hsome. intros key Hin. apply Hall.
    subst newKeys. apply (Permutation_in key (Array_sort_perm _)). exact Hin.
Qed.

(** *** Restore, in every case *)

(** The record parses, but destructuring it or reading its age raises. *)
Lemma restoreEffect_destructure_error name cfg now (w : World S) raw parsed e :
  unrestored (refs w) ->
  getItem (storage w) (getStorageKey name) = Some raw ->
  raw <> "" ->
  JSON_parse raw = Some parsed ->
  destructure_savedAt parsed = Throws e ->
  restoreEffect name cfg now w
  = (Throws e,
     with_refs (set_isRestoringRef true)
       (with_calls [getItem_call (getStorageKey name)] w)).
Proof.
  intros [Hi Hr] Hget Hne Hparse Hd. unfold_hook. rewrite Hi, Hr. simpl.
  rewrite Hget. simpl. apply String.eqb_neq in Hne. rewrite Hne. simpl.
  rewrite Hparse, Hd. reflexivity.
Qed.

Lemma restoreEffect_coercion_error name cfg now (w : World S) raw parsed
    savedAt values e :
  unrestored (refs w) ->
  getItem (storage w) (getStorageKey name) = Some raw ->
  raw <> "" ->
  JSON_parse raw = Some parsed ->
  destructure_savedAt parsed = Returns (savedAt, values) ->
  isExpired (timeout cfg) now savedAt = Throws e ->
  restoreEffect name cfg now w
  = (Throws e,
     with_refs (set_isRestoringRef true)
       (with_calls [getItem_call (getStorageKey name)] w)).
Proof.
  intros [Hi Hr] Hget Hne Hparse Hd He. unfold_hook. rewrite Hi, Hr. simpl.
  rewrite Hget. simpl. apply String.eqb_neq in Hne. rewrite Hne. simpl.
  rewrite Hparse, Hd. simpl. rewrite He. reflexivity.
Qed.

(** A restore effect that has passed its guard either raises, with the
    restoring flag still set, or runs to its end. *)
Lemma restoreEffect_unrestored name cfg now (w : World S) :
  unrestored (refs w) ->
  (exists e,
      restoreEffect name cfg now w
      = (Throws e,
         with_refs (set_isRestoringRef true)
           (with_calls [getItem_call (getStorageKey name)] w)))
  \/ (exists w',
        restoreEffect name cfg now w = (Returns tt, w') /\
        initializedRef (refs w') = true /\ isRestoringRef (refs w') = false /\
        isSavingRef (refs w') = isSavingRef (refs w) /\
        timers w' = timers w /\ nextTimer w' = nextTimer w /\
        debounceTimeoutRef (refs w') = debounceTimeoutRef (refs w)).
Proof.
  intros Hu.
  destruct (truthy_string (getItem (storage w) (getStorageKey name))) eqn:Etr.
  2:{ right. eexists. split; [now apply restoreEffect_nothing|].
      repeat split. }
  destruct (getItem (storage w) (getStorageKey name)) as [raw|] eqn:Hget;
    [|discriminate].
  simpl in Etr. apply negb_true_iff, String.eqb_neq in Etr.
  destruct (JSON_parse raw) as [parsed|] eqn:Hparse.
  2:{ left. exists SyntaxError. now apply (restoreEffect_syntax_error _ _ _ _ raw). }
  destruct (destructure_savedAt parsed) as [[savedAt values]|e] eqn:Hd.
  2:{ left. exists e. now apply (restoreEffect_destructure_error _ _ _ _ raw parsed). }
  destruct (isExpired (timeout cfg) now savedAt) as [expired|e] eqn:He.
  2:{ left. exists e.
      now apply (restoreEffect_coercion_error _ _ _ _ raw parsed savedAt values). }
  right. eexists. split.
  - now apply (restoreEffect_parsed _ _ _ _ raw parsed savedAt values expired).
  - destruct expired; repeat split.
Qed.

(** Past its guard the restore effect does nothing. *)
Lemma restoreEffect_guarded name cfg now (w : World S) :
  initializedRef (refs w) || isRestoringRef (refs w) = true ->
  restoreEffect name cfg now w = (Returns tt, w).
Proof. intros Hg. unfold_hook. now rewrite Hg. Qed.

(** X3.  Once a run of the restore effect has returned, every later run
    (React runs the effect again whenever a dependency changes) returns at
    the guard of line 69 and leaves the world as it is. *)
Theorem restore_effect_runs_once name cfg now (w w' : World S) :
  restoreEffect name cfg now w = (Returns tt, w') ->
  forall name' cfg' now',
    restoreEffect name' cfg' now' w' = (Returns tt, w').
Proof.
  intros Hrun name' cfg' now'.
  destruct (initializedRef (refs w) || isRestoringRef (refs w)) eqn:Hg.
  - rewrite restoreEffect_guarded in Hrun by exact Hg.
    inversion Hrun; subst. now apply restoreEffect_guarded.
  - apply orb_false_iff in Hg.
    destruct (restoreEffect_unrestored name cfg now w Hg)
      as [[e He]|(w1 & Hw1 & Hi & _)].
    + rewrite He in Hrun. discriminate.
    + rewrite Hw1 in Hrun. inversion Hrun; subst.
      apply restoreEffect_guarded. now rewrite Hi.
Qed.

(** The coercion of line 78 raises or not whatever the time it is. *)
Lemma isExpired_raises_at_any_time t now now' savedAt e :
  isExpired t now savedAt = Throws e -> isExpired t now' savedAt = Throws e.
Proof.
  unfold isExpired. destruct t as [t|]; [|discriminate].
  destruct (Z.eqb t 0); [discriminate|].
  destruct (ToNumber savedAt) as [[sa|]|e']; [discriminate|discriminate|].
  auto.
Qed.

(** X4.  A restore that raises (malformed text, a null record, a coercion
    that raises) leaves the record in place: it has made no call but the
    read and the store is as it was.  A new binding of the same name and
    configuration mounted later over that store, as after React has
    discarded the instance whose effect raised, therefore reads the record
    again and raises the same exception: the hook never removes or
    replaces a record it cannot restore. *)
Theorem failed_restore_repeats_on_remount name cfg now now'
    (w w' : World S) e :
  unrestored (refs w) ->
  restoreEffect name cfg now w = (Throws e, w') ->
  calls w' = calls w ++ [getItem_call (getStorageKey name)] /\
  storage w' = storage w /\
  let r := restoreEffect name cfg now' (freshWorld (storage w')) in
  fst r = Throws e /\
  calls (snd r) = [getItem_call (getStorageKey name)] /\
  storage (snd r) = storage w'.
Proof.
  intros Hu Hrun.
  assert (Hfresh : unrestored (refs (freshWorld (storage w))))
    by (split; reflexivity).
  destruct (truthy_string (getItem (storage w) (getStorageKey name))) eqn:Etr.
  2:{ rewrite restoreEffect_nothing in Hrun by assumption. discriminate. }
  destruct (getItem (storage w) (getStorageKey name)) as [raw|] eqn:Hget;
    [|discriminate].
  simpl in Etr. apply negb_true_iff, String.eqb_neq in Etr.
  destruct (JSON_parse raw) as [parsed|] eqn:Hparse.
  2:{ rewrite (restoreEffect_syntax_error _ _ _ _ raw) in Hrun by assumption.
      inversion Hrun; subst. simpl.
      rewrite (restoreEffect_syntax_error _ _ _ _ raw) by assumption.
      repeat split. }
  destruct (destructure_savedAt parsed) as [[savedAt values]|e1] eqn:Hd.
  2:{ rewrite (restoreEffect_destructure_error _ _ _ _ raw parsed e1) in Hrun
        by assumption.
      inversion Hrun; subst. simpl.
      rewrite (restoreEffect_destructure_error _ _ _ _ raw parsed e)
        by assumption.
      repeat split. }
  destruct (isExpired (timeout cfg) now savedAt) as [expired|e1] eqn:He.
  - rewrite (restoreEffect_parsed _ _ _ _ raw parsed savedAt values expired)
      in Hrun by assumption.
    discriminate.
  - rewrite (restoreEffect_coercion_error _ _ _ _ raw parsed savedAt values e1)
      in Hrun by assumption.
    inversion Hrun; subst. simpl.
    rewrite (restoreEffect_coercion_error _ _ _ _ raw parsed savedAt values e)
      by (try assumption;
          now apply (isExpired_raises_at_any_time _ now now')).
    repeat split.
Qed.

(** X9.  While the binding is restoring, not yet initialized, or saving, a
    change notification followed by the end of its quiet period makes no
    call and changes neither the store nor the last saved values, whatever
    the delay. *)
Theorem notification_filtered name cfg watched now now' (w : World S) :
  timers_issued w ->
  isRestoringRef (refs w) = true \/ initializedRef (refs w) = false
  \/ isSavingRef (refs w) = true ->
  let r := (changeNotification name cfg watched now >> quietPeriodEnds now') w in
  fst r = Returns tt /\ calls (snd r) = calls w /\
  storage (snd r) = storage w /\
  lastValuesRef (refs (snd r)) = lastValuesRef (refs w).
Proof.
  intros Hissued Hflag.
  assert (Hskip : shouldSkipSave (refs w) = true).
  { unfold shouldSkipSave. destruct Hflag as [->|[->| ->]]; simpl;
      rewrite ?orb_true_r; reflexivity. }
  destruct (notification_settles name cfg watched now now' w Hissued)
    as [Hf Hs].
  rewrite timerCallback_filtered in Hf, Hs by exact Hskip.
  cbv zeta. rewrite Hf. apply session_fields in Hs. tauto.
Qed.

(** X5.  A stored text that parses to null makes the destructuring of line
    75 raise a TypeError: no call is made but the read, the store and the
    last saved values are as they were. *)
Theorem restore_null_record_raises name cfg now (w : World S) raw :
  unrestored (refs w) ->
  getItem (storage w) (getStorageKey name) = Some raw ->
  raw <> "" ->
  JSON_parse raw = Some JNull ->
  let r := restoreEffect name cfg now w in
  fst r = Throws TypeError /\
  calls (snd r) = calls w ++ [getItem_call (getStorageKey name)] /\
  storage (snd r) = storage w /\
  lastValuesRef (refs (snd r)) = lastValuesRef (refs w).
Proof.
  intros Hu Hget Hne Hparse. cbv zeta.
  rewrite (restoreEffect_destructure_error name cfg now w raw JNull TypeError)
    by (auto; reflexivity).
  repeat split.
Qed.

(** X6.  A stored text that parses to a number or a boolean has no field
    and no [_savedAt]: unless it counts as expired (a non-zero [timeout]
    smaller than the current time), the restore sets no field, records the
    empty snapshot as last saved and calls [onDataRestored], when given,
    with the empty snapshot. *)
Theorem restore_scalar_record name cfg now (w : World S) raw parsed :
  unrestored (refs w) ->
  getItem (storage w) (getStorageKey name) = Some raw ->
  raw <> "" ->
  JSON_parse raw = Some parsed ->
  (exists n, parsed = JNum n) \/ (exists b, parsed = JBool b) ->
  restoreEffect name cfg now w
  = (Returns tt,
     if match timeout cfg with
        | Some t => negb (Z.eqb t 0) && Z.gtb now t
        | None => false
        end
     then expired_world name cfg w
     else with_refs (restore_applied [])
            (with_calls
               ([getItem_call (getStorageKey name)]
                ++ (if onDataRestored cfg then [onDataRestored_call []] else []))
               w)).
Proof.
  intros Hu Hget Hne Hparse Hscalar.
  rewrite (restoreEffect_parsed name cfg now w raw parsed JNull []
             (match timeout cfg with
              | Some t => negb (Z.eqb t 0) && Z.gtb now t
              | None => false
              end)); try assumption.
  - reflexivity.
  - destruct Hscalar as [[n ->]|[b ->]]; reflexivity.
  - unfold isExpired. destruct (timeout cfg) as [t|]; [|reflexivity].
    destruct (Z.eqb t 0); [reflexivity|]. simpl. now rewrite Z.sub_0_r.
Qed.

(** X7.  After a restore, a change notification whose values to persist
    are the restored values makes no write, whatever the delay: the
    restore effect has set them as the last saved values. *)
Theorem restored_values_not_saved_back name cfg now n n' (w : World S)
    raw o watched :
  let values := obj_rest o "_savedAt" in
  let savedAt :=
    match obj_get o "_savedAt" with Some v => v | None => JNull end in
  unrestored (refs w) ->
  timers_issued w ->
  getItem (storage w) (getStorageKey name) = Some raw ->
  raw <> "" ->
  JSON_parse raw = Some (JObj o) ->
  isExpired (timeout cfg) now savedAt = Returns false ->
  candidateValues cfg watched = values ->
  let r := (restoreEffect name cfg now
            >> changeNotification name cfg watched n
            >> quietPeriodEnds n') w in
  fst r = Returns tt /\
  calls (snd r)
  = calls w ++ [getItem_call (getStorageKey name)] ++ setValueCalls cfg values
    ++ (if onDataRestored cfg then [onDataRestored_call values] else []) /\
  storage (snd r) = storage w /\
  lastValuesRef (refs (snd r)) = values.
Proof.
  intros values savedAt Hu Hissued Hget Hne Hparse Hexp Hsame. cbv zeta.
  rewrite bind_run.
  rewrite (restoreEffect_parsed name cfg now w raw (JObj o) savedAt values false)
    by (try assumption; reflexivity).
  cbv iota beta.
  set (w1 := restored_world name cfg values w).
  assert (Hissued1 : timers_issued w1) by exact Hissued.
  destruct (notification_settles name cfg watched n n' w1 Hissued1) as [Hf Hs].
  assert (Hw : saveWarranted (lastValuesRef (refs w1))
                 (candidateValues cfg watched) = false).
  { unfold saveWarranted. subst w1. simpl. rewrite Hsame.
    rewrite valuesHaveChanged_same. apply andb_false_r. }
  rewrite timerCallback_unwarranted in Hf, Hs by exact Hw.
  rewrite Hf. apply session_fields in Hs. subst w1. simpl in *. tauto.
Qed.

(** X8.  On the first render with a non-positive delay the save effect runs
    right after the restore effect, with the values watched in that
    render: when these are not empty and differ from the restored ones,
    they are written over the stored record at once, after the field-set
    calls of the restore. *)
Theorem mount_saves_initial_values name cfg now (w : World S) raw o watched s' :
  let values := obj_rest o "_savedAt" in
  let savedAt :=
    match obj_get o "_savedAt" with Some v => v | None => JNull end in
  let record := recordToPersist cfg (candidateValues cfg watched) now in
  let text := JSON_stringify (JObj record) in
  unrestored (refs w) ->
  isSavingRef (refs w) = false ->
  getItem (storage w) (getStorageKey name) = Some raw ->
  raw <> "" ->
  JSON_parse raw = Some (JObj o) ->
  isExpired (timeout cfg) now savedAt = Returns false ->
  (debounceDelay cfg <= 0)%Z ->
  saveWarranted values (candidateValues cfg watched) = true ->
  setItem (storage w) (getStorageKey name) text = Some s' ->
  let r := mount name cfg watched now w in
  fst r = Returns tt /\
  calls (snd r)
  = calls w ++ [getItem_call (getStorageKey name)] ++ setValueCalls cfg values
    ++ (if onDataRestored cfg then [onDataRestored_call values] else [])
    ++ [setItem_call (getStorageKey name) text] /\
  storage (snd r) = s' /\
  lastValuesRef (refs (snd r)) = record.
Proof.
  intros values savedAt record text Hu Hsv Hget Hne Hparse Hexp Hd Hw Hset.
  set (w1 := cancelPending (restored_world name cfg values w)).
  assert (Hs1 : session w1 = session (restored_world name cfg values w))
    by apply session_cancelPending.
  apply session_fields in Hs1.
  destruct Hs1 as (Hc1 & Hst1 & Hl1 & Hsv1 & Hr1 & Hi1).
  assert (E : mount name cfg watched now w
              = (Returns tt,
                 with_refs (save_written record)
                   (with_storage s'
                      (with_calls [setItem_call (getStorageKey name) text] w1)))).
  { unfold mount. rewrite bind_run.
    rewrite (restoreEffect_parsed name cfg now w raw (JObj o) savedAt values
               false) by (try assumption; reflexivity).
    cbv iota beta. rewrite saveEffect_run.
    assert (Hlt : Z.ltb 0 (debounceDelay cfg) = false) by (apply Z.ltb_ge; lia).
    rewrite Hlt. fold w1.
    unfold timerCallback. rewrite bind_run. unfold readRefs at 1.
    assert (Hskip : shouldSkipSave (refs w1) = false).
    { unfold shouldSkipSave. rewrite Hr1, Hi1, Hsv1. simpl. now rewrite Hsv. }
    rewrite Hskip. simpl negb. unfold when.
    simpl cl_name. simpl cl_config. simpl cl_watchedValues.
    apply (saveToStorage_written name cfg watched now w1 s').
    - rewrite Hsv1. simpl. exact Hsv.
    - rewrite Hl1. simpl. exact Hw.
    - rewrite Hst1. simpl. exact Hset. }
  cbv zeta. rewrite E. clearbody w1. simpl. rewrite Hc1. simpl.
  rewrite <- !app_assoc. simpl. repeat split. now rewrite <- !app_assoc.
Qed.

(** *** The scheduler *)

Lemma cancelPending_idem (w : World S) :
  cancelPending (cancelPending w) = cancelPending w.
Proof.
  unfold cancelPending.
  destruct (debounceTimeoutRef (refs w)) eqn:E; simpl; rewrite E;
    [|reflexivity].
  f_equal. apply filter_idem.
Qed.

Lemma storage_cancelPending (w : World S) :
  storage (cancelPending w) = storage w.
Proof.
  unfold cancelPending. destruct (debounceTimeoutRef (refs w)); reflexivity.
Qed.

Lemma calls_cancelPending (w : World S) : calls (cancelPending w) = calls w.
Proof.
  unfold cancelPending. destruct (debounceTimeoutRef (refs w)); reflexivity.
Qed.

Lemma nextTimer_cancelPending (w : World S) :
  nextTimer (cancelPending w) = nextTimer w.
Proof.
  unfold cancelPending. destruct (debounceTimeoutRef (refs w)); reflexivity.
Qed.

Lemma changeNotification_run name cfg watched now (w : World S) :
  changeNotification name cfg watched now w
  = if Z.ltb 0 (debounceDelay cfg)
    then (Returns tt, schedule (closureOf name cfg watched) (cancelPending w))
    else timerCallback (closureOf name cfg watched) now (cancelPending w).
Proof.
  unfold changeNotification. rewrite bind_run, saveEffectCleanup_run.
  rewrite saveEffect_run. now rewrite cancelPending_idem.
Qed.

Lemma cancelPending_empties (w : World S) :
  at_most_one_pending w -> timers (cancelPending w) = [].
Proof.
  unfold at_most_one_pending, cancelPending.
  destruct (timers w) as [|[id cl] [|t l]] eqn:Et; intros Hone.
  - destruct (debounceTimeoutRef (refs w)); simpl; [reflexivity|exact Et].
  - rewrite Hone. simpl. now rewrite Pos.eqb_refl.
  - contradiction.
Qed.

Lemma find_absent (id : positive) (l : list (positive * SaveClosure)) :
  Forall (fun t => fst t <> id) l ->
  List.find (fun t => Pos.eqb (fst t) id) l = None.
Proof.
  induction 1 as [|[i c] l Hne _ IH]; simpl; [reflexivity|].
  simpl in Hne. apply Pos.eqb_neq in Hne. now rewrite Hne.
Qed.

Lemma Forall_cleared_absent (id : positive) (l : list (positive * SaveClosure)) :
  Forall (fun t => fst t <> id)
         (List.filter (fun t => negb (Pos.eqb (fst t) id)) l).
Proof.
  induction l as [|[i c] l IH]; simpl; [constructor|].
  destruct (Pos.eqb i id) eqn:E; simpl; [exact IH|].
  constructor; [now apply Pos.eqb_neq|exact IH].
Qed.

Lemma absent_after_fire (id next : positive) l (cl : SaveClosure) :
  Forall (fun t => fst t <> id) l ->
  Forall (fun t => fst t <> id)
    (List.filter (fun t => negb (Pos.eqb (fst t) next)) (l ++ [(next, cl)])).
Proof.
  induction 1 as [|[i c] l Hi _ IH]; simpl.
  - rewrite Pos.eqb_refl. constructor.
  - destruct (Pos.eqb i next); simpl; [exact IH|].
    constructor; [exact Hi|exact IH].
Qed.

Lemma fireTimer_absent id now (w : World S) :
  List.find (fun t => Pos.eqb (fst t) id) (timers w) = None ->
  fireTimer id now w = (Returns tt, w).
Proof. intros Hnone. unfold fireTimer. now rewrite Hnone. Qed.

(** The end of the quiet period after a callback was scheduled: the
    callback runs with its timer taken off the queue. *)
Lemma quietPeriodEnds_schedule cl now (w : World S) :
  timers_issued w ->
  quietPeriodEnds now (schedule cl w)
  = timerCallback cl now
      {| refs := set_debounceTimeoutRef (Some (nextTimer w)) (refs w);
         storage := storage w;
         timers := List.filter (fun t => negb (Pos.eqb (fst t) (nextTimer w)))
                     (timers w ++ [(nextTimer w, cl)]);
         nextTimer := Pos.succ (nextTimer w);
         calls := calls w |}.
Proof.
  intros Hissued. unfold quietPeriodEnds. rewrite bind_run.
  unfold readRefs at 1. simpl. unfold fireTimer. simpl.
  rewrite find_issued by exact Hissued.
  rewrite bind_run. reflexivity.
Qed.

(** The callback of an idle binding whose save is warranted writes. *)
Lemma timerCallback_written name cfg watched now (w : World S) s' :
  let record := recordToPersist cfg (candidateValues cfg watched) now in
  let text := JSON_stringify (JObj record) in
  idle (refs w) ->
  saveWarranted (lastValuesRef (refs w)) (candidateValues cfg watched) = true ->
  setItem (storage w) (getStorageKey name) text = Some s' ->
  timerCallback (closureOf name cfg watched) now w
  = (Returns tt,
     with_refs (save_written record)
       (with_storage s'
          (with_calls [setItem_call (getStorageKey name) text] w))).
Proof.
  intros record text (Hr & Hi & Hsv) Hw Hset.
  unfold timerCallback. rewrite bind_run. unfold readRefs at 1.
  unfold shouldSkipSave. rewrite Hr, Hi, Hsv. simpl negb. unfold when.
  simpl cl_name. simpl cl_config. simpl cl_watchedValues.
  now apply saveToStorage_written.
Qed.

(** A callback scheduled once the pending one is cleared is alone in the
    queue. *)
Lemma schedule_after_cancel cl (w : World S) :
  at_most_one_pending w ->
  schedule cl (cancelPending w)
  = {| refs := set_debounceTimeoutRef (Some (nextTimer w)) (refs w);
       storage := storage w;
       timers := [(nextTimer w, cl)];
       nextTimer := Pos.succ (nextTimer w);
       calls := calls w |}.
Proof.
  intros Hone. unfold schedule.
  rewrite (cancelPending_empties w Hone), refs_cancelPending.
  unfold cancelPending. destruct (debounceTimeoutRef (refs w)); reflexivity.
Qed.

(** X10.  With a positive delay a change notification by itself makes no
    call and changes no flag, store or saved value: it leaves exactly one
    timer pending, holding the notified values, and the hook holds its
    handle. *)
Theorem debounced_notification_only_schedules name cfg watched now (w : World S) :
  (0 < debounceDelay cfg)%Z ->
  at_most_one_pending w ->
  changeNotification name cfg watched now w
  = (Returns tt,
     {| refs := set_debounceTimeoutRef (Some (nextTimer w)) (refs w);
        storage := storage w;
        timers := [(nextTimer w, closureOf name cfg watched)];
        nextTimer := Pos.succ (nextTimer w);
        calls := calls w |}).
Proof.
  intros Hd Hone. rewrite changeNotification_run.
  apply Z.ltb_lt in Hd. rewrite Hd. f_equal.
  now apply schedule_after_cancel.
Qed.

(** X11.  With positive delays, two change notifications followed by the
    end of the quiet period do to the flags, the store, the calls and the
    last saved values what the filtered save of the second notification's
    values alone does; the first timer is gone and firing its handle does
    nothing. *)
Theorem debounce_keeps_last name cfg1 cfg2 watched1 watched2 n1 n2 n3
    (w : World S) :
  (0 < debounceDelay cfg1)%Z ->
  (0 < debounceDelay cfg2)%Z ->
  timers_issued w ->
  let r := (changeNotification name cfg1 watched1 n1
            >> changeNotification name cfg2 watched2 n2
            >> quietPeriodEnds n3) w in
  let r1 := timerCallback (closureOf name cfg2 watched2) n3 w in
  fst r = fst r1 /\
  calls (snd r) = calls (snd r1) /\
  storage (snd r) = storage (snd r1) /\
  lastValuesRef (refs (snd r)) = lastValuesRef (refs (snd r1)) /\
  forall n4, fireTimer (nextTimer w) n4 (snd r) = (Returns tt, snd r).
Proof.
  intros Hd1 Hd2 Hissued. cbv zeta.
  apply Z.ltb_lt in Hd1, Hd2.
  rewrite bind_run, changeNotification_run, Hd1. cbv iota beta.
  set (w1 := schedule (closureOf name cfg1 watched1) (cancelPending w)).
  rewrite bind_run, changeNotification_run, Hd2. cbv iota beta.
  assert (Hissued1 : timers_issued (cancelPending w1)).
  { apply cancelPending_issued. unfold timers_issued, w1. simpl.
    apply Forall_app. split.
    - pose proof (cancelPending_issued w Hissued) as Hc.
      unfold timers_issued in Hc. eapply List.Forall_impl; [|exact Hc].
      simpl. intros t Ht.
      replace (nextTimer (cancelPending w)) with (nextTimer w) in *
        by (unfold cancelPending; destruct (debounceTimeoutRef (refs w));
            reflexivity).
      lia.
    - constructor; [simpl; lia|constructor]. }
  set (wc := cancelPending w1) in *.
  assert (Hnext : nextTimer wc = Pos.succ (nextTimer w)).
  { unfold wc. rewrite nextTimer_cancelPending. unfold w1. simpl.
    now rewrite nextTimer_cancelPending. }
  assert (Hold : Forall (fun t => fst t <> nextTimer w) (timers wc)).
  { unfold wc, cancelPending, w1. simpl. rewrite nextTimer_cancelPending.
    apply Forall_cleared_absent. }
  assert (Hsesswc : session wc = session w).
  { unfold wc. rewrite session_cancelPending. unfold session, w1. simpl.
    now rewrite ?refs_cancelPending, ?storage_cancelPending,
      ?calls_cancelPending. }
  clearbody wc. clear w1.
  rewrite (quietPeriodEnds_schedule _ n3 wc Hissued1).
  set (w2 := {| refs := _ |}).
  assert (Hsess : session w2 = session w) by (rewrite <- Hsesswc; reflexivity).
  destruct (timerCallback_session (closureOf name cfg2 watched2) n3 w2 w Hsess)
    as (Hf & Hs & Ht & _).
  apply session_fields in Hs.
  repeat (split; [tauto|]).
  intros n4. apply fireTimer_absent. rewrite Ht. apply find_absent.
  unfold w2. simpl. now apply absent_after_fire.
Qed.

(** X12.  The cleanup of the save effect cancels the scheduled save: after
    it no timer is pending, nothing was called or stored, and whatever
    handle the host fires, nothing happens. *)
Theorem cleanup_cancels_pending_save name cfg watched now (w : World S) :
  (0 < debounceDelay cfg)%Z ->
  at_most_one_pending w ->
  let r := (changeNotification name cfg watched now >> saveEffectCleanup) w in
  fst r = Returns tt /\
  timers (snd r) = [] /\
  calls (snd r) = calls w /\
  storage (snd r) = storage w /\
  lastValuesRef (refs (snd r)) = lastValuesRef (refs w) /\
  forall id now', fireTimer id now' (snd r) = (Returns tt, snd r).
Proof.
  intros Hd Hone. cbv zeta. rewrite bind_run, changeNotification_run.
  apply Z.ltb_lt in Hd. rewrite Hd.
  rewrite (schedule_after_cancel _ w Hone).
  cbv iota beta. rewrite saveEffectCleanup_run.
  unfold cancelPending. simpl. rewrite Pos.eqb_refl. simpl.
  repeat (split; [reflexivity|]).
  intros id now'. now apply fireTimer_absent.
Qed.

(** X13.  [clear()] does not cancel a scheduled save: when a change was
    notified under a positive delay and [clear()] is called before the
    quiet period ends, the record is removed and then written again when
    the timer fires. *)
Theorem clear_keeps_pending_save name cfg watched n n' (w : World S) s' :
  let key := getStorageKey name in
  let record := recordToPersist cfg (candidateValues cfg watched) n' in
  let text := JSON_stringify (JObj record) in
  (0 < debounceDelay cfg)%Z ->
  timers_issued w ->
  idle (refs w) ->
  saveWarranted (lastValuesRef (refs w)) (candidateValues cfg watched) = true ->
  setItem (removeItem (storage w) key) key text = Some s' ->
  let r := (changeNotification name cfg watched n
            >> clearStorage name
            >> quietPeriodEnds n') w in
  fst r = Returns tt /\
  calls (snd r) = calls w ++ [removeItem_call key; setItem_call key text] /\
  storage (snd r) = s' /\
  lastValuesRef (refs (snd r)) = record.
Proof.
  intros key record text Hd Hissued (Hr & Hi & Hsv) Hw Hset. cbv zeta.
  apply Z.ltb_lt in Hd.
  rewrite bind_run, changeNotification_run, Hd. cbv iota beta.
  rewrite bind_run.
  set (w0 := with_storage (removeItem (storage (cancelPending w)) key)
               (with_calls [removeItem_call key] (cancelPending w))).
  change (clearStorage name (schedule (closureOf name cfg watched) (cancelPending w)))
    with (Returns tt, schedule (closureOf name cfg watched) w0).
  cbv iota beta.
  assert (Hissued0 : timers_issued w0) by (apply (cancelPending_issued w Hissued)).
  rewrite (quietPeriodEnds_schedule _ n' w0 Hissued0).
  set (w2 := {| refs := _ |}).
  pose proof (session_cancelPending w) as E0. apply session_fields in E0.
  destruct E0 as (Hc0 & Hst0 & Hl0 & Hsv0 & Hr0 & Hi0).
  rewrite (timerCallback_written name cfg watched n' w2 s').
  - unfold w2, w0. simpl. rewrite Hc0, <- ?app_assoc. repeat split.
  - unfold idle, w2, w0. simpl. now rewrite Hr0, Hi0, Hsv0.
  - unfold w2, w0. simpl. now rewrite Hl0.
  - unfold w2, w0. simpl. rewrite storage_cancelPending. exact Hset.
Qed.

(** With a non-positive delay an idle binding saves inside the change
    notification and schedules no timer. *)
Lemma immediate_save_without_delay name cfg watched now (w : World S) s' :
  let key := getStorageKey name in
  let record := recordToPersist cfg (candidateValues cfg watched) now in
  let text := JSON_stringify (JObj record) in
  (debounceDelay cfg <= 0)%Z ->
  idle (refs w) ->
  saveWarranted (lastValuesRef (refs w)) (candidateValues cfg watched) = true ->
  setItem (storage w) key text = Some s' ->
  let r := changeNotification name cfg watched now w in
  fst r = Returns tt /\
  calls (snd r) = calls w ++ [setItem_call key text] /\
  storage (snd r) = s' /\
  lastValuesRef (refs (snd r)) = record /\
  nextTimer (snd r) = nextTimer w /\
  (at_most_one_pending w -> timers (snd r) = []).
Proof.
  intros key record text Hd (Hr & Hi & Hsv) Hw Hset. cbv zeta.
  assert (Hlt : Z.ltb 0 (debounceDelay cfg) = false) by (apply Z.ltb_ge; lia).
  rewrite changeNotification_run, Hlt.
  pose proof (session_cancelPending w) as E0. apply session_fields in E0.
  destruct E0 as (Hc0 & Hst0 & Hl0 & Hsv0 & Hr0 & Hi0).
  rewrite (timerCallback_written name cfg watched now (cancelPending w) s').
  - simpl. rewrite Hc0. repeat (split; [reflexivity|]). split.
    + apply nextTimer_cancelPending.
    + apply cancelPending_empties.
  - unfold idle. now rewrite Hr0, Hi0, Hsv0.
  - now rewrite Hl0.
  - now rewrite Hst0.
Qed.

(** *** Invariants of the timer queue *)

Lemma restoreEffect_frame name cfg now (w : World S) :
  let w' := snd (restoreEffect name cfg now w) in
  timers w' = timers w /\ nextTimer w' = nextTimer w /\
  debounceTimeoutRef (refs w') = debounceTimeoutRef (refs w) /\
  (storage w' = storage w
   \/ storage w' = removeItem (storage w) (getStorageKey name)).
Proof.
  cbv zeta.
  destruct (initializedRef (refs w) || isRestoringRef (refs w)) eqn:Hg.
  - rewrite restoreEffect_guarded by exact Hg. simpl. tauto.
  - apply orb_false_iff in Hg.
    destruct (truthy_string (getItem (storage w) (getStorageKey name))) eqn:Etr.
    2:{ rewrite restoreEffect_nothing by auto. simpl. tauto. }
    destruct (getItem (storage w) (getStorageKey name)) as [raw|] eqn:Hget;
      [|discriminate].
    simpl in Etr. apply negb_true_iff, String.eqb_neq in Etr.
    destruct (JSON_parse raw) as [parsed|] eqn:Hparse.
    2:{ rewrite (restoreEffect_syntax_error _ _ _ _ raw) by assumption.
        simpl. tauto. }
    destruct (destructure_savedAt parsed) as [[savedAt values]|e] eqn:Hd.
    2:{ rewrite (restoreEffect_destructure_error _ _ _ _ raw parsed e)
          by assumption. simpl. tauto. }
    destruct (isExpired (timeout cfg) now savedAt) as [expired|e] eqn:He.
    2:{ rewrite (restoreEffect_coercion_error _ _ _ _ raw parsed savedAt values e)
          by assumption. simpl. tauto. }
    rewrite (restoreEffect_parsed _ _ _ _ raw parsed savedAt values expired)
      by assumption.
    destruct expired; simpl; tauto.
Qed.

Lemma saveToStorage_frame name cfg watched now (w : World S) :
  let w' := snd (saveToStorage name cfg watched now w) in
  timers w' = timers w /\ nextTimer w' = nextTimer w /\
  debounceTimeoutRef (refs w') = debounceTimeoutRef (refs w) /\
  (storage w' = storage w
   \/ exists text, setItem (storage w) (getStorageKey name) text
                   = Some (storage w')).
Proof.
  cbv zeta.
  destruct (saveWarranted (lastValuesRef (refs w)) (candidateValues cfg watched))
    eqn:Hw.
  2:{ rewrite saveToStorage_unwarranted by exact Hw. simpl. tauto. }
  destruct (isSavingRef (refs w)) eqn:Hs.
  { rewrite saveToStorage_busy by exact Hs. simpl. tauto. }
  destruct (setItem (storage w) (getStorageKey name)
              (JSON_stringify
                 (JObj (recordToPersist cfg (candidateValues cfg watched) now))))
    as [s'|] eqn:Hset.
  - rewrite (saveToStorage_written name cfg watched now w s') by assumption.
    simpl. repeat (split; [reflexivity|]). right. eauto.
  - rewrite (saveToStorage_raised name cfg watched now w) by assumption.
    simpl. tauto.
Qed.

Lemma timerCallback_frame cl now (w : World S) :
  let w' := snd (timerCallback cl now w) in
  timers w' = timers w /\ nextTimer w' = nextTimer w /\
  debounceTimeoutRef (refs w') = debounceTimeoutRef (refs w).
Proof.
  destruct (timerCallback_session cl now w w eq_refl) as (_ & _ & Ht & Hn & Hr).
  cbv zeta. tauto.
Qed.

Lemma frame_keeps_order (w w' : World S) :
  timers w' = timers w -> nextTimer w' = nextTimer w ->
  debounceTimeoutRef (refs w') = debounceTimeoutRef (refs w) ->
  timers_in_order w -> timers_in_order w'.
Proof.
  unfold timers_in_order, timers_issued, at_most_one_pending.
  intros -> -> ->. tauto.
Qed.

Lemma cancelPending_in_order (w : World S) :
  timers_in_order w ->
  timers (cancelPending w) = [] /\ timers_in_order (cancelPending w).
Proof.
  intros [Hissued Hone].
  pose proof (cancelPending_empties w Hone) as He.
  split; [exact He|]. split.
  - now apply cancelPending_issued.
  - unfold at_most_one_pending. now rewrite He.
Qed.

Lemma perform_keeps_order ev (w : World S) :
  timers_in_order w -> timers_in_order (snd (perform ev w)).
Proof.
  intros Hord. destruct ev as [name cfg now|name cfg watched now| |id now|name];
    simpl.
  - destruct (restoreEffect_frame name cfg now w) as (Ht & Hn & Hr & _).
    now apply (frame_keeps_order w).
  - rewrite saveEffect_run.
    destruct (cancelPending_in_order w Hord) as [He Hc].
    destruct (Z.ltb 0 (debounceDelay cfg)).
    + simpl. split.
      * unfold timers_issued. simpl. rewrite He. simpl.
        constructor; [simpl; lia|constructor].
      * unfold at_most_one_pending. simpl. now rewrite He.
    + destruct (timerCallback_frame (closureOf name cfg watched) now
                  (cancelPending w)) as (Ht & Hn & Hr).
      now apply (frame_keeps_order (cancelPending w)).
  - rewrite saveEffectCleanup_run. simpl.
    now apply cancelPending_in_order.
  - unfold fireTimer.
    destruct (List.find (fun t => Pos.eqb (fst t) id) (timers w))
      as [[i cl]|] eqn:Ef; [|exact Hord].
    rewrite bind_run. unfold clearTimeout at 1.
    set (w1 := {| refs := refs w |}).
    assert (Hord1 : timers_in_order w1).
    { destruct Hord as [Hissued Hone]. split.
      - unfold timers_issued, w1. simpl. now apply Forall_cleared.
      - unfold at_most_one_pending in *. unfold w1. simpl.
        destruct (timers w) as [|[i' c'] [|t l]]; simpl in *;
          [exact I| |contradiction].
        destruct (Pos.eqb i' id); simpl; [exact I|discriminate]. }
    destruct (timerCallback_frame cl now w1) as (Ht & Hn & Hr).
    now apply (frame_keeps_order w1).
  - exact Hord.
Qed.

(** X15.  Whatever sequence of effect runs, cleanups, timer firings and
    [clear()] calls a fresh binding goes through, and whether or not some
    of them raise, at most one save is pending at any time, the hook holds
    its handle, and every pending handle was issued by [setTimeout]. *)
Theorem pending_saves_stay_in_order (evs : list event) (s : S) :
  let w := after evs (freshWorld s) in
  timers_issued w /\ at_most_one_pending w.
Proof.
  cbv zeta. unfold after.
  assert (H0 : timers_in_order (freshWorld s)) by (split; constructor).
  revert H0. generalize (freshWorld s).
  induction evs as [|ev evs IH]; intros w Hord; simpl; [exact Hord|].
  apply IH. now apply perform_keeps_order.
Qed.

(** Distinct form names have distinct storage keys. *)
Lemma storage_keys_do_not_collide name1 name2 :
  getStorageKey name1 = getStorageKey name2 -> name1 = name2.
Proof.
  unfold getStorageKey. intros E. cbv [String.append] in E. congruence.
Qed.

(** X14.  A [FormPersist] whose props give no [debounceDelay] (the default
    of line 18 is 0) or a non-positive one saves inside the change
    notification: an idle binding whose values to persist changed writes
    them at once under [react-hook-form-persist:<formKey>] and schedules
    no timer. *)
Theorem FormPersist_saves_at_once_by_default props watched now (w : World S) s' :
  let name := fst (Component.FormPersist props) in
  let cfg := snd (Component.FormPersist props) in
  let key := ("react-hook-form-persist:" ++ Component.formKey props)%string in
  let record := recordToPersist cfg (candidateValues cfg watched) now in
  let text := JSON_stringify (JObj record) in
  match opt_debounceDelay (Component.restProps props) with
  | Some delay => (delay <= 0)%Z
  | None => True
  end ->
  idle (refs w) ->
  saveWarranted (lastValuesRef (refs w)) (candidateValues cfg watched) = true ->
  setItem (storage w) key text = Some s' ->
  let r := changeNotification name cfg watched now w in
  fst r = Returns tt /\
  calls (snd r) = calls w ++ [setItem_call key text] /\
  storage (snd r) = s' /\
  lastValuesRef (refs (snd r)) = record /\
  nextTimer (snd r) = nextTimer w /\
  (at_most_one_pending w -> timers (snd r) = []).
Proof.
  intros name cfg key record text Hd Hidle Hw Hset.
  apply (immediate_save_without_delay name cfg watched now w s');
    try assumption.
  unfold cfg, Component.FormPersist, useFormPersist_config. simpl.
  destruct (opt_debounceDelay (Component.restProps props)); simpl; lia.
Qed.

End MoreProperties.

(** ** Over the in-memory store *)

Section InMemory.
Context {platform : Platform}.

(** X16.  Over an in-memory store, restoring, saving or clearing the form
    [name] leaves the record of every other form name as it was: distinct
    names have distinct storage keys. *)
Theorem bindings_do_not_interfere (w : World (gmap string string))
    name other cfg watched now :
  name <> other ->
  let k := getStorageKey other in
  getItem (storage (snd (restoreEffect name cfg now w))) k
  = getItem (storage w) k /\
  getItem (storage (snd (saveToStorage name cfg watched now w))) k
  = getItem (storage w) k /\
  getItem (storage (snd (clearStorage name w))) k = getItem (storage w) k.
Proof.
  intros Hne. cbv zeta.
  assert (Hk : getStorageKey name <> getStorageKey other).
  { intros E. now apply storage_keys_do_not_collide in E. }
  repeat split.
  - destruct (restoreEffect_frame name cfg now w) as (_ & _ & _ & [-> | ->]);
      [reflexivity|]. simpl. now apply lookup_delete_ne.
  - destruct (saveToStorage_frame name cfg watched now w)
      as (_ & _ & _ & [-> | [text Hset]]); [reflexivity|].
    cbn [setItem MapStorage] in Hset. inversion Hset as [E].
    simpl. now apply lookup_insert_ne.
  - simpl. now apply lookup_delete_ne.
Qed.

(** X17.  Over an in-memory store, once a restore has found the record
    expired the record is gone: a later fresh binding of the same name
    finds nothing, makes no call but the read, and completes its
    restore. *)
Theorem expired_record_is_gone name cfg cfg2 now now2
    (w : World (gmap string string)) raw o savedAt t :
  let key := getStorageKey name in
  unrestored (refs w) ->
  getItem (storage w) key = Some raw ->
  raw <> "" ->
  JSON_parse raw = Some (JObj o) ->
  obj_get o "_savedAt" = Some (JNum savedAt) ->
  timeout cfg = Some t ->
  t <> 0%Z ->
  (now - savedAt > t)%Z ->
  let r := restoreEffect name cfg now w in
  fst r = Returns tt /\
  getItem (storage (snd r)) key = None /\
  restoreEffect name cfg2 now2 (freshWorld (storage (snd r)))
  = (Returns tt,
     with_refs restore_done
       (with_calls [getItem_call key] (freshWorld (storage (snd r))))).
Proof.
  intros key Hu Hget Hne Hparse Hsa Ht Htz Hold. cbv zeta.
  rewrite (restoreEffect_parsed name cfg now w raw (JObj o) (JNum savedAt)
             (obj_rest o "_savedAt") true); try assumption.
  - simpl. split; [reflexivity|].
    assert (Hgone : delete (getStorageKey name) (storage w)
                      !! getStorageKey name = None) by apply lookup_delete_eq.
    split; [exact Hgone|].
    apply restoreEffect_nothing; [split; reflexivity|].
    simpl. fold key. unfold key. now rewrite Hgone.
  - simpl. now rewrite Hsa.
  - unfold isExpired. rewrite Ht. apply Z.eqb_neq in Htz. rewrite Htz. simpl.
    f_equal. apply Z.gtb_lt. lia.
Qed.

End InMemory.

(** ** The further properties on concrete bindings *)

Section OnReferencePlatform.

#[local] Existing Instance RefPlatform.

(** The exclusion loop on [{a: 1, b: 2, __proto__: 3}] with [b]
    excluded. *)
Lemma candidateValues_is_filter_witness :
  let watched := [("a", JNum 1); ("b", JNum 2); ("__proto__", JNum 3)] in
  List.NoDup (Object_keys watched) /\
  candidateValues excludingConfig watched = [("a", JNum 1)] /\
  obj_get (candidateValues excludingConfig watched) "b" = None /\
  obj_get (candidateValues excludingConfig watched) "__proto__" = None /\
  obj_get (candidateValues excludingConfig watched) "a" = Some (JNum 1).
Proof.
  cbv zeta.
  assert (Hn : List.NoDup
                 (Object_keys [("a", JNum 1); ("b", JNum 2); ("__proto__", JNum 3)])).
  { cbn. constructor.
    - intros [H | [H | []]]; discriminate H.
    - constructor.
      + intros [H | []]. discriminate H.
      + constructor; [intros [] | constructor]. }
  split; [exact Hn|].
  destruct (candidateValues_is_filter excludingConfig
              [("a", JNum 1); ("b", JNum 2); ("__proto__", JNum 3)] Hn)
    as (H1 & H2 & H3 & H4).
  split; [rewrite H1; reflexivity|].
  split; [apply H2; reflexivity|].
  split; [apply H3; discriminate|].
  rewrite H4; reflexivity.
Defined.

(** A second run of the restore effect, under another name and another
    configuration. *)
Lemma restore_effect_runs_once_witness :
  let w := freshWorld (storeWith (text_of [("a", JNum 1)])) in
  let w' := snd (restoreEffect formName defaultConfig 0 w) in
  restoreEffect formName defaultConfig 0 w = (Returns tt, w') /\
  restoreEffect "other-form" excludingConfig 7 w' = (Returns tt, w').
Proof.
  cbv zeta.
  assert (H : restoreEffect formName defaultConfig 0
                (freshWorld (storeWith (text_of [("a", JNum 1)])))
              = (Returns tt,
                 snd (restoreEffect formName defaultConfig 0
                        (freshWorld (storeWith (text_of [("a", JNum 1)]))))))
    by (vm_compute; reflexivity).
  split; [exact H|].
  exact (restore_effect_runs_once formName defaultConfig 0 _ _ H
           "other-form" excludingConfig 7%Z).
Defined.

(** A malformed record, read by one binding and then by the next. *)
Lemma failed_restore_repeats_on_remount_witness :
  let w := freshWorld (storeWith "{bad") in
  let w' := snd (restoreEffect formName defaultConfig 0 w) in
  unrestored (refs w) /\
  restoreEffect formName defaultConfig 0 w = (Throws SyntaxError, w') /\
  storage w' = storeWith "{bad" /\
  (let r := restoreEffect formName defaultConfig 100 (freshWorld (storage w')) in
   fst r = Throws SyntaxError /\
   calls (snd r) = [getItem_call formKey] /\
   storage (snd r) = storeWith "{bad").
Proof.
  cbv zeta.
  assert (Hu : unrestored (refs (freshWorld (storeWith "{bad"))))
    by (split; reflexivity).
  assert (H : restoreEffect formName defaultConfig 0
                (freshWorld (storeWith "{bad"))
              = (Throws SyntaxError,
                 snd (restoreEffect formName defaultConfig 0
                        (freshWorld (storeWith "{bad")))))
    by (vm_compute; reflexivity).
  repeat (split; [assumption|]).
  destruct (failed_restore_repeats_on_remount formName defaultConfig 0 100
              _ _ _ Hu H) as (_ & H2 & H3 & H4 & H5).
  split; [exact H2|]. split; [exact H3|]. split; [exact H4|].
  rewrite H5. exact H2.
Defined.

(** The record [null]. *)
Lemma restore_null_record_raises_witness :
  let w := freshWorld (storeWith "null") in
  unrestored (refs w) /\
  getItem (storage w) (getStorageKey formName) = Some "null" /\
  "null" <> "" /\
  JSON_parse "null" = Some JNull /\
  fst (restoreEffect formName excludingConfig 0 w) = Throws TypeError /\
  calls (snd (restoreEffect formName excludingConfig 0 w))
  = [getItem_call formKey].
Proof.
  cbv zeta.
  assert (Hu : unrestored (refs (freshWorld (storeWith "null"))))
    by (split; reflexivity).
  assert (Hg : getItem (storage (freshWorld (storeWith "null")))
                 (getStorageKey formName) = Some "null")
    by (vm_compute; reflexivity).
  assert (Hne : "null" <> "") by discriminate.
  assert (Hp : JSON_parse "null" = Some JNull) by (vm_compute; reflexivity).
  repeat (split; [assumption|]).
  destruct (restore_null_record_raises formName excludingConfig 0 _ _
              Hu Hg Hne Hp) as (H1 & H2 & _).
  split; [exact H1 | exact H2].
Defined.

(** The record [5], read before its timeout. *)
Lemma restore_scalar_record_witness :
  let w := freshWorld (storeWith "5") in
  unrestored (refs w) /\
  getItem (storage w) (getStorageKey formName) = Some "5" /\
  "5" <> "" /\
  JSON_parse "5" = Some (JNum 5) /\
  ((exists n, JNum 5 = JNum n) \/ (exists b, JNum 5 = JBool b)) /\
  restoreEffect formName (timeoutConfig 1000) 10 w
  = (Returns tt,
     with_refs (restore_applied [])
       (with_calls [getItem_call formKey; onDataRestored_call []] w)).
Proof.
  cbv zeta.
  assert (Hu : unrestored (refs (freshWorld (storeWith "5"))))
    by (split; reflexivity).
  assert (Hg : getItem (storage (freshWorld (storeWith "5")))
                 (getStorageKey formName) = Some "5")
    by (vm_compute; reflexivity).
  assert (Hne : "5" <> "") by discriminate.
  assert (Hp : JSON_parse "5" = Some (JNum 5)) by (vm_compute; reflexivity).
  assert (Hs : (exists n, JNum 5 = JNum n) \/ (exists b, JNum 5 = JBool b))
    by (left; exists 5%Z; reflexivity).
  repeat (split; [assumption|]).
  exact (restore_scalar_record formName (timeoutConfig 1000) 10 _ _ _
           Hu Hg Hne Hp Hs).
Defined.

(** The stored [{a: 1}] restored into a form that watches [a] and the
    excluded [b]: the notification that follows writes nothing back. *)
Lemma restored_values_not_saved_back_witness :
  let o := [("a", JNum 1)] in
  let raw := text_of o in
  let watched := [("a", JNum 1); ("b", JNum 2)] in
  let w := freshWorld (storeWith raw) in
  unrestored (refs w) /\
  timers_issued w /\
  getItem (storage w) (getStorageKey formName) = Some raw /\
  raw <> "" /\
  JSON_parse raw = Some (JObj o) /\
  isExpired (timeout excludingConfig) 0 JNull = Returns false /\
  candidateValues excludingConfig watched = obj_rest o "_savedAt" /\
  (let r := (restoreEffect formName excludingConfig 0
             >> changeNotification formName excludingConfig watched 1
             >> quietPeriodEnds 2) w in
   fst r = Returns tt /\ storage (snd r) = storage w /\ writes (calls (snd r)) = []).
Proof.
  cbv zeta.
  assert (Hu : unrestored (refs (freshWorld (storeWith (text_of [("a", JNum 1)])))))
    by (split; reflexivity).
  assert (Hi : timers_issued (freshWorld (storeWith (text_of [("a", JNum 1)]))))
    by constructor.
  assert (Hg : getItem (storage (freshWorld (storeWith (text_of [("a", JNum 1)]))))
                 (getStorageKey formName) = Some (text_of [("a", JNum 1)]))
    by (vm_compute; reflexivity).
  assert (Hne : text_of [("a", JNum 1)] <> "") by discriminate.
  assert (Hp : JSON_parse (text_of [("a", JNum 1)]) = Some (JObj [("a", JNum 1)]))
    by (vm_compute; reflexivity).
  assert (He : isExpired (timeout excludingConfig) 0 JNull = Returns false)
    by reflexivity.
  assert (Hc : candidateValues excludingConfig [("a", JNum 1); ("b", JNum 2)]
               = obj_rest [("a", JNum 1)] "_savedAt") by reflexivity.
  repeat (split; [assumption|]).
  destruct (restored_values_not_saved_back formName excludingConfig 0 1 2 _ _ _ _
              Hu Hi Hg Hne Hp He Hc) as (H1 & H2 & H3 & _).
  split; [exact H1|]. split; [exact H3|].
  rewrite H2. reflexivity.
Defined.

(** The stored [{a: 1}] and a first render that watches [{a: 2}]. *)
Lemma mount_saves_initial_values_witness :
  let o := [("a", JNum 1)] in
  let raw := text_of o in
  let watched := [("a", JNum 2)] in
  let w := freshWorld (storeWith raw) in
  let s' := <[formKey := text_of watched]> (storeWith raw) in
  unrestored (refs w) /\
  isSavingRef (refs w) = false /\
  getItem (storage w) (getStorageKey formName) = Some raw /\
  raw <> "" /\
  JSON_parse raw = Some (JObj o) /\
  isExpired (timeout defaultConfig) 0 JNull = Returns false /\
  (debounceDelay defaultConfig <= 0)%Z /\
  saveWarranted (obj_rest o "_savedAt") (candidateValues defaultConfig watched)
  = true /\
  setItem (storage w) (getStorageKey formName) (text_of watched) = Some s' /\
  (let r := mount formName defaultConfig watched 0 w in
   fst r = Returns tt /\
   writes (calls (snd r)) = [setItem_call formKey (text_of watched)] /\
   storage (snd r) = s').
Proof.
  cbv zeta.
  assert (Hu : unrestored (refs (freshWorld (storeWith (text_of [("a", JNum 1)])))))
    by (split; reflexivity).
  assert (Hs : isSavingRef (refs (freshWorld (storeWith (text_of [("a", JNum 1)]))))
               = false) by reflexivity.
  assert (Hg : getItem (storage (freshWorld (storeWith (text_of [("a", JNum 1)]))))
                 (getStorageKey formName) = Some (text_of [("a", JNum 1)]))
    by (vm_compute; reflexivity).
  assert (Hne : text_of [("a", JNum 1)] <> "") by discriminate.
  assert (Hp : JSON_parse (text_of [("a", JNum 1)]) = Some (JObj [("a", JNum 1)]))
    by (vm_compute; reflexivity).
  assert (He : isExpired (timeout defaultConfig) 0 JNull = Returns false)
    by reflexivity.
  assert (Hd : (debounceDelay defaultConfig <= 0)%Z) by (simpl; lia).
  assert (Hw : saveWarranted (obj_rest [("a", JNum 1)] "_savedAt")
                 (candidateValues defaultConfig [("a", JNum 2)]) = true)
    by (vm_compute; reflexivity).
  assert (Hset : setItem (storage (freshWorld (storeWith (text_of [("a", JNum 1)]))))
                   (getStorageKey formName) (text_of [("a", JNum 2)])
                 = Some (<[formKey := text_of [("a", JNum 2)]]>
                           (storeWith (text_of [("a", JNum 1)]))))
    by reflexivity.
  repeat (split; [assumption|]).
  destruct (mount_saves_initial_values formName defaultConfig 0 _ _ _ _ _
              Hu Hs Hg Hne Hp He Hd Hw Hset) as (H1 & H2 & H3 & _).
  split; [exact H1|]. split; [|exact H3].
  rewrite H2. reflexivity.
Defined.

(** A notification before the restore effect has run. *)
Lemma notification_filtered_witness :
  let w := freshWorld (storeWith (text_of [("a", JNum 1)])) in
  timers_issued w /\
  (isRestoringRef (refs w) = true \/ initializedRef (refs w) = false
   \/ isSavingRef (refs w) = true) /\
  (let r := (changeNotification formName excludingConfig [("a", JNum 2)] 1
             >> quietPeriodEnds 2) w in
   fst r = Returns tt /\ calls (snd r) = [] /\ storage (snd r) = storage w).
Proof.
  cbv zeta.
  assert (Hi : timers_issued (freshWorld (storeWith (text_of [("a", JNum 1)]))))
    by constructor.
  assert (Hf : isRestoringRef (refs (freshWorld (storeWith (text_of [("a", JNum 1)]))))
               = true
               \/ initializedRef (refs (freshWorld (storeWith (text_of [("a", JNum 1)]))))
                  = false
               \/ isSavingRef (refs (freshWorld (storeWith (text_of [("a", JNum 1)]))))
                  = true)
    by (right; left; reflexivity).
  repeat (split; [assumption|]).
  destruct (notification_filtered formName excludingConfig [("a", JNum 2)] 1 2 _
              Hi Hf) as (H1 & H2 & H3 & _).
  split; [exact H1|]. split; [exact H2 | exact H3].
Defined.

(** A notification under a delay of 500 ms. *)
Lemma debounced_notification_only_schedules_witness :
  let w := idleWorld (∅ : gmap string string) in
  (0 < debounceDelay excludingConfig)%Z /\
  at_most_one_pending w /\
  (let r := changeNotification formName excludingConfig [("a", JNum 1)] 0 w in
   fst r = Returns tt /\
   calls (snd r) = [] /\
   timers (snd r)
   = [(1%positive, closureOf formName excludingConfig [("a", JNum 1)])] /\
   debounceTimeoutRef (refs (snd r)) = Some 1%positive).
Proof.
  cbv zeta.
  assert (Hd : (0 < debounceDelay excludingConfig)%Z) by (simpl; lia).
  assert (Ho : at_most_one_pending (idleWorld (∅ : gmap string string)))
    by exact I.
  repeat (split; [assumption|]).
  rewrite (debounced_notification_only_schedules formName excludingConfig
             [("a", JNum 1)] 0 _ Hd Ho).
  repeat split.
Defined.

(** Two keystrokes within the quiet period: one write, of the second. *)
Lemma debounce_keeps_last_witness :
  let w := idleWorld (∅ : gmap string string) in
  (0 < debounceDelay excludingConfig)%Z /\
  timers_issued w /\
  (let r := (changeNotification formName excludingConfig [("a", JNum 1)] 0
             >> changeNotification formName excludingConfig [("a", JNum 2)] 100
             >> quietPeriodEnds 600) w in
   fst r = Returns tt /\
   calls (snd r) = [setItem_call formKey (text_of [("a", JNum 2)])] /\
   fireTimer 1 700 (snd r) = (Returns tt, snd r)).
Proof.
  cbv zeta.
  assert (Hd : (0 < debounceDelay excludingConfig)%Z) by (simpl; lia).
  assert (Hi : timers_issued (idleWorld (∅ : gmap string string)))
    by constructor.
  repeat (split; [assumption|]).
  destruct (debounce_keeps_last formName excludingConfig excludingConfig
              [("a", JNum 1)] [("a", JNum 2)] 0 100 600 _ Hd Hd Hi)
    as (H1 & H2 & _ & _ & H5).
  split; [rewrite H1; reflexivity|].
  split; [rewrite H2; reflexivity|].
  exact (H5 700%Z).
Defined.

(** Unmounting within the quiet period. *)
Lemma cleanup_cancels_pending_save_witness :
  let w := idleWorld (∅ : gmap string string) in
  (0 < debounceDelay excludingConfig)%Z /\
  at_most_one_pending w /\
  (let r := (changeNotification formName excludingConfig [("a", JNum 1)] 0
             >> saveEffectCleanup) w in
   fst r = Returns tt /\
   timers (snd r) = [] /\
   calls (snd r) = [] /\
   fireTimer 1 600 (snd r) = (Returns tt, snd r)).
Proof.
  cbv zeta.
  assert (Hd : (0 < debounceDelay excludingConfig)%Z) by (simpl; lia).
  assert (Ho : at_most_one_pending (idleWorld (∅ : gmap string string)))
    by exact I.
  repeat (split; [assumption|]).
  destruct (cleanup_cancels_pending_save formName excludingConfig
              [("a", JNum 1)] 0 _ Hd Ho) as (H1 & H2 & H3 & _ & _ & H6).
  split; [exact H1|]. split; [exact H2|]. split; [exact H3|].
  exact (H6 1%positive 600%Z).
Defined.

(** [clear()] within the quiet period: the record comes back. *)
Lemma clear_keeps_pending_save_witness :
  let w := idleWorld (storeWith (text_of [("a", JNum 1)])) in
  let text := text_of [("a", JNum 2)] in
  let s' := <[formKey := text]> (delete formKey (storage w)) in
  (0 < debounceDelay excludingConfig)%Z /\
  timers_issued w /\
  idle (refs w) /\
  saveWarranted (lastValuesRef (refs w))
    (candidateValues excludingConfig [("a", JNum 2)]) = true /\
  setItem (removeItem (storage w) (getStorageKey formName))
    (getStorageKey formName) text = Some s' /\
  (let r := (changeNotification formName excludingConfig [("a", JNum 2)] 0
             >> clearStorage formName
             >> quietPeriodEnds 600) w in
   fst r = Returns tt /\
   calls (snd r) = [removeItem_call formKey; setItem_call formKey text] /\
   getItem (storage (snd r)) formKey = Some text).
Proof.
  cbv zeta.
  assert (Hd : (0 < debounceDelay excludingConfig)%Z) by (simpl; lia).
  assert (Hi : timers_issued (idleWorld (storeWith (text_of [("a", JNum 1)]))))
    by constructor.
  assert (Hidle : idle (refs (idleWorld (storeWith (text_of [("a", JNum 1)])))))
    by (repeat split).
  assert (Hw : saveWarranted
                 (lastValuesRef (refs (idleWorld (storeWith (text_of [("a", JNum 1)])))))
                 (candidateValues excludingConfig [("a", JNum 2)]) = true)
    by (vm_compute; reflexivity).
  assert (Hset : setItem
                   (removeItem (storage (idleWorld (storeWith (text_of [("a", JNum 1)]))))
                      (getStorageKey formName))
                   (getStorageKey formName) (text_of [("a", JNum 2)])
                 = Some (<[formKey := text_of [("a", JNum 2)]]>
                           (delete formKey
                              (storage (idleWorld (storeWith (text_of [("a", JNum 1)])))))))
    by reflexivity.
  repeat (split; [assumption|]).
  destruct (clear_keeps_pending_save formName excludingConfig [("a", JNum 2)]
              0 600 _ _ Hd Hi Hidle Hw Hset) as (H1 & H2 & H3 & _).
  split; [exact H1|]. split; [exact H2|].
  rewrite H3. vm_compute. reflexivity.
Defined.

(** A [FormPersist] given nothing but the form and its key. *)
Lemma FormPersist_saves_at_once_by_default_witness :
  let props :=
    {| Component.formKey := formName;
       Component.restProps :=
         {| opt_exclude := None; opt_onDataRestored := false;
            opt_validate := None; opt_dirty := None; opt_touch := None;
            opt_onTimeout := false; opt_timeout := None;
            opt_debounceDelay := None |} |} in
  let name := fst (Component.FormPersist props) in
  let cfg := snd (Component.FormPersist props) in
  let watched := [("a", JNum 1)] in
  let w := idleWorld (∅ : gmap string string) in
  let s' := <[formKey := text_of watched]> (∅ : gmap string string) in
  match opt_debounceDelay (Component.restProps props) with
  | Some delay => (delay <= 0)%Z
  | None => True
  end /\
  idle (refs w) /\
  saveWarranted (lastValuesRef (refs w)) (candidateValues cfg watched) = true /\
  setItem (storage w) formKey (text_of watched) = Some s' /\
  (let r := changeNotification name cfg watched 0 w in
   fst r = Returns tt /\
   calls (snd r) = [setItem_call formKey (text_of watched)] /\
   storage (snd r) = s' /\
   timers (snd r) = []).
Proof.
  cbv zeta.
  set (props :=
    {| Component.formKey := formName;
       Component.restProps :=
         {| opt_exclude := None; opt_onDataRestored := false;
            opt_validate := None; opt_dirty := None; opt_touch := None;
            opt_onTimeout := false; opt_timeout := None;
            opt_debounceDelay := None |} |}).
  assert (Hd : match opt_debounceDelay (Component.restProps props) with
               | Some delay => (delay <= 0)%Z
               | None => True
               end) by exact I.
  assert (Hidle : idle (refs (idleWorld (∅ : gmap string string))))
    by (repeat split).
  assert (Hw : saveWarranted
                 (lastValuesRef (refs (idleWorld (∅ : gmap string string))))
                 (candidateValues (snd (Component.FormPersist props))
                    [("a", JNum 1)]) = true)
    by (vm_compute; reflexivity).
  assert (Hset : setItem (storage (idleWorld (∅ : gmap string string))) formKey
                   (text_of [("a", JNum 1)])
                 = Some (<[formKey := text_of [("a", JNum 1)]]>
                           (∅ : gmap string string)))
    by reflexivity.
  repeat (split; [assumption|]).
  destruct (FormPersist_saves_at_once_by_default props [("a", JNum 1)] 0 _ _
              Hd Hidle Hw Hset) as (H1 & H2 & H3 & _ & _ & H6).
  split; [exact H1|]. split; [exact H2|]. split; [exact H3|].
  exact (H6 I).
Defined.

(** Two forms over one store. *)
Lemma bindings_do_not_interfere_witness :
  let w := idleWorld (<["react-hook-form-persist:other-form" := "kept"]>
                        (storeWith (text_of [("a", JNum 1)]))) in
  formName <> "other-form" /\
  getItem (storage (snd (saveToStorage formName defaultConfig [("a", JNum 2)] 0 w)))
    "react-hook-form-persist:other-form" = Some "kept" /\
  getItem (storage (snd (clearStorage formName w)))
    "react-hook-form-persist:other-form" = Some "kept".
Proof.
  cbv zeta.
  assert (Hn : formName <> "other-form") by discriminate.
  split; [exact Hn|].
  destruct (bindings_do_not_interfere
              (idleWorld (<["react-hook-form-persist:other-form" := "kept"]>
                            (storeWith (text_of [("a", JNum 1)]))))
              formName "other-form" defaultConfig [("a", JNum 2)] 0 Hn)
    as (_ & H2 & H3).
  split; [exact H2 | exact H3].
Defined.

(** A record saved at 1000 and read at 5000 with a timeout of 1000. *)
Lemma expired_record_is_gone_witness :
  let o := [("a", JNum 1); ("_savedAt", JNum 1000)] in
  let raw := text_of o in
  let w := freshWorld (storeWith raw) in
  unrestored (refs w) /\
  getItem (storage w) (getStorageKey formName) = Some raw /\
  raw <> "" /\
  JSON_parse raw = Some (JObj o) /\
  obj_get o "_savedAt" = Some (JNum 1000) /\
  timeout (timeoutConfig 1000) = Some 1000%Z /\
  1000%Z <> 0%Z /\
  (5000 - 1000 > 1000)%Z /\
  (let r := restoreEffect formName (timeoutConfig 1000) 5000 w in
   fst r = Returns tt /\
   getItem (storage (snd r)) (getStorageKey formName) = None /\
   calls (snd (restoreEffect formName defaultConfig 6000
                 (freshWorld (storage (snd r)))))
   = [getItem_call formKey]).
Proof.
  cbv zeta.
  assert (Hu : unrestored
                 (refs (freshWorld (storeWith (text_of [("a", JNum 1); ("_savedAt", JNum 1000)])))))
    by (split; reflexivity).
  assert (Hg : getItem
                 (storage (freshWorld (storeWith (text_of [("a", JNum 1); ("_savedAt", JNum 1000)]))))
                 (getStorageKey formName)
               = Some (text_of [("a", JNum 1); ("_savedAt", JNum 1000)]))
    by (vm_compute; reflexivity).
  assert (Hne : text_of [("a", JNum 1); ("_savedAt", JNum 1000)] <> "")
    by discriminate.
  assert (Hp : JSON_parse (text_of [("a", JNum 1); ("_savedAt", JNum 1000)])
               = Some (JObj [("a", JNum 1); ("_savedAt", JNum 1000)]))
    by (vm_compute; reflexivity).
  assert (Hs : obj_get [("a", JNum 1); ("_savedAt", JNum 1000)] "_savedAt"
               = Some (JNum 1000)) by reflexivity.
  assert (Ht : timeout (timeoutConfig 1000) = Some 1000%Z) by reflexivity.
  assert (Hz : 1000%Z <> 0%Z) by lia.
  assert (Hx : (5000 - 1000 > 1000)%Z) by lia.
  repeat (split; [assumption|]).
  destruct (expired_record_is_gone formName (timeoutConfig 1000) defaultConfig
              5000 6000 _ _ _ _ _ Hu Hg Hne Hp Hs Ht Hz Hx) as (H1 & H2 & H3).
  split; [exact H1|]. split; [exact H2|].
  rewrite H3. reflexivity.
Defined.

End OnReferencePlatform.
